(** * The VEED replica's identity and event tracking facade

    A shallow embedding of the analytics facade of the site
    ([VeedAnalytics], the analytics script) and of the parts of the
    application shell ([VeedApp], js/main.js) that drive it, together
    with the properties of the facade that the specification states and
    with further properties of the two scripts that their code shows.

    The browser is modelled as one explicit state ([Browser]): the tracking
    transport with the log of the calls it received, [localStorage], the
    fields of the two objects, the closure of the scroll listener, and the
    oracles for what the page cannot control (Math.random, the clock, the
    DOM).  A method is a computation in a small state-and-exception monad;
    an exception leaves in place whatever the method did before it was
    raised, as in the browser. *)

From Stdlib Require Import ZArith QArith Qround Lia List Ascii String.
From stdpp Require Import gmap strings list pretty.

Local Open Scope string_scope.
Local Open Scope Z_scope.

(* ===================================================================== *)
(** * Part I.  The model                                                 *)
(* ===================================================================== *)

(** ** JavaScript values *)

(** Numbers.  Finite values are exact rationals: the rounding of IEEE
    doubles is not part of the model.  Infinities and NaN are, since
    the scroll depth is a quotient whose divisor the page does not
    control. *)
Inductive jsnum : Type :=
| Fin (q : Q)
| PInf
| NInf
| NaN.

Definition js_add (a b : jsnum) : jsnum :=
  match a, b with
  | NaN, _ | _, NaN => NaN
  | PInf, NInf | NInf, PInf => NaN
  | PInf, _ | _, PInf => PInf
  | NInf, _ | _, NInf => NInf
  | Fin x, Fin y => Fin (x + y)
  end.

(** [a / b] for finite operands; a zero divisor gives an infinity of the
    sign of the dividend, or NaN for 0/0 (signed zeros are not kept). *)
Definition js_div (a b : jsnum) : jsnum :=
  match a, b with
  | Fin x, Fin y =>
      if Qeq_bool y 0 then
        match (x ?= 0)%Q with
        | Eq => NaN
        | Gt => PInf
        | Lt => NInf
        end
      else Fin (x / y)
  | NaN, _ | _, NaN => NaN
  | Fin _, (PInf | NInf) => Fin 0
  | (PInf | NInf), (PInf | NInf) => NaN
  | PInf, Fin y => match (y ?= 0)%Q with Lt => NInf | _ => PInf end
  | NInf, Fin y => match (y ?= 0)%Q with Lt => PInf | _ => NInf end
  end.

(** [a > b]; every comparison with NaN is false. *)
Definition js_gt (a b : jsnum) : bool :=
  match a, b with
  | NaN, _ | _, NaN => false
  | PInf, PInf => false
  | PInf, _ => true
  | _, PInf => false
  | NInf, _ => false
  | Fin _, NInf => true
  | Fin x, Fin y => match (x ?= y)%Q with Gt => true | _ => false end
  end.

(** [a >= b]. *)
Definition js_ge (a b : jsnum) : bool :=
  match a, b with
  | NaN, _ | _, NaN => false
  | PInf, _ => true
  | _, NInf => true
  | NInf, _ => false
  | Fin _, PInf => false
  | Fin x, Fin y => match (x ?= y)%Q with Lt => false | _ => true end
  end.

Definition num_of_Z (z : Z) : jsnum := Fin (inject_Z z).

(** The values that occur in trait and property maps. *)
Inductive jsval : Type :=
| VUndef
| VNull
| VBool (b : bool)
| VNum (n : jsnum)
| VStr (s : string)
| VList (l : list string)
| VRec (members : list (string * option string)).

(** An object literal: its own properties in insertion order. *)
Definition obj : Type := list (string * jsval).

Definition truthy_string (s : string) : bool :=
  match s with
  | EmptyString => false
  | String _ _ => true
  end.

(** A value that is [null] or a string, as [localStorage.getItem] returns
    and as the user id fields hold. *)
Definition truthy_opt (o : option string) : bool :=
  match o with
  | Some s => truthy_string s
  | None => false
  end.

(** [a || b] on such values. *)
Definition or_else (a b : option string) : option string :=
  if truthy_opt a then a else b.

Definition truthy (v : jsval) : bool :=
  match v with
  | VUndef | VNull => false
  | VBool b => b
  | VNum (Fin q) => negb (Qeq_bool q 0)
  | VNum NaN => false
  | VNum _ => true
  | VStr s => truthy_string s
  | VList _ | VRec _ => true
  end.

(** [a || b] on values. *)
Definition js_or (a b : jsval) : jsval := if truthy a then a else b.

Definition val_of_opt (o : option string) : jsval :=
  match o with
  | Some s => VStr s
  | None => VNull
  end.

(** Property lookup in an object literal. *)
Fixpoint obj_get (o : obj) (k : string) : option jsval :=
  match o with
  | [] => None
  | (k', v) :: o' => if String.eqb k' k then Some v else obj_get o' k
  end.

Definition obj_has (o : obj) (k : string) : bool :=
  match obj_get o k with
  | Some _ => true
  | None => false
  end.

(** ** Strings *)

Definition dquote : ascii := "034"%char.
Definition bslash : ascii := "092"%char.

(** [s.charAt(i)]: the one-character string at index [i], the empty string
    when [i] is out of range. *)
Definition charAt (s : string) (i : Z) : string :=
  if i <? 0 then EmptyString
  else match String.get (Z.to_nat i) s with
       | Some c => String c EmptyString
       | None => EmptyString
       end.

(** [s.split('@')[0]]: the part of [s] before its first [@]. *)
Fixpoint before_at (s : string) : string :=
  match s with
  | EmptyString => EmptyString
  | String c r => if Ascii.eqb c "@"%char then EmptyString else String c (before_at r)
  end.

Definition is_digit (c : ascii) : bool :=
  (48 <=? nat_of_ascii c)%nat && (nat_of_ascii c <=? 57)%nat.

Fixpoint read_digits (s : string) (acc : option Z) : option Z :=
  match s with
  | EmptyString => acc
  | String c r =>
      if is_digit c then
        read_digits r
          (Some (10 * default 0 acc + Z.of_nat (nat_of_ascii c - 48)))
      else acc
  end.

(** [parseInt(s)] for the decimal texts the counters hold: an optional
    sign and the longest run of digits; [None] is NaN.  Leading white
    space and the [0x] prefix are not modelled. *)
Definition parseInt (s : string) : option Z :=
  match s with
  | String "-"%char r => Z.opp <$> read_digits r None
  | String "+"%char r => read_digits r None
  | _ => read_digits s None
  end.

(** [n.toString()] of such a count. *)
Definition count_toString (n : option Z) : string :=
  match n with
  | Some z => pretty z
  | None => "NaN"
  end.

Definition val_of_count (n : option Z) : jsval :=
  match n with
  | Some z => VNum (num_of_Z z)
  | None => VNum NaN
  end.

(** ** The JSON texts of the store *)

(** The documents the program writes with [JSON.stringify] and reads back
    with [JSON.parse]: the list of completed milestones (an array of
    strings) and the user data (an object whose members are strings or
    [null]).  [JSON_parse] accepts the texts of these documents in the form
    [JSON_stringify] prints them, without white space; [None] stands for
    the SyntaxError of the runtime.  A character is one byte. *)
Inductive jdoc : Type :=
| JArr (elems : list string)
| JObj (members : list (string * option string)).

Definition hex_digit (n : nat) : ascii :=
  if (n <? 10)%nat then ascii_of_nat (48 + n) else ascii_of_nat (87 + n).

Definition hex_val (c : ascii) : option nat :=
  let n := nat_of_ascii c in
  if (48 <=? n)%nat && (n <=? 57)%nat then Some (n - 48)%nat
  else if (97 <=? n)%nat && (n <=? 102)%nat then Some (n - 87)%nat
  else if (65 <=? n)%nat && (n <=? 70)%nat then Some (n - 55)%nat
  else None.

Definition str2 (a b : ascii) : string := String a (String b EmptyString).

(** How [JSON.stringify] prints one character of a string. *)
Definition escape_char (c : ascii) : string :=
  let n := nat_of_ascii c in
  if Ascii.eqb c dquote then str2 bslash dquote
  else if Ascii.eqb c bslash then str2 bslash bslash
  else if (n =? 8)%nat then str2 bslash "b"
  else if (n =? 9)%nat then str2 bslash "t"
  else if (n =? 10)%nat then str2 bslash "n"
  else if (n =? 12)%nat then str2 bslash "f"
  else if (n =? 13)%nat then str2 bslash "r"
  else if (n <? 32)%nat then
    String bslash
      (String "u" (String "0" (String "0"
         (str2 (hex_digit (n / 16)) (hex_digit (n mod 16))))))
  else String c EmptyString.

Fixpoint json_escape (s : string) : string :=
  match s with
  | EmptyString => EmptyString
  | String c r => escape_char c ++ json_escape r
  end.

Definition json_quote (s : string) : string :=
  String dquote (json_escape s ++ String dquote EmptyString).

Definition unescape (e : ascii) : option ascii :=
  if Ascii.eqb e dquote then Some dquote
  else if Ascii.eqb e bslash then Some bslash
  else if Ascii.eqb e "/" then Some "/"%char
  else if Ascii.eqb e "b" then Some "008"%char
  else if Ascii.eqb e "t" then Some "009"%char
  else if Ascii.eqb e "n" then Some "010"%char
  else if Ascii.eqb e "f" then Some "012"%char
  else if Ascii.eqb e "r" then Some "013"%char
  else None.

Definition hex4 (h1 h2 h3 h4 : ascii) : option ascii :=
  a ← hex_val h1; b ← hex_val h2; c ← hex_val h3; d ← hex_val h4;
  let v := (((a * 16 + b) * 16 + c) * 16 + d)%nat in
  if (v <? 256)%nat then Some (ascii_of_nat v) else None.

(** Reads the characters of a string literal after its opening quote, up
    to the closing one; returns the string and the text that follows. *)
Fixpoint read_chars (s : string) : option (string * string) :=
  match s with
  | EmptyString => None
  | String c r =>
      if Ascii.eqb c dquote then Some (EmptyString, r)
      else if Ascii.eqb c bslash then
        match r with
        | EmptyString => None
        | String e r1 =>
            if Ascii.eqb e "u" then
              match r1 with
              | String h1 (String h2 (String h3 (String h4 r2))) =>
                  ch ← hex4 h1 h2 h3 h4;
                  '(x, rest) ← read_chars r2;
                  Some (String ch x, rest)
              | _ => None
              end
            else
              ch ← unescape e;
              '(x, rest) ← read_chars r1;
              Some (String ch x, rest)
        end
      else if (nat_of_ascii c <? 32)%nat then None
      else '(x, rest) ← read_chars r; Some (String c x, rest)
  end.

Definition read_string (s : string) : option (string * string) :=
  match s with
  | String c r => if Ascii.eqb c dquote then read_chars r else None
  | EmptyString => None
  end.

(** The elements of an array after its opening bracket, at least one. *)
Fixpoint read_elems (fuel : nat) (s : string) : option (list string * string) :=
  match fuel with
  | O => None
  | S f =>
      '(x, r) ← read_string s;
      match r with
      | String "," r1 => '(xs, rest) ← read_elems f r1; Some (x :: xs, rest)
      | String "]" r1 => Some ([x], r1)
      | _ => None
      end
  end.

(** A member value: [null] or a string. *)
Definition read_value (s : string) : option (option string * string) :=
  match s with
  | String "n" (String "u" (String "l" (String "l" r))) => Some (None, r)
  | _ => '(x, r) ← read_string s; Some (Some x, r)
  end.

(** The members of an object after its opening brace, at least one. *)
Fixpoint read_members (fuel : nat) (s : string)
  : option (list (string * option string) * string) :=
  match fuel with
  | O => None
  | S f =>
      '(k, r) ← read_string s;
      match r with
      | String ":" r1 =>
          '(v, r2) ← read_value r1;
          match r2 with
          | String "," r3 =>
              '(ms, rest) ← read_members f r3; Some ((k, v) :: ms, rest)
          | String "}" r3 => Some ([(k, v)], r3)
          | _ => None
          end
      | _ => None
      end
  end.

(** The user data object: members in insertion order, no key twice. *)
Definition record : Type := list (string * option string).

(** [o.k]: [None] is [undefined], [Some None] is [null]. *)
Fixpoint rec_get (o : record) (k : string) : option (option string) :=
  match o with
  | [] => None
  | (k', v) :: o' => if String.eqb k' k then Some v else rec_get o' k
  end.

(** [o.k = v]: in place when [o] has the key, else as a new last member. *)
Fixpoint rec_set (o : record) (k : string) (v : option string) : record :=
  match o with
  | [] => [(k, v)]
  | (k', w) :: o' =>
      if String.eqb k' k then (k', v) :: o' else (k', w) :: rec_set o' k v
  end.

(** The object a member list denotes: a key that occurs again replaces
    the value of its first occurrence. *)
Definition normalise (ms : list (string * option string)) : record :=
  fold_left (fun o m => rec_set o (fst m) (snd m)) ms [].

Definition JSON_parse (s : string) : option jdoc :=
  match s with
  | String "[" (String "]" EmptyString) => Some (JArr [])
  | String "{" (String "}" EmptyString) => Some (JObj [])
  | String "[" r =>
      match read_elems (String.length r) r with
      | Some (xs, EmptyString) => Some (JArr xs)
      | _ => None
      end
  | String "{" r =>
      match read_members (String.length r) r with
      | Some (ms, EmptyString) => Some (JObj (normalise ms))
      | _ => None
      end
  | _ => None
  end.

Fixpoint print_elems (l : list string) : string :=
  match l with
  | [] => EmptyString
  | [x] => json_quote x
  | x :: l' => json_quote x ++ String "," (print_elems l')
  end.

Definition print_value (v : option string) : string :=
  match v with
  | None => "null"
  | Some s => json_quote s
  end.

Definition print_member (m : string * option string) : string :=
  json_quote (fst m) ++ String ":" (print_value (snd m)).

Fixpoint print_members (l : list (string * option string)) : string :=
  match l with
  | [] => EmptyString
  | [m] => print_member m
  | m :: l' => print_member m ++ String "," (print_members l')
  end.

Definition JSON_stringify (d : jdoc) : string :=
  match d with
  | JArr l => String "[" (print_elems l ++ String "]" EmptyString)
  | JObj l => String "{" (print_members l ++ String "}" EmptyString)
  end.

(** A member read as a string-or-null operand of [||]: [undefined] and
    [null] are both falsy, and told apart only where the value is used
    as it is. *)
Definition rec_str (o : record) (k : string) : option string :=
  match rec_get o k with
  | Some v => v
  | None => None
  end.

Definition val_of_member (m : option (option string)) : jsval :=
  match m with
  | None => VUndef
  | Some v => val_of_opt v
  end.

(** What the program sees of a parsed text when it reads members from
    it: an array has none of the members it asks for. *)
Definition members_of (d : jdoc) : record :=
  match d with
  | JObj ms => ms
  | JArr _ => []
  end.

(** ** The browser *)

(** A call received by the tracking transport.  The transport is the
    vendor's library, outside the repository: the model keeps the calls
    it is handed, in order, and nothing of what it does with them. *)
Inductive Call : Type :=
| CPage (name : string) (properties : obj)
| CIdentify (userId : option string) (traits : obj)
| CTrack (event : string) (properties : obj)
| CReset.

(** What the page reads and cannot control. *)
Record Env : Type := {
  random : nat -> Q;            (* outcome of the n-th Math.random() *)
  clock : nat -> Z;             (* n-th reading of the clock, in ms *)
  toISOString : Z -> string;    (* Date.prototype.toISOString *)
  toString36 : Q -> string;     (* x.toString(36).substr(2, 9) *)
  location_href : string;
  location_pathname : string;
  document_referrer : string;
  document_title : string;
  navigator_userAgent : string;
  screen_width : Z;
  screen_height : Z;
  segment_anonymousId : string; (* analytics.user().anonymousId() *)
  editor_modal : bool;          (* the page has an #editor-modal *)
  confirm : string -> bool      (* the visitor's answer to confirm(msg) *)
}.

Record Viewport : Type := {
  scrollY : Q;
  innerHeight : Q;
  scrollHeight : Q
}.

(** The fields of the [VeedAnalytics] instance. *)
Record Analytics : Type := {
  userId : option string;
  sessionId : string;
  anonymousId : option string;
  isInitialized : bool
}.

(** The variables the scroll listener closes over. *)
Record ScrollClosure : Type := {
  maxScrollDepth : jsnum;
  fired25 : bool;
  fired50 : bool;
  fired75 : bool;
  fired100 : bool;
  scrollTimeout : bool          (* a debounce timer is pending *)
}.

(** The fields of the [VeedApp] instance. *)
Record App : Type := {
  currentUser : option record;
  currentPlan : string;
  projectCount : option Z;
  sessionStartTime : Z
}.

Record Browser : Type := {
  env : Env;
  analytics_defined : bool;     (* typeof analytics !== 'undefined' *)
  calls : list Call;            (* received by the transport, oldest first *)
  ready_pending : bool;         (* a callback waits in analytics.ready *)
  localStorage : gmap string string;
  draws : nat;                  (* Math.random() calls so far *)
  ticks : nat;                  (* clock readings so far *)
  viewport : Viewport;
  va : Analytics;               (* the VeedAnalytics instance *)
  window_veedAnalytics : bool;  (* window.veedAnalytics is assigned *)
  scroll : option ScrollClosure;(* set once the scroll listener is added *)
  window_app : App          (* the VeedApp instance, window.app *)
}.

Definition set_calls (f : list Call -> list Call) (b : Browser) : Browser :=
  {| env := env b; analytics_defined := analytics_defined b;
     calls := f (calls b); ready_pending := ready_pending b;
     localStorage := localStorage b; draws := draws b; ticks := ticks b;
     viewport := viewport b; va := va b;
     window_veedAnalytics := window_veedAnalytics b; scroll := scroll b;
     window_app := window_app b |}.

Definition set_ready (r : bool) (b : Browser) : Browser :=
  {| env := env b; analytics_defined := analytics_defined b;
     calls := calls b; ready_pending := r;
     localStorage := localStorage b; draws := draws b; ticks := ticks b;
     viewport := viewport b; va := va b;
     window_veedAnalytics := window_veedAnalytics b; scroll := scroll b;
     window_app := window_app b |}.

Definition set_storage (f : gmap string string -> gmap string string)
  (b : Browser) : Browser :=
  {| env := env b; analytics_defined := analytics_defined b;
     calls := calls b; ready_pending := ready_pending b;
     localStorage := f (localStorage b); draws := draws b; ticks := ticks b;
     viewport := viewport b; va := va b;
     window_veedAnalytics := window_veedAnalytics b; scroll := scroll b;
     window_app := window_app b |}.

Definition set_draws (n : nat) (b : Browser) : Browser :=
  {| env := env b; analytics_defined := analytics_defined b;
     calls := calls b; ready_pending := ready_pending b;
     localStorage := localStorage b; draws := n; ticks := ticks b;
     viewport := viewport b; va := va b;
     window_veedAnalytics := window_veedAnalytics b; scroll := scroll b;
     window_app := window_app b |}.

Definition set_ticks (n : nat) (b : Browser) : Browser :=
  {| env := env b; analytics_defined := analytics_defined b;
     calls := calls b; ready_pending := ready_pending b;
     localStorage := localStorage b; draws := draws b; ticks := n;
     viewport := viewport b; va := va b;
     window_veedAnalytics := window_veedAnalytics b; scroll := scroll b;
     window_app := window_app b |}.

Definition set_viewport (v : Viewport) (b : Browser) : Browser :=
  {| env := env b; analytics_defined := analytics_defined b;
     calls := calls b; ready_pending := ready_pending b;
     localStorage := localStorage b; draws := draws b; ticks := ticks b;
     viewport := v; va := va b;
     window_veedAnalytics := window_veedAnalytics b; scroll := scroll b;
     window_app := window_app b |}.

Definition set_va (f : Analytics -> Analytics) (b : Browser) : Browser :=
  {| env := env b; analytics_defined := analytics_defined b;
     calls := calls b; ready_pending := ready_pending b;
     localStorage := localStorage b; draws := draws b; ticks := ticks b;
     viewport := viewport b; va := f (va b);
     window_veedAnalytics := window_veedAnalytics b; scroll := scroll b;
     window_app := window_app b |}.

Definition set_window_veedAnalytics (w : bool) (b : Browser) : Browser :=
  {| env := env b; analytics_defined := analytics_defined b;
     calls := calls b; ready_pending := ready_pending b;
     localStorage := localStorage b; draws := draws b; ticks := ticks b;
     viewport := viewport b; va := va b;
     window_veedAnalytics := w; scroll := scroll b;
     window_app := window_app b |}.

Definition set_scroll (s : option ScrollClosure) (b : Browser) : Browser :=
  {| env := env b; analytics_defined := analytics_defined b;
     calls := calls b; ready_pending := ready_pending b;
     localStorage := localStorage b; draws := draws b; ticks := ticks b;
     viewport := viewport b; va := va b;
     window_veedAnalytics := window_veedAnalytics b; scroll := s;
     window_app := window_app b |}.

Definition set_app (f : App -> App) (b : Browser) : Browser :=
  {| env := env b; analytics_defined := analytics_defined b;
     calls := calls b; ready_pending := ready_pending b;
     localStorage := localStorage b; draws := draws b; ticks := ticks b;
     viewport := viewport b; va := va b;
     window_veedAnalytics := window_veedAnalytics b; scroll := scroll b;
     window_app := f (window_app b) |}.

(** ** Computations *)

Inductive jserror : Type :=
| ReferenceError (what : string)
| TypeError (what : string)
| SyntaxError.

Inductive completion (A : Type) : Type :=
| Normal (a : A)
| Throw (e : jserror).
Arguments Normal {A} a.
Arguments Throw {A} e.

(** A piece of JavaScript run against the browser: how it completes, and
    the browser it leaves, also when it throws. *)
Definition M (A : Type) : Type := Browser -> completion A * Browser.

Definition ret {A : Type} (a : A) : M A := fun b => (Normal a, b).

Definition bind {A B : Type} (m : M A) (k : A -> M B) : M B :=
  fun b =>
    match m b with
    | (Normal a, b') => k a b'
    | (Throw e, b') => (Throw e, b')
    end.

Definition throw {A : Type} (e : jserror) : M A := fun b => (Throw e, b).

Definition gets {A : Type} (f : Browser -> A) : M A := fun b => (Normal (f b), b).

Definition modify (f : Browser -> Browser) : M unit := fun b => (Normal tt, f b).

Declare Scope js_scope.
Delimit Scope js_scope with js.
Notation "x ← y ; z" := (bind y (fun x => z))
  (at level 20, y at level 100, z at level 200, only parsing) : js_scope.
Notation "x ;; z" := (bind x (fun _ => z))
  (at level 100, z at level 200, only parsing, right associativity) : js_scope.
Local Open Scope js_scope.

(** [try { m } catch (e) { h }]. *)
Definition try_catch {A : Type} (m : M A) (h : jserror -> M A) : M A :=
  fun b =>
    match m b with
    | (Normal a, b') => (Normal a, b')
    | (Throw e, b') => h e b'
    end.

(** The browser a computation leaves, and how it completed. *)
Definition after {A : Type} (m : M A) (b : Browser) : Browser := snd (m b).
Definition outcome {A : Type} (m : M A) (b : Browser) : completion A := fst (m b).

Definition completes {A : Type} (c : completion A) : bool :=
  match c with
  | Normal _ => true
  | Throw _ => false
  end.

(** ** Primitives of the runtime *)

Definition Math_random : M Q :=
  fun b => (Normal (random (env b) (draws b)), set_draws (S (draws b)) b).

(** [Math.floor(Math.random() * n)]. *)
Definition random_below (n : Z) : M Z :=
  u ← Math_random; ret (Qfloor (u * inject_Z n)).

(** [Math.random().toString(36).substr(2, 9)]. *)
Definition random_token : M string :=
  u ← Math_random; e ← gets env; ret (toString36 e u).

Definition Date_now : M Z :=
  fun b => (Normal (clock (env b) (ticks b)), set_ticks (S (ticks b)) b).

(** [new Date().toISOString()]. *)
Definition new_Date_toISOString : M string :=
  t ← Date_now; e ← gets env; ret (toISOString e t).

Definition getItem (k : string) : M (option string) :=
  gets (fun b => localStorage b !! k).

Definition setItem (k v : string) : M unit :=
  modify (set_storage (fun s => <[k := v]> s)).

Definition removeItem (k : string) : M unit :=
  modify (set_storage (fun s => delete k s)).

(** [JSON.parse(text)]. *)
Definition parse (text : string) : M jdoc :=
  match JSON_parse text with
  | Some d => ret d
  | None => throw SyntaxError
  end.

(** [xs[Math.floor(Math.random() * xs.length)]] *)
Definition pick (xs : list string) : M jsval :=
  i ← random_below (Z.of_nat (length xs));
  ret (if i <? 0 then VUndef
       else match xs !! Z.to_nat i with
            | Some x => VStr x
            | None => VUndef
            end).

(** Evaluating the identifier [analytics]: a ReferenceError when the
    vendor's script did not load. *)
Definition analytics : M unit :=
  d ← gets analytics_defined;
  if d then ret tt else throw (ReferenceError "analytics").

Definition emit (c : Call) : M unit := modify (set_calls (fun l => (l ++ [c])%list)).

(** [analytics.page(name, properties)] and the like: the callee is
    evaluated before its arguments. *)
Definition analytics_page (name : string) (properties : M obj) : M unit :=
  analytics ;; p ← properties; emit (CPage name p).

Definition analytics_identify (id : option string) (traits : M obj) : M unit :=
  analytics ;; t ← traits; emit (CIdentify id t).

Definition analytics_track (event : string) (properties : M obj) : M unit :=
  analytics ;; p ← properties; emit (CTrack event p).

Definition analytics_reset : M unit := analytics ;; emit CReset.

(** An object literal whose member values are computed in order. *)
Fixpoint literal (fields : list (string * M jsval)) : M obj :=
  match fields with
  | [] => ret []
  | (k, mv) :: rest =>
      v ← mv; o ← literal rest; ret ((k, v) :: o)
  end.

Definition str (s : string) : M jsval := ret (VStr s).

Definition num (z : Z) : M jsval := ret (VNum (num_of_Z z)).
Definition boolean (b : bool) : M jsval := ret (VBool b).

(** [o || d] for a string-or-null [o] and a string [d]. *)
Definition or_default (o : option string) (d : string) : string :=
  match o with
  | Some s => if truthy_string s then s else d
  | None => d
  end.

(** [d.k] on a parsed text. *)
Definition member (d : jdoc) (k : string) : jsval :=
  val_of_member (rec_get (members_of d) k).

Definition val_of_doc (d : jdoc) : jsval :=
  match d with
  | JArr l => VList l
  | JObj r => VRec r
  end.

(** [String(v)] of a member used as a [localStorage] value. *)
Definition member_toString (m : option (option string)) : string :=
  match m with
  | None => "undefined"
  | Some None => "null"
  | Some (Some s) => s
  end.

(** [xs.includes(x)] and [xs.push(x)]; only arrays have these methods. *)
Definition includes (d : jdoc) (x : string) : M bool :=
  match d with
  | JArr l => ret (bool_decide (x ∈ l))
  | JObj _ => throw (TypeError "includes is not a function")
  end.

Definition push (d : jdoc) (x : string) : M jdoc :=
  match d with
  | JArr l => ret (JArr (l ++ [x])%list)
  | JObj _ => throw (TypeError "push is not a function")
  end.

(** The argument of [trackSubscriptionUpgrade]; an absent member is
    [None]. *)
Record PlanData : Type := {
  plan : string;
  billingCycle : option string;
  method : option string;
  fromTrial : option bool;
  reason : option string
}.

Definition val_of_flag (f : option bool) : jsval :=
  match f with
  | Some b => VBool b
  | None => VUndef
  end.

(** [o.k = v] on an object literal: in place when [o] has the key, else
    as a new last property. *)
Fixpoint obj_set (o : obj) (k : string) (v : jsval) : obj :=
  match o with
  | [] => [(k, v)]
  | (k', w) :: o' =>
      if String.eqb k' k then (k', v) :: o' else (k', w) :: obj_set o' k v
  end.

(** [{...target, ...source}] once [target]'s own properties are laid out:
    the properties of [source] are assigned in their order. *)
Definition spread (target source : obj) : obj :=
  fold_left (fun o kv => obj_set o (fst kv) (snd kv)) source target.

Definition real (q : Q) : M jsval := ret (VNum (Fin q)).

(** The argument of [trackProjectCreated]; an absent member is [None]. *)
Record ProjectData : Type := {
  project_id : option string;       (* projectData.id *)
  project_name : option string;     (* projectData.name *)
  project_type : option string;     (* projectData.type *)
  project_template : option string; (* projectData.template *)
  project_method : option string    (* projectData.method *)
}.

(** The argument of [trackUserInvited]. *)
Record InviteData : Type := {
  invite_email : string;            (* inviteData.email *)
  invite_role : option string;      (* inviteData.role *)
  invite_projectId : option string; (* inviteData.projectId *)
  invite_message : option string    (* inviteData.message *)
}.

(** The argument of [trackVideoExport]. *)
Record ExportData : Type := {
  export_projectId : string;
  export_duration : Z;
  export_quality : string;
  export_fileSize : Z;
  export_format : option string;
  export_processingTime : Z;
  export_hasSubtitles : option bool;
  export_effectsCount : option Z;
  export_isCollaborative : option bool
}.

Definition val_of_name (o : option string) : jsval :=
  match o with
  | Some s => VStr s
  | None => VUndef
  end.

(** The closure of the click listener of [setupEngagementTracking]. *)
Record Engagement : Type := {
  engagementScore : Z;
  interactionCount : Z;
  highEngagementTracked : bool
}.

(** *** The email pattern

    [/^[^\s@]+@[^\s@]+\.[^\s@]+$/]: one or more characters that are
    neither white space nor [@], an [@], and as many again with a dot
    that is neither the first nor the last of them. *)
Definition is_space (c : ascii) : bool :=
  let n := nat_of_ascii c in
  ((9 <=? n)%nat && (n <=? 13)%nat) || (n =? 32)%nat || (n =? 160)%nat.

Definition is_plain (c : ascii) : bool :=
  negb (is_space c) && negb (Ascii.eqb c "@").

Fixpoint all_plain (s : string) : bool :=
  match s with
  | EmptyString => true
  | String c r => is_plain c && all_plain r
  end.

(** A dot followed by at least one character. *)
Fixpoint dot_then_more (s : string) : bool :=
  match s with
  | EmptyString => false
  | String c r =>
      (Ascii.eqb c "." && truthy_string r) || dot_then_more r
  end.

(** [[^\s@]+\.[^\s@]+$] on the text after the [@]. *)
Definition domain_matches (s : string) : bool :=
  all_plain s
  && match s with
     | String _ r => dot_then_more r
     | EmptyString => false
     end.

(** The match from the start of the text; [seen] tells that a character
    of the local part has been read. *)
Fixpoint email_matches (s : string) (seen : bool) : bool :=
  match s with
  | EmptyString => false
  | String c r =>
      if Ascii.eqb c "@" then seen && domain_matches r
      else if is_space c then false
      else email_matches r true
  end.

(** The variables of the scroll listener when it is added:
    [maxScrollDepth = 0] and every milestone flag [false]. *)
Definition no_milestone_fired : ScrollClosure :=
  {| maxScrollDepth := Fin 0; fired25 := false; fired50 := false;
     fired75 := false; fired100 := false; scrollTimeout := false |}.

(** ** The analytics facade: [class VeedAnalytics] *)

Module VeedAnalytics.

Definition this {A : Type} (f : Analytics -> A) : M A := gets (fun b => f (va b)).

Definition set_userId (u : option string) : M unit :=
  modify (set_va (fun a =>
    {| userId := u; sessionId := sessionId a;
       anonymousId := anonymousId a; isInitialized := isInitialized a |})).

Definition set_sessionId (s : string) : M unit :=
  modify (set_va (fun a =>
    {| userId := userId a; sessionId := s;
       anonymousId := anonymousId a; isInitialized := isInitialized a |})).

Definition set_anonymousId (u : option string) : M unit :=
  modify (set_va (fun a =>
    {| userId := userId a; sessionId := sessionId a;
       anonymousId := u; isInitialized := isInitialized a |})).

Definition set_isInitialized (i : bool) : M unit :=
  modify (set_va (fun a =>
    {| userId := userId a; sessionId := sessionId a;
       anonymousId := anonymousId a; isInitialized := i |})).

(** [getUserId()]: the stored id, only when user data is stored too. *)
Definition getUserId : M (option string) :=
  userId ← getItem "veed_user_id";
  userData ← getItem "veed_user_data";
  if truthy_opt userId && truthy_opt userData then ret userId else ret None.

Definition characters : string := "ABCDEFGHIJKLMNOPQRSTUVWXYZ0123456789".

(** The loop of [generateRandomUserId] with [n] rounds to go. *)
Fixpoint generateRandomUserId_loop (n : nat) (result : string) : M string :=
  match n with
  | O => ret result
  | S n' =>
      i ← random_below (Z.of_nat (String.length characters));
      generateRandomUserId_loop n' (result ++ charAt characters i)
  end.

Definition generateRandomUserId : M string :=
  generateRandomUserId_loop 5 EmptyString.

Definition generateSessionId : M string :=
  t ← Date_now;
  r ← random_token;
  ret ("session_" ++ pretty t ++ "_" ++ r).

Definition generateUTMParameters : M obj :=
  literal
    [("utm_source", pick ["google"; "facebook"; "twitter"; "linkedin";
                          "youtube"; "direct"; "email"]);
     ("utm_medium", pick ["cpc"; "social"; "organic"; "email"; "referral";
                          "display"]);
     ("utm_campaign", pick ["brand_awareness"; "conversion"; "retargeting";
                            "video_tools"; "free_trial"]);
     ("utm_content", pick ["hero_cta"; "pricing_page"; "feature_demo";
                           "blog_post"; "case_study"]);
     ("utm_term", str "video editor online free")].

(** The helpers at the end of the class. *)
Definition getUserPlan : M string :=
  p ← getItem "user_plan"; ret (or_default p "free").

Definition getLoginCount : M (option Z) :=
  c ← getItem "login_count"; ret (parseInt (or_default c "0")).

Definition getTotalProjectsCreated : M (option Z) :=
  c ← getItem "total_projects"; ret (parseInt (or_default c "0")).

Definition isTrialUser : M bool :=
  u ← Math_random; ret (negb (Qle_bool u (7 # 10))).

Definition getDaysSinceSignup : M jsval := i ← random_below 30; num i.
Definition getDaysSinceLastLogin : M jsval := i ← random_below 7; num i.
Definition getLoginStreak : M jsval := i ← random_below 30; num i.
Definition getMilestoneCompletionTime : M jsval := i ← random_below 300; num i.
Definition calculateDropOffRisk : M jsval := u ← Math_random; ret (VNum (Fin u)).
Definition calculateEngagementScore : M jsval := u ← Math_random; ret (VNum (Fin u)).
Definition getFeatureDiscoveryRate : M jsval := u ← Math_random; ret (VNum (Fin u)).

Definition estimateCompanySize : M jsval :=
  pick ["1-10"; "11-50"; "51-200"; "201-1000"; "1000+"].

Definition estimateIndustry : M jsval :=
  pick ["Technology"; "Marketing"; "Education"; "Healthcare"; "Other"].

(** [monthlyPrices[plan] || 0]. *)
Definition calculateMRR (plan : string) : Z :=
  if String.eqb plan "pro" then 24
  else if String.eqb plan "business" then 59
  else 0.

Definition getCompletedMilestones : M jdoc :=
  s ← getItem "onboarding_milestones"; parse (or_default s "[]").

Definition updateOnboardingProgress (milestone : string) : M unit :=
  milestones ← getCompletedMilestones;
  known ← includes milestones milestone;
  if negb known then
    milestones' ← push milestones milestone;
    setItem "onboarding_milestones" (JSON_stringify milestones')
  else ret tt.

Definition getUserJourneyStage : M string :=
  s ← getItem "veed_user_data";
  userData ← parse (or_default s "{}");
  if negb (truthy (member userData "email")) then ret "anonymous"
  else
    milestones ← getCompletedMilestones;
    started ← includes milestones "first_project_created";
    if negb started then ret "onboarding"
    else
      plan ← getUserPlan;
      if String.eqb plan "free" then ret "freemium" else ret "paid_user".

(** [trackPageView()]: the property map is built first, then handed to
    the transport. *)
Definition trackPageView : M unit :=
  utmParams ← generateUTMParameters;
  e ← gets env;
  page_context ← literal
    [("url", str (location_href e));
     ("path", str (location_pathname e));
     ("referrer", str (document_referrer e));
     ("title", str (document_title e))];
  rest ← literal
    [("userAgent", str (navigator_userAgent e));
     ("screenWidth", num (screen_width e));
     ("screenHeight", num (screen_height e));
     ("userJourneyStage", (stage ← getUserJourneyStage; str stage));
     ("isAuthenticated", (u ← getItem "veed_user_id"; boolean (truthy_opt u)))];
  analytics_page "VEED Homepage"
    (ret (page_context ++ utmParams ++ rest)%list).

(** [identifyExistingUser(userId)]: re-identify a returning user on load. *)
Definition identifyExistingUser (userId : string) : M unit :=
  s ← getItem "veed_user_data";
  storedUserData ← parse (or_default s "{}");
  currentPlan ← getUserPlan;
  analytics_identify (Some userId) (literal
    [("name", ret (member storedUserData "name"));
     ("email", (m ← getItem "veed_user_email";
                ret (js_or (member storedUserData "email") (val_of_opt m))));
     ("company", ret (js_or (member storedUserData "company") VNull));
     ("plan", str currentPlan);
     ("createdAt", ret (js_or (member storedUserData "createdAt")
                              (member storedUserData "signupDate")));
     ("role", ret (js_or (member storedUserData "role") (VStr "user")));
     ("isTrial", (t ← isTrialUser; boolean t))]);;
  set_userId (Some userId).

(** [setupEventListeners()]: the listeners for visibility changes, page
    unload and scrolling are added; the scroll listener starts with no
    milestone fired. *)
Definition setupEventListeners : M unit :=
  modify (set_scroll (Some no_milestone_fired)).

Definition initializeTracking : M unit :=
  set_isInitialized true;;
  trackPageView;;
  storedUserId ← getItem "veed_user_id";
  storedUserData ← getItem "veed_user_data";
  (if truthy_opt storedUserId && truthy_opt storedUserData
   then identifyExistingUser (default EmptyString storedUserId)
   else ret tt);;
  setupEventListeners.

(** The callback handed to [analytics.ready]. *)
Definition on_ready : M unit :=
  e ← gets env;
  analytics;;
  set_anonymousId (Some (segment_anonymousId e));;
  initializeTracking.

Definition constructor : M unit :=
  u ← getUserId;
  set_userId u;;
  s ← generateSessionId;
  set_sessionId s;;
  set_anonymousId None;;
  set_isInitialized false;;
  defined ← gets analytics_defined;
  if defined then
    modify (set_ready true)
  else
    t ← Date_now;
    r ← random_token;
    set_anonymousId (Some ("anon_" ++ pretty t ++ "_" ++ r));;
    initializeTracking.

(** [trackSignup(userData)]: the first identify call, with a user id
    generated here. *)
Definition trackSignup (userData : record) : M unit :=
  generatedUserId ← generateRandomUserId;
  signupTimestamp ← new_Date_toISOString;
  let company := val_of_member (rec_get userData "company") in
  let accountType := if truthy company then "business" else "individual" in
  analytics_identify (Some generatedUserId) (literal
    [("name", ret (val_of_member (rec_get userData "name")));
     ("email", ret (val_of_member (rec_get userData "email")));
     ("company", ret (js_or company VNull));
     ("plan", str "free");
     ("createdAt", str signupTimestamp);
     ("accountType", str accountType);
     ("marketingOptIn", boolean true);
     ("isTrial", boolean false);
     ("role", str "user")]);;
  analytics_track "Signed Up" (literal
    [("plan", str "free");
     ("method", str "email");
     ("source", str "homepage");
     ("accountType", str accountType);
     ("companySize", estimateCompanySize);
     ("industry", estimateIndustry)]);;
  set_userId (Some generatedUserId);;
  setItem "veed_user_id" generatedUserId;;
  setItem "veed_user_email" (member_toString (rec_get userData "email"));;
  setItem "veed_user_data"
    (JSON_stringify (JObj
       (rec_set (rec_set userData "userId" (Some generatedUserId))
          "createdAt" (Some signupTimestamp)))).

(** [trackLogin(email, existingUserId = null)]. *)
Definition trackLogin (email : string) (existingUserId : option string) : M unit :=
  stored ← getItem "veed_user_id";
  let storedUserId := or_else stored existingUserId in
  userId ← (if truthy_opt storedUserId
            then ret (default EmptyString storedUserId)
            else generateRandomUserId);
  s ← getItem "veed_user_data";
  storedUserData ← parse (or_default s "{}");
  currentPlan ← getUserPlan;
  count ← getLoginCount;
  let loginCount := Z.succ <$> count in
  loginTimestamp ← new_Date_toISOString;
  analytics_identify (Some userId) (literal
    [("name", ret (js_or (member storedUserData "name")
                         (VStr (before_at email))));
     ("email", str email);
     ("company", ret (js_or (member storedUserData "company") VNull));
     ("plan", str currentPlan);
     ("createdAt", ret (js_or (member storedUserData "createdAt")
                              (member storedUserData "signupDate")));
     ("lastLogin", str loginTimestamp);
     ("loginCount", ret (val_of_count loginCount));
     ("role", ret (js_or (member storedUserData "role") (VStr "user")));
     ("isTrial", (if String.eqb currentPlan "free" then boolean false
                  else t ← isTrialUser; boolean t))]);;
  analytics_track "Logged In" (literal
    [("method", str "email");
     ("plan", str currentPlan);
     ("loginCount", ret (val_of_count loginCount));
     ("daysSinceLastLogin", getDaysSinceLastLogin);
     ("loginStreak", getLoginStreak)]);;
  set_userId (Some userId);;
  setItem "veed_user_id" userId;;
  setItem "veed_user_email" email;;
  setItem "last_login_date" loginTimestamp;;
  setItem "login_count" (count_toString loginCount).

(** [trackSubscriptionUpgrade(planData)]. *)
Definition trackSubscriptionUpgrade (planData : PlanData) : M unit :=
  previousPlan ← getUserPlan;
  let mrr := calculateMRR (plan planData) in
  upgradeTimestamp ← new_Date_toISOString;
  id ← this userId;
  analytics_identify id (literal
    [("plan", str (plan planData));
     ("billingInterval", str (or_default (billingCycle planData) "monthly"));
     ("subscriptionStatus", str "active");
     ("mrr", num mrr);
     ("isTrial", (match fromTrial planData with
                  | Some true => boolean false
                  | _ => t ← isTrialUser; boolean t
                  end))]);;
  analytics_track "Subscription Upgraded" (literal
    [("previousPlan", str previousPlan);
     ("newPlan", str (plan planData));
     ("billingInterval", str (or_default (billingCycle planData) "monthly"));
     ("mrr", num mrr);
     ("arr", num (mrr * 12));
     ("revenue", num mrr);
     ("currency", str "USD");
     ("method", str (or_default (method planData) "credit_card"));
     ("trial", ret (js_or (val_of_flag (fromTrial planData)) (VBool false)));
     ("upgradeReason", str (or_default (reason planData) "feature_limitation"));
     ("daysSinceSignup", getDaysSinceSignup)]);;
  setItem "user_plan" (plan planData).

(** [trackOnboardingMilestone(milestone)]. *)
Definition trackOnboardingMilestone (milestone : string) : M unit :=
  milestoneProperties ← literal
    [("user_id", (u ← this userId; ret (val_of_opt u)));
     ("milestone", str milestone);
     ("session_id", (s ← this sessionId; str s));
     ("milestone_timestamp", (t ← new_Date_toISOString; str t));
     ("days_since_signup", getDaysSinceSignup);
     ("onboarding_version", str "v2.1");
     ("previous_milestones", (d ← getCompletedMilestones; ret (val_of_doc d)));
     ("milestone_completion_time", getMilestoneCompletionTime);
     ("drop_off_risk", calculateDropOffRisk);
     ("engagement_score", calculateEngagementScore);
     ("feature_discovery_rate", getFeatureDiscoveryRate)];
  analytics_track "Onboarding Milestone Completed" (ret milestoneProperties);;
  updateOnboardingProgress milestone.

(** [trackSessionEnd()] and [trackSessionResume()]; the class never sets
    the [sessionStartTime] the duration is computed from. *)
Definition trackSessionEnd : M unit :=
  analytics_track "Session Ended" (literal
    [("session_id", (s ← this sessionId; str s));
     ("session_duration", (Date_now;; ret (VNum NaN)));
     ("user_id", (u ← this userId; ret (val_of_opt u)))]).

Definition trackSessionResume : M unit :=
  analytics_track "Session Resumed" (literal
    [("session_id", (s ← this sessionId; str s));
     ("user_id", (u ← this userId; ret (val_of_opt u)))]).

(** *** The scroll listener *)

Definition with_timeout (t : bool) (c : ScrollClosure) : ScrollClosure :=
  {| maxScrollDepth := maxScrollDepth c; fired25 := fired25 c;
     fired50 := fired50 c; fired75 := fired75 c; fired100 := fired100 c;
     scrollTimeout := t |}.

Definition with_max (d : jsnum) (c : ScrollClosure) : ScrollClosure :=
  {| maxScrollDepth := d; fired25 := fired25 c;
     fired50 := fired50 c; fired75 := fired75 c; fired100 := fired100 c;
     scrollTimeout := scrollTimeout c |}.

Definition set_fired25 (c : ScrollClosure) : ScrollClosure :=
  {| maxScrollDepth := maxScrollDepth c; fired25 := true;
     fired50 := fired50 c; fired75 := fired75 c; fired100 := fired100 c;
     scrollTimeout := scrollTimeout c |}.

Definition set_fired50 (c : ScrollClosure) : ScrollClosure :=
  {| maxScrollDepth := maxScrollDepth c; fired25 := fired25 c;
     fired50 := true; fired75 := fired75 c; fired100 := fired100 c;
     scrollTimeout := scrollTimeout c |}.

Definition set_fired75 (c : ScrollClosure) : ScrollClosure :=
  {| maxScrollDepth := maxScrollDepth c; fired25 := fired25 c;
     fired50 := fired50 c; fired75 := true; fired100 := fired100 c;
     scrollTimeout := scrollTimeout c |}.

Definition set_fired100 (c : ScrollClosure) : ScrollClosure :=
  {| maxScrollDepth := maxScrollDepth c; fired25 := fired25 c;
     fired50 := fired50 c; fired75 := fired75 c; fired100 := true;
     scrollTimeout := scrollTimeout c |}.

(** The closure variables; nothing to update before the listener is
    added. *)
Definition update_closure (f : ScrollClosure -> ScrollClosure) : M unit :=
  modify (fun b => set_scroll (f <$> scroll b) b).

Definition page_scrolled (depth : string) : M unit :=
  analytics_track "Page Scrolled" (literal
    [("depth", str depth); ("page", str "VEED Homepage")]).

(** The [scroll] listener: restart the debounce timer. *)
Definition on_scroll : M unit := update_closure (with_timeout true).

(** The function the timer runs 150ms after the last scroll event. *)
Definition scroll_sample (c : ScrollClosure) : M unit :=
  v ← gets viewport;
  let scrollDepth := js_div (Fin (scrollY v + innerHeight v)) (Fin (scrollHeight v)) in
  if js_gt scrollDepth (maxScrollDepth c) then
    update_closure (with_max scrollDepth);;
    if js_ge scrollDepth (Fin (25 # 100)) && negb (fired25 c) then
      update_closure set_fired25;; page_scrolled "25%"
    else if js_ge scrollDepth (Fin (50 # 100)) && negb (fired50 c) then
      update_closure set_fired50;; page_scrolled "50%"
    else if js_ge scrollDepth (Fin (75 # 100)) && negb (fired75 c) then
      update_closure set_fired75;; page_scrolled "75%"
    else if js_ge scrollDepth (Fin (95 # 100)) && negb (fired100 c) then
      update_closure set_fired100;; page_scrolled "100%"
    else ret tt
  else ret tt.

(** The pending timer, if any, fires. *)
Definition on_scroll_timeout : M unit :=
  s ← gets scroll;
  match s with
  | Some c =>
      if scrollTimeout c then
        update_closure (with_timeout false);; scroll_sample c
      else ret tt
  | None => ret tt
  end.

(** *** Page load and the global helpers *)

Definition getPreviousSessionCount : M (option Z) :=
  c ← getItem "veed_session_count"; ret (parseInt (or_default c "0")).

Definition initFirstVisit : M unit :=
  first ← getItem "veed_first_visit";
  (if negb (truthy_opt first)
   then t ← new_Date_toISOString; setItem "veed_first_visit" t
   else ret tt);;
  sessionCount ← getPreviousSessionCount;
  setItem "veed_session_count" (count_toString (Z.succ <$> sessionCount)).

(** The [DOMContentLoaded] listener of the script. *)
Definition on_DOMContentLoaded : M unit :=
  constructor;;
  modify (set_window_veedAnalytics true);;
  initFirstVisit.

(** [window.trackPlanSelection(plan)]. *)
Definition trackPlanSelection (plan : string) : M unit :=
  present ← gets window_veedAnalytics;
  if present then
    analytics_track "Plan Selected" (literal
      [("plan_name", str plan);
       ("selection_source", str "pricing_page");
       ("user_id", (u ← this userId; ret (val_of_opt u)));
       ("session_id", (s ← this sessionId; str s))])
  else ret tt.

(** *** The other tracking methods *)

Definition isReturningVisitor : M bool :=
  f ← getItem "veed_first_visit"; ret (bool_decide (f <> None)).

Definition generateProjectId : M string :=
  t ← Date_now;
  r ← random_token;
  ret ("proj_" ++ pretty t ++ "_" ++ r).

Definition generateInviteId : M string :=
  t ← Date_now;
  r ← random_token;
  ret ("inv_" ++ pretty t ++ "_" ++ r).

(** [categories[feature] || 'editing_tools']. *)
Definition getFeatureCategory (feature : string) : string :=
  if String.eqb feature "subtitles" then "ai_tools"
  else if String.eqb feature "screen-record" then "recording"
  else if String.eqb feature "collaboration" then "team_features"
  else "editing_tools".

Definition getFeatureAvailability : M string :=
  p ← getUserPlan; ret (if String.eqb p "free" then "limited" else "full").

Definition hasWatermark : M bool :=
  p ← getUserPlan; ret (String.eqb p "free").

Definition updateFeatureAdoption (featureName : string) : M unit := ret tt.
Definition updateViralMetrics (inviteData : InviteData) : M unit := ret tt.
Definition updateUsageLimits (kind : string) (n : Z) : M unit := ret tt.

Definition getProjectsCreatedToday : M jsval := i ← random_below 5; num i.
Definition getTeamSize : M jsval := i ← random_below 20; num (i + 1).
Definition getExportCountToday : M jsval := i ← random_below 5; num i.
Definition getTotalExports : M (option Z) :=
  c ← getItem "total_exports"; ret (parseInt (or_default c "0")).
Definition getSupportTicketsCount : M jsval := i ← random_below 5; num i.
Definition getFeatureUsageDecline : M jsval :=
  u ← Math_random; real (u * (3 # 10)).
Definition getPlanDowngradeRisk : M jsval :=
  u ← Math_random; real (u * (2 # 10)).
Definition getLastActivityDate : M jsval := t ← new_Date_toISOString; str t.
Definition getEngagementTrend : M jsval := pick ["increasing"; "stable"; "decreasing"].
Definition getUsageFrequency : M jsval := pick ["daily"; "weekly"; "monthly"].
Definition getSessionDurationTrend : M jsval :=
  pick ["increasing"; "stable"; "decreasing"].

(** [trackFeatureUsage(featureName, properties = {})]: the caller's
    properties are spread over the facade's own. *)
Definition trackFeatureUsage (featureName : string) (properties : obj) : M unit :=
  analytics_track "Feature Used"
    (own ← literal
       [("featureName", str featureName);
        ("featureCategory", str (getFeatureCategory featureName));
        ("plan", (u ← this userId;
                  if truthy_opt u then p ← getUserPlan; str p
                  else str "anonymous"));
        ("featureAvailability", (a ← getFeatureAvailability; str a));
        ("usageContext",
         ret (js_or (default VUndef (obj_get properties "context"))
                    (VStr "main_interface")));
        ("isAnonymous", (u ← this userId; boolean (negb (truthy_opt u))))];
     ret (spread own properties));;
  u ← this userId;
  if truthy_opt u then updateFeatureAdoption featureName else ret tt.

(** [trackProjectCreated(projectData)]. *)
Definition trackProjectCreated (projectData : ProjectData) : M unit :=
  analytics_track "Project Created" (literal
    [("projectId", (if truthy_opt (project_id projectData)
                    then ret (val_of_opt (project_id projectData))
                    else i ← generateProjectId; str i));
     ("projectName", ret (val_of_name (project_name projectData)));
     ("projectType", str (or_default (project_type projectData) "video_editing"));
     ("templateUsed", ret (val_of_opt (or_else (project_template projectData) None)));
     ("creationMethod", str (or_default (project_method projectData) "manual"));
     ("plan", (p ← getUserPlan; str p));
     ("projectsCreatedToday", getProjectsCreatedToday);
     ("totalProjectsCreated", (n ← getTotalProjectsCreated; ret (val_of_count n)))]);;
  total ← getTotalProjectsCreated;
  if bool_decide (total = Some 1) then trackOnboardingMilestone "first_project_created"
  else ret tt.

(** [trackUserInvited(inviteData)]. *)
Definition trackUserInvited (inviteData : InviteData) : M unit :=
  analytics_track "Invite Sent" (literal
    [("inviteId", (i ← generateInviteId; str i));
     ("inviteeEmail", str (invite_email inviteData));
     ("inviteeRole", str (or_default (invite_role inviteData) "editor"));
     ("method", str "email");
     ("teamSizeBefore", getTeamSize);
     ("projectId", ret (val_of_opt (or_else (invite_projectId inviteData) None)));
     ("plan", (p ← getUserPlan; str p));
     ("messageIncluded", boolean (truthy_opt (invite_message inviteData)))]);;
  updateViralMetrics inviteData.

(** [trackVideoExport(exportData)]. *)
Definition trackVideoExport (exportData : ExportData) : M unit :=
  analytics_track "Video Exported" (literal
    [("projectId", str (export_projectId exportData));
     ("videoDuration", num (export_duration exportData));
     ("exportQuality", str (export_quality exportData));
     ("fileSizeMb", num (export_fileSize exportData));
     ("exportFormat", str (or_default (export_format exportData) "mp4"));
     ("processingTimeSeconds", num (export_processingTime exportData));
     ("plan", (p ← getUserPlan; str p));
     ("exportCountToday", getExportCountToday);
     ("totalExports", (n ← getTotalExports; ret (val_of_count n)));
     ("watermarkPresent", (w ← hasWatermark; boolean w));
     ("subtitlesEnabled",
      ret (js_or (val_of_flag (export_hasSubtitles exportData)) (VBool false)));
     ("effectsUsed",
      ret (js_or (match export_effectsCount exportData with
                  | Some n => VNum (num_of_Z n)
                  | None => VUndef
                  end) (VNum (num_of_Z 0))));
     ("collaborationProject",
      ret (js_or (val_of_flag (export_isCollaborative exportData)) (VBool false)))]);;
  updateUsageLimits "exports" 1.

(** [trackChurnRisk()]: the event is sent when the score drawn is above
    0.7. *)
Definition trackChurnRisk : M unit :=
  u ← this userId;
  score ← Math_random;
  rest ← literal
    [("last_activity_date", getLastActivityDate);
     ("days_since_last_login", getDaysSinceLastLogin);
     ("feature_usage_decline", getFeatureUsageDecline);
     ("support_tickets_count", getSupportTicketsCount);
     ("plan_downgrade_risk", getPlanDowngradeRisk);
     ("engagement_trend", getEngagementTrend);
     ("usage_frequency", getUsageFrequency);
     ("session_duration_trend", getSessionDurationTrend)];
  let churnProperties :=
    ("user_id", val_of_opt u) :: ("churn_risk_score", VNum (Fin score)) :: rest in
  if negb (Qle_bool score (7 # 10)) then
    analytics_track "High Churn Risk Detected" (ret churnProperties)
  else ret tt.

(** [window.trackFeatureClick(feature)]. *)
Definition trackFeatureClick (feature : string) : M unit :=
  present ← gets window_veedAnalytics;
  if present then
    trackFeatureUsage feature
      [("click_source", VStr "feature_grid");
       ("user_intent", VStr "feature_discovery")]
  else ret tt.

End VeedAnalytics.

(** ** The application shell: [class VeedApp] of js/main.js

    Only what reaches the transport or the store is kept: notifications,
    modals and the other DOM updates of the methods are left out.  A
    method that does its work in a [setTimeout] callback is modelled by
    that callback. *)

Module VeedApp.

Definition this {A : Type} (f : App -> A) : M A := gets (fun b => f (window_app b)).

Definition set_currentUser (u : option record) : M unit :=
  modify (set_app (fun a =>
    {| currentUser := u; currentPlan := currentPlan a;
       projectCount := projectCount a; sessionStartTime := sessionStartTime a |})).

Definition set_currentPlan (p : string) : M unit :=
  modify (set_app (fun a =>
    {| currentUser := currentUser a; currentPlan := p;
       projectCount := projectCount a; sessionStartTime := sessionStartTime a |})).

Definition set_projectCount (n : option Z) : M unit :=
  modify (set_app (fun a =>
    {| currentUser := currentUser a; currentPlan := currentPlan a;
       projectCount := n; sessionStartTime := sessionStartTime a |})).

Definition set_sessionStartTime (t : Z) : M unit :=
  modify (set_app (fun a =>
    {| currentUser := currentUser a; currentPlan := currentPlan a;
       projectCount := projectCount a; sessionStartTime := t |})).

(** [this.currentUser?.email]. *)
Definition currentUser_email : M jsval :=
  u ← this currentUser;
  match u with
  | Some r => ret (val_of_member (rec_get r "email"))
  | None => ret VUndef
  end.

(** [window.veedAnalytics?.sessionId]. *)
Definition veedAnalytics_sessionId : M jsval :=
  present ← gets window_veedAnalytics;
  if present then s ← VeedAnalytics.this sessionId; str s else ret VUndef.

Definition generateRandomUserId : M string :=
  VeedAnalytics.generateRandomUserId_loop 5 EmptyString.

Definition loadUserState : M unit :=
  userData ← getItem "veed_user_data";
  if truthy_opt userData then
    try_catch
      (d ← parse (default EmptyString userData);
       set_currentUser (Some (members_of d));;
       p ← getItem "user_plan";
       set_currentPlan (or_default p "free");;
       c ← getItem "total_projects";
       set_projectCount (parseInt (or_default c "0")))
      (fun _ => ret tt)
  else ret tt.

Definition init : M unit :=
  loadUserState;;
  present ← gets window_veedAnalytics;
  if present then VeedAnalytics.trackPageView else ret tt.

Definition constructor : M unit :=
  set_currentUser None;;
  set_currentPlan "free";;
  set_projectCount (Some 0);;
  t ← Date_now;
  set_sessionStartTime t;;
  init.

(** The callback of [performLogin(email)]. *)
Definition performLogin (email : string) : M unit :=
  s ← getItem "veed_user_data";
  existingUserData ← parse (or_default s "{}");
  let existing := members_of existingUserData in
  userId ← (if truthy_opt (rec_str existing "userId")
            then ret (default EmptyString (rec_str existing "userId"))
            else present ← gets window_veedAnalytics;
                 if present then VeedAnalytics.generateRandomUserId
                 else generateRandomUserId);
  loginDate ← new_Date_toISOString;
  let user : record :=
    [("email", Some email);
     ("name", Some (or_default (rec_str existing "name") (before_at email)));
     ("loginDate", Some loginDate);
     ("userId", Some userId);
     ("company", or_else (rec_str existing "company") None)] in
  set_currentUser (Some user);;
  setItem "veed_user_data" (JSON_stringify (JObj user));;
  present ← gets window_veedAnalytics;
  if present then VeedAnalytics.trackLogin email (Some userId) else ret tt.

(** [showOnboardingTooltip()]. *)
Definition showOnboardingTooltip : M unit :=
  present ← gets window_veedAnalytics;
  if present then
    analytics_track "Onboarding Tooltip Shown" (literal
      [("user_id", currentUser_email);
       ("tooltip_type", str "welcome_message");
       ("step", num 1)])
  else ret tt.

(** The callback of [startOnboardingFlow()]. *)
Definition startOnboardingFlow : M unit :=
  present ← gets window_veedAnalytics;
  (if present then VeedAnalytics.trackOnboardingMilestone "account_created"
   else ret tt);;
  showOnboardingTooltip.

(** The callback of [performSignup(userData)]; the onboarding flow it
    schedules runs later, as [startOnboardingFlow]. *)
Definition performSignup (userData : record) : M unit :=
  present ← gets window_veedAnalytics;
  userId ← (if present then VeedAnalytics.generateRandomUserId
            else generateRandomUserId);
  signupDate ← new_Date_toISOString;
  let userDataWithId :=
    rec_set (rec_set (rec_set userData "signupDate" (Some signupDate))
               "plan" (Some "free")) "userId" (Some userId) in
  set_currentUser (Some userDataWithId);;
  setItem "veed_user_data" (JSON_stringify (JObj userDataWithId));;
  setItem "user_plan" "free";;
  present ← gets window_veedAnalytics;
  if present then VeedAnalytics.trackSignup userDataWithId else ret tt.

Definition showSignupModal : M unit :=
  analytics_track "Signup Modal Opened" (literal
    [("source", str "conversion_prompt")]).

Definition showLoginModal : M unit :=
  analytics_track "Login Modal Opened" (literal
    [("source", str "header_button")]).

(** [showUpgradeModal(planType)] reads [plans[planType].name]. *)
Definition showUpgradeModal (planType : string) : M unit :=
  if String.eqb planType "pro" || String.eqb planType "business" then ret tt
  else throw (TypeError "plan is undefined").

Definition selectPlan (planType : string) : M unit :=
  present ← gets window_veedAnalytics;
  (if present then VeedAnalytics.trackPlanSelection planType else ret tt);;
  if String.eqb planType "free" then ret tt
  else
    analytics_track "Upgrade Intent" (literal
      [("user_id", currentUser_email);
       ("target_plan", str planType);
       ("current_plan", (p ← this currentPlan; str p));
       ("upgrade_source", str "pricing_page")]);;
    u ← this currentUser;
    match u with
    | None =>
        showSignupModal;;
        analytics_track "Signup Prompted" (literal
          [("trigger", str "plan_selection");
           ("target_plan", str planType)])
    | Some _ => showUpgradeModal planType
    end.

(** The callback of [processUpgrade(planType)]; [billingCycle] is the
    billing option checked in the upgrade modal. *)
Definition processUpgrade (planType billingCycle : string) : M unit :=
  set_currentPlan planType;;
  setItem "user_plan" planType;;
  present ← gets window_veedAnalytics;
  (if present then
     VeedAnalytics.trackSubscriptionUpgrade
       {| plan := planType; billingCycle := Some billingCycle;
          method := Some "upgrade_modal"; fromTrial := Some false;
          reason := None |}
   else ret tt);;
  analytics_track "Conversion Completed" (literal
    [("user_id", currentUser_email);
     ("plan", str planType);
     ("billing_cycle", str billingCycle);
     ("conversion_value", num (if String.eqb planType "pro" then 24 else 59));
     ("conversion_type", str "freemium_to_paid")]).

Definition openEditor : M unit :=
  e ← gets env;
  if editor_modal e then
    analytics_track "Editor Opened" (literal
      [("user_id", currentUser_email);
       ("session_id", veedAnalytics_sessionId);
       ("user_plan", (p ← this currentPlan; str p));
       ("projects_created", (n ← this projectCount; ret (val_of_count n)))])
  else ret tt.

Definition upgrade_message (reason : string) : string :=
  if String.eqb reason "export_limit" then "Upgrade to Pro for unlimited exports!"
  else if String.eqb reason "collaboration" then "Upgrade to Business for team collaboration!"
  else if String.eqb reason "watermark" then "Upgrade to Pro to remove watermarks!"
  else "undefined".

Definition showUpgradePrompt (reason : string) : M unit :=
  analytics_track "Upgrade Prompt Shown" (literal
    [("user_id", currentUser_email);
     ("reason", str reason);
     ("current_plan", (p ← this currentPlan; str p))]);;
  e ← gets env;
  if confirm e (upgrade_message reason ++ " Upgrade now?") then
    selectPlan (if String.eqb reason "collaboration" then "business" else "pro")
  else ret tt.

Definition logout : M unit :=
  analytics_track "Logged Out" (literal
    [("sessionDuration", (t ← Date_now; t0 ← this sessionStartTime; num (t - t0)));
     ("plan", (p ← this currentPlan; str p))]);;
  analytics_reset;;
  set_currentUser None;;
  set_currentPlan "free";;
  removeItem "veed_user_data";;
  removeItem "veed_user_id";;
  removeItem "veed_user_email";;
  removeItem "user_plan".

(** *** The forms *)

Definition isValidEmail (email : string) : bool := email_matches email false.

Definition validateLoginForm (email password : string) : bool :=
  if negb (truthy_string email) || negb (truthy_string password) then false
  else if negb (isValidEmail email) then false
  else true.

Definition validateSignupForm (userData : record) : bool :=
  if negb (truthy_opt (rec_str userData "name"))
     || negb (truthy_opt (rec_str userData "email"))
     || negb (truthy_opt (rec_str userData "password")) then false
  else if negb (isValidEmail (default EmptyString (rec_str userData "email")))
  then false
  else if (String.length (default EmptyString (rec_str userData "password")) <? 6)%nat
  then false
  else true.

(** [handleLogin(event)] for the values of the form, with the login it
    starts run to the end of its delay. *)
Definition handleLogin (email password : string) : M unit :=
  if validateLoginForm email password then performLogin email else ret tt.

(** [handleSignup(event)], likewise. *)
Definition handleSignup (name email password company : string) : M unit :=
  let userData : record :=
    [("name", Some name); ("email", Some email);
     ("password", Some password); ("company", Some company)] in
  if validateSignupForm userData then performSignup userData else ret tt.

(** *** Engagement *)

Definition trackPricingToggle (isAnnual : bool) : M unit :=
  analytics_track "Pricing Toggle Changed" (literal
    [("billing_type", str (if isAnnual then "annual" else "monthly"));
     ("user_id", currentUser_email);
     ("page", str "pricing_section")]).

Definition trackHighEngagement : M unit :=
  analytics_track "High Engagement" (literal
    [("engagementType", str "multiple_interactions");
     ("interactionCount", num 5);
     ("page", str "VEED Homepage")]).

Definition trackTimeOnPage (milestone : string) : M unit :=
  analytics_track "Page Engaged" (literal
    [("milestone", str milestone);
     ("page", str "VEED Homepage");
     ("engagementLevel",
      str (if String.eqb milestone "5_minutes" then "high" else "medium"))]).

(** [trackSessionMetrics()]; [clicked] is the number of elements of class
    [clicked] on the page. *)
Definition trackSessionMetrics (clicked : Z) : M unit :=
  t ← Date_now;
  t0 ← this sessionStartTime;
  let sessionDuration := t - t0 in
  analytics_track "Session Metrics" (literal
    [("user_id", currentUser_email);
     ("session_duration_ms", num sessionDuration);
     ("session_duration_minutes", num ((sessionDuration + 30000) / 60000));
     ("page_views", num 1);
     ("interactions", num clicked)]).

(** The closure of [setupEngagementTracking] when the listener is added. *)
Definition no_interaction : Engagement :=
  {| engagementScore := 0; interactionCount := 0;
     highEngagementTracked := false |}.

(** The click listener of [setupEngagementTracking]; [meaningful] tells
    that the click was on a button, a link or a feature card.  The
    closure is passed along with the browser, and keeps what was done to
    it when the listener throws. *)
Definition on_click (meaningful : bool) (s : Engagement * Browser)
  : completion unit * (Engagement * Browser) :=
  let (c, b) := s in
  if meaningful then
    let c1 := {| engagementScore := engagementScore c + 1;
                 interactionCount := interactionCount c + 1;
                 highEngagementTracked := highEngagementTracked c |} in
    if (interactionCount c1 =? 5) && negb (highEngagementTracked c1) then
      match trackHighEngagement b with
      | (Normal _, b') =>
          (Normal tt,
           ({| engagementScore := engagementScore c1;
               interactionCount := interactionCount c1;
               highEngagementTracked := true |}, b'))
      | (Throw e, b') => (Throw e, (c1, b'))
      end
    else (Normal tt, (c1, b))
  else (Normal tt, (c, b)).

(** *** The editor *)

Definition startVideoEditor : M unit :=
  present ← gets window_veedAnalytics;
  (if present then
     p ← this currentPlan;
     VeedAnalytics.trackFeatureUsage "video_editor"
       [("entry_point", VStr "hero_cta"); ("user_plan", VStr p)]
   else ret tt);;
  u ← this currentUser;
  match u with
  | None =>
      showSignupModal;;
      analytics_track "Signup Prompted" (literal
        [("trigger", str "editor_access"); ("feature", str "video_editor")])
  | Some _ => openEditor
  end.

Definition closeEditor : M unit :=
  e ← gets env;
  if editor_modal e then
    analytics_track "Editor Closed" (literal
      [("user_id", currentUser_email);
       ("session_duration",
        (t ← Date_now; t0 ← this sessionStartTime; num (t - t0)))])
  else ret tt.

(** [saveProject()]; [projectName] is the value of the project name
    field. *)
Definition saveProject (projectName : string) : M unit :=
  u ← this currentUser;
  match u with
  | None => ret tt
  | Some _ =>
      t ← Date_now;
      let projectId := "proj_" ++ pretty t in
      n ← this projectCount;
      let n' := Z.succ <$> n in
      set_projectCount n';;
      setItem "total_projects" (count_toString n');;
      present ← gets window_veedAnalytics;
      (if present then
         VeedAnalytics.trackProjectCreated
           {| project_id := Some projectId; project_name := Some projectName;
              project_type := Some "video_editing"; project_template := None;
              project_method := Some "manual" |}
       else ret tt);;
      if bool_decide (n' = Some 1) then
        present ← gets window_veedAnalytics;
        if present
        then VeedAnalytics.trackOnboardingMilestone "first_project_created"
        else ret tt
      else ret tt
  end.

(** [uploadVideo()], up to the file dialog. *)
Definition uploadVideo : M unit :=
  analytics_track "Upload Intent" (literal
    [("user_id", currentUser_email);
     ("source", str "hero_button");
     ("user_plan", (p ← this currentPlan; str p))]);;
  u ← this currentUser;
  match u with
  | None => showSignupModal
  | Some _ => ret tt
  end.

(** [processVideoUpload(file)] for a file of [size] bytes and type
    [type]. *)
Definition processVideoUpload (size : Z) (type : string) : M unit :=
  analytics_track "Video Uploaded" (literal
    [("user_id", currentUser_email);
     ("file_size_mb", num ((2 * size + 1048576) / 2097152));
     ("file_type", str type);
     ("user_plan", (p ← this currentPlan; str p))]);;
  openEditor.

(** [exportLimits[plan]]. *)
Definition exportLimit (plan : string) : option Z :=
  if String.eqb plan "free" then Some 1
  else if String.eqb plan "pro" then Some 50
  else if String.eqb plan "business" then Some 200
  else None.

(** [count >= limit]; false when either is not a number. *)
Definition reached (count limit : option Z) : bool :=
  match count, limit with
  | Some c, Some l => l <=? c
  | _, _ => false
  end.

(** [exportVideo()] up to the start of the export: [Some todayExports]
    when the export was started, with the count its callback keeps. *)
Definition exportVideo : M (option (option Z)) :=
  u ← this currentUser;
  match u with
  | None => ret None
  | Some _ =>
      c ← getItem "exports_today";
      let todayExports := parseInt (or_default c "0") in
      p ← this currentPlan;
      if reached todayExports (exportLimit p) && String.eqb p "free" then
        showUpgradePrompt "export_limit";; ret None
      else ret (Some todayExports)
  end.

(** The callback of [exportVideo], three seconds later. *)
Definition exportVideo_timeout (todayExports : option Z) : M unit :=
  p ← this currentPlan;
  let exportData :=
    {| export_projectId := "proj_current"; export_duration := 120;
       export_quality := (if String.eqb p "free" then "720p" else "4K");
       export_fileSize := 45; export_format := Some "mp4";
       export_processingTime := 30; export_hasSubtitles := Some true;
       export_effectsCount := Some 3; export_isCollaborative := Some false |} in
  present ← gets window_veedAnalytics;
  (if present then VeedAnalytics.trackVideoExport exportData else ret tt);;
  setItem "exports_today" (count_toString (Z.succ <$> todayExports)).

Definition sendInvite (email : string) : M unit :=
  present ← gets window_veedAnalytics;
  if present then
    VeedAnalytics.trackUserInvited
      {| invite_email := email; invite_role := Some "editor";
         invite_projectId := Some "proj_current"; invite_message := None |}
  else ret tt.

(** [inviteCollaborator()]; [answer] is what the visitor typed into the
    prompt, [None] when it was dismissed. *)
Definition inviteCollaborator (answer : option string) : M unit :=
  p ← this currentPlan;
  if String.eqb p "free" then showUpgradePrompt "collaboration"
  else
    match answer with
    | Some email =>
        if truthy_string email && isValidEmail email then sendInvite email
        else ret tt
    | None => ret tt
    end.

End VeedApp.

(** ** The functions of the page: the globals of js/main.js

    They are called from the markup once the page has loaded, when
    [window.app] is assigned.  [switchTool] and [filterTemplates], which
    read the global [event] of the DOM, are left out. *)

Module Page.

(** [window.app?.currentPlan]. *)
Definition app_currentPlan : M jsval := p ← VeedApp.this currentPlan; str p.

Definition addElement (elementType : string) : M unit :=
  analytics_track "Editor Element Added" (literal
    [("element_type", str elementType);
     ("user_id", VeedApp.currentUser_email);
     ("user_plan", app_currentPlan)]).

Definition playVideo : M unit :=
  analytics_track "Video Playback" (literal
    [("action", str "play"); ("user_id", VeedApp.currentUser_email)]).

(** [selectTemplate(templateId)], up to the delay before the editor. *)
Definition selectTemplate (templateId : string) : M unit :=
  analytics_track "Template Selected" (literal
    [("templateId", str templateId);
     ("selectionContext", str "template_grid")]);;
  u ← VeedApp.this currentUser;
  match u with
  | None =>
      VeedApp.showSignupModal;;
      analytics_track "Signup Prompted" (literal
        [("trigger", str "template_selection");
         ("template_id", str templateId)])
  | Some _ =>
      analytics_track "Template Usage Started" (literal
        [("template_id", str templateId);
         ("user_id", VeedApp.currentUser_email);
         ("user_plan", app_currentPlan)])
  end.

Definition viewAllTemplates : M unit :=
  analytics_track "Browse All Templates Clicked" (literal
    [("user_id", VeedApp.currentUser_email);
     ("current_filters", str "all")]).

Definition createBrandKit : M unit :=
  analytics_track "Brand Kit Creation Started" (literal
    [("user_id", VeedApp.currentUser_email);
     ("user_plan", app_currentPlan);
     ("entry_point", str "brand_kit_section")]);;
  u ← VeedApp.this currentUser;
  match u with
  | None => VeedApp.showSignupModal
  | Some _ =>
      p ← VeedApp.this currentPlan;
      if String.eqb p "free" then
        analytics_track "Brand Kit Feature Blocked" (literal
          [("user_id", VeedApp.currentUser_email);
           ("current_plan", str "free");
           ("upgrade_opportunity", boolean true)]);;
        e ← gets env;
        if confirm e "Brand Kits are available with Pro and Business plans. Upgrade now?"
        then VeedApp.selectPlan "pro"
        else ret tt
      else ret tt
  end.

Definition previewBrandKit (kitType : string) : M unit :=
  analytics_track "Brand Kit Preview" (literal
    [("kit_type", str kitType);
     ("user_id", VeedApp.currentUser_email);
     ("interaction_type", str "example_preview")]).

Definition accessTeamSpace : M unit :=
  analytics_track "Team Space Access Attempted" (literal
    [("user_id", VeedApp.currentUser_email);
     ("user_plan", app_currentPlan);
     ("entry_point", str "team_space_section")]);;
  u ← VeedApp.this currentUser;
  match u with
  | None =>
      VeedApp.showSignupModal;;
      analytics_track "Signup Prompted" (literal
        [("trigger", str "team_space_access")])
  | Some _ =>
      p ← VeedApp.this currentPlan;
      if negb (String.eqb p "business") then
        analytics_track "Team Space Feature Blocked" (literal
          [("user_id", VeedApp.currentUser_email);
           ("current_plan", app_currentPlan);
           ("upgrade_opportunity", boolean true)]);;
        e ← gets env;
        if confirm e "Team Space is available with Business plan. Upgrade now?"
        then VeedApp.selectPlan "business"
        else ret tt
      else
        analytics_track "Team Space Accessed" (literal
          [("user_id", VeedApp.currentUser_email);
           ("user_plan", app_currentPlan)])
  end.

Definition trackResourceAccess (resourceType resourceId : string) : M unit :=
  analytics_track "Resource Accessed" (literal
    [("resource_type", str resourceType);
     ("resource_id", str resourceId);
     ("user_id", VeedApp.currentUser_email);
     ("section", str "resources")]);;
  analytics_track "Learning Engagement" (literal
    [("content_type", str resourceType);
     ("content_id", str resourceId);
     ("user_id", VeedApp.currentUser_email);
     ("engagement_level", str "content_access")]).

Definition openSupportChat : M unit :=
  analytics_track "Support Chat Opened" (literal
    [("user_id", VeedApp.currentUser_email);
     ("user_plan", app_currentPlan);
     ("entry_point", str "resources_section")]).

Definition viewHelpCenter : M unit :=
  analytics_track "Help Center Accessed" (literal
    [("user_id", VeedApp.currentUser_email);
     ("entry_point", str "resources_section")]).

End Page.

(** ** Sessions and what is observed of them *)

(** A page before any script has run. *)
Definition new_page (e : Env) (defined : bool) (store : gmap string string)
  : Browser :=
  {| env := e; analytics_defined := defined; calls := [];
     ready_pending := false; localStorage := store; draws := 0; ticks := 0;
     viewport := {| scrollY := 0; innerHeight := 0; scrollHeight := 0 |};
     va := {| userId := None; sessionId := EmptyString;
              anonymousId := None; isInitialized := false |};
     window_veedAnalytics := false; scroll := None;
     window_app := {| currentUser := None; currentPlan := "free";
               projectCount := Some 0; sessionStartTime := 0 |} |}.

(** Handlers run one after the other; an exception ends the handler it is
    raised in and not the page. *)
Definition run_all {A : Type} (handler : A -> M unit) (inputs : list A)
  (b : Browser) : Browser :=
  fold_left (fun b' x => after (handler x) b') inputs b.

(** The calls the transport received between [b] and a later [b']. *)
Definition calls_since (b b' : Browser) : list Call :=
  drop (length (calls b)) (calls b').

(** The user ids handed to [analytics.identify], in order. *)
Fixpoint identified (l : list Call) : list (option string) :=
  match l with
  | [] => []
  | CIdentify id _ :: l' => id :: identified l'
  | _ :: l' => identified l'
  end.

(** The property maps handed to [analytics.track] and [analytics.page]. *)
Fixpoint property_maps (l : list Call) : list obj :=
  match l with
  | [] => []
  | CTrack _ p :: l' => p :: property_maps l'
  | CPage _ p :: l' => p :: property_maps l'
  | _ :: l' => property_maps l'
  end.

(** A property map names the user in itself. *)
Definition carries_identity (p : obj) : bool :=
  obj_has p "userId" || obj_has p "anonymousId"
  || obj_has p "user_id" || obj_has p "anonymous_id".

(** The user id the transport has bound: that of the latest identify
    call since the latest reset. *)
Fixpoint bound_userId (l : list Call) (bound : option string) : option string :=
  match l with
  | [] => bound
  | CIdentify id _ :: l' => bound_userId l' id
  | CReset :: l' => bound_userId l' None
  | _ :: l' => bound_userId l' bound
  end.

(** The list of completed milestones the store holds, when the cell is
    absent or holds an array. *)
Definition milestones_stored (b : Browser) : option (list string) :=
  match JSON_parse (or_default (localStorage b !! "onboarding_milestones") "[]") with
  | Some (JArr l) => Some l
  | _ => None
  end.

(** The events and page views that name the user in a [user_id]
    property, with the value they give. *)
Fixpoint user_id_properties (l : list Call) : list (string * jsval) :=
  match l with
  | [] => []
  | (CTrack name p | CPage name p) :: l' =>
      match obj_get p "user_id" with
      | Some v => (name, v) :: user_id_properties l'
      | None => user_id_properties l'
      end
  | _ :: l' => user_id_properties l'
  end.

(** What happens to the page while the visitor scrolls. *)
Inductive ScrollEvent : Type :=
| ScrollTo (v : Viewport)   (* the page is scrolled: a scroll event *)
| TimerFires.               (* 150ms pass without another one *)

Definition scroll_handler (ev : ScrollEvent) : M unit :=
  match ev with
  | ScrollTo v => modify (set_viewport v);; VeedAnalytics.on_scroll
  | TimerFires => VeedAnalytics.on_scroll_timeout
  end.

(** The call one scroll milestone makes. *)
Definition scrolled_call (depth : string) : Call :=
  CTrack "Page Scrolled" [("depth", VStr depth); ("page", VStr "VEED Homepage")].

(** The depths of the scroll milestone events among some calls. *)
Fixpoint scroll_depths (l : list Call) : list jsval :=
  match l with
  | [] => []
  | CTrack ev p :: l' =>
      if String.eqb ev "Page Scrolled"
      then default VUndef (obj_get p "depth") :: scroll_depths l'
      else scroll_depths l'
  | _ :: l' => scroll_depths l'
  end.

(** The one-shot flag of a milestone, as the listener holds it. *)
Definition fired (b : Browser) (depth : string) : bool :=
  match scroll b with
  | Some c =>
      (String.eqb depth "25%" && fired25 c)
      || (String.eqb depth "50%" && fired50 c)
      || (String.eqb depth "75%" && fired75 c)
      || (String.eqb depth "100%" && fired100 c)
  | None => false
  end.

(** A page of height 1000 seen through a window of height 100, scrolled so
    that the bottom of the window is at [percent] of the page. *)
Definition scrolled_to (percent : Z) : Viewport :=
  {| scrollY := inject_Z (10 * percent - 100);
     innerHeight := 100; scrollHeight := 1000 |}.

(** The samples 10%, 30%, 20%, 60%, 90%, each left to settle. *)
Definition sample_scrolls : list ScrollEvent :=
  [ScrollTo (scrolled_to 10); TimerFires;
   ScrollTo (scrolled_to 30); TimerFires;
   ScrollTo (scrolled_to 20); TimerFires;
   ScrollTo (scrolled_to 60); TimerFires;
   ScrollTo (scrolled_to 90); TimerFires].

(** Every outcome of Math.random is in [0, 1). *)
Definition random_in_range (e : Env) : Prop :=
  forall n, (0 <= random e n)%Q /\ (random e n < 1)%Q.

(** A letter A-Z or a digit 0-9. *)
Definition alphanumeric (c : ascii) : bool :=
  let n := nat_of_ascii c in
  ((65 <=? n)%nat && (n <=? 90)%nat) || ((48 <=? n)%nat && (n <=? 57)%nat).

(** A string of exactly five such characters. *)
Definition is_user_id (s : string) : bool :=
  (String.length s =? 5)%nat && forallb alphanumeric (list_ascii_of_string s).

(** The keys of the store that [logout] removes. *)
Definition identity_keys : list string :=
  ["veed_user_data"; "veed_user_id"; "veed_user_email"; "user_plan"].

(** The page of a signed-in user [id]: the facade is installed, the
    transport loaded, the store holds [id] as the user id, with user data
    that [JSON.stringify] wrote. *)
Definition signed_in (id : string) (b : Browser) : Prop :=
  analytics_defined b = true
  /\ window_veedAnalytics b = true
  /\ random_in_range (env b)
  /\ truthy_string id = true
  /\ localStorage b !! "veed_user_id" = Some id
  /\ exists r, localStorage b !! "veed_user_data" = Some (JSON_stringify (JObj r)).

(** A login, through the facade or through the login form. *)
Inductive Login : Type :=
| FacadeLogin (email : string) (existingUserId : option string)
| FormLogin (email : string).

Definition login_handler (l : Login) : M unit :=
  match l with
  | FacadeLogin email existing => VeedAnalytics.trackLogin email existing
  | FormLogin email => VeedApp.performLogin email
  end.

(** *** Reports

    The operations of the page that report to the transport and are not
    a signup, a login, an upgrade, a page load or a logout. *)
Inductive Report : Type :=
(* js/analytics.js *)
| FeatureUsage (featureName : string) (properties : obj)
| FeatureClick (feature : string)
| ProjectCreated (projectData : ProjectData)
| UserInvited (inviteData : InviteData)
| VideoExport (exportData : ExportData)
| ChurnRisk
| OnboardingMilestone (milestone : string)
| SessionEnd
| SessionResume
| PageView
| PlanSelection (plan : string)
| Scrolling (ev : ScrollEvent)
| FirstVisit
(* class VeedApp *)
| OnboardingFlow
| OnboardingTooltip
| SelectPlan (planType : string)
| UpgradePrompt (reason : string)
| SignupModal
| LoginModal
| StartVideoEditor
| OpenEditor
| CloseEditor
| SaveProject (projectName : string)
| UploadVideo
| ProcessVideoUpload (size : Z) (type : string)
| ExportVideo
| ExportVideoDone (todayExports : option Z)
| InviteCollaborator (answer : option string)
| PricingToggle (isAnnual : bool)
| HighEngagement
| TimeOnPage (milestone : string)
| SessionMetrics (clicked : Z)
(* the globals of js/main.js *)
| AddElement (elementType : string)
| PlayVideo
| SelectTemplate (templateId : string)
| ViewAllTemplates
| CreateBrandKit
| PreviewBrandKit (kitType : string)
| AccessTeamSpace
| ResourceAccess (resourceType resourceId : string)
| SupportChat
| HelpCenter.

Definition report_handler (r : Report) : M unit :=
  match r with
  | FeatureUsage f p => VeedAnalytics.trackFeatureUsage f p
  | FeatureClick f => VeedAnalytics.trackFeatureClick f
  | ProjectCreated d => VeedAnalytics.trackProjectCreated d
  | UserInvited d => VeedAnalytics.trackUserInvited d
  | VideoExport d => VeedAnalytics.trackVideoExport d
  | ChurnRisk => VeedAnalytics.trackChurnRisk
  | OnboardingMilestone m => VeedAnalytics.trackOnboardingMilestone m
  | SessionEnd => VeedAnalytics.trackSessionEnd
  | SessionResume => VeedAnalytics.trackSessionResume
  | PageView => VeedAnalytics.trackPageView
  | PlanSelection p => VeedAnalytics.trackPlanSelection p
  | Scrolling ev => scroll_handler ev
  | FirstVisit => VeedAnalytics.initFirstVisit
  | OnboardingFlow => VeedApp.startOnboardingFlow
  | OnboardingTooltip => VeedApp.showOnboardingTooltip
  | SelectPlan p => VeedApp.selectPlan p
  | UpgradePrompt r => VeedApp.showUpgradePrompt r
  | SignupModal => VeedApp.showSignupModal
  | LoginModal => VeedApp.showLoginModal
  | StartVideoEditor => VeedApp.startVideoEditor
  | OpenEditor => VeedApp.openEditor
  | CloseEditor => VeedApp.closeEditor
  | SaveProject n => VeedApp.saveProject n
  | UploadVideo => VeedApp.uploadVideo
  | ProcessVideoUpload s t => VeedApp.processVideoUpload s t
  | ExportVideo => VeedApp.exportVideo;; ret tt
  | ExportVideoDone n => VeedApp.exportVideo_timeout n
  | InviteCollaborator a => VeedApp.inviteCollaborator a
  | PricingToggle a => VeedApp.trackPricingToggle a
  | HighEngagement => VeedApp.trackHighEngagement
  | TimeOnPage m => VeedApp.trackTimeOnPage m
  | SessionMetrics n => VeedApp.trackSessionMetrics n
  | AddElement t => Page.addElement t
  | PlayVideo => Page.playVideo
  | SelectTemplate t => Page.selectTemplate t
  | ViewAllTemplates => Page.viewAllTemplates
  | CreateBrandKit => Page.createBrandKit
  | PreviewBrandKit k => Page.previewBrandKit k
  | AccessTeamSpace => Page.accessTeamSpace
  | ResourceAccess t i => Page.trackResourceAccess t i
  | SupportChat => Page.openSupportChat
  | HelpCenter => Page.viewHelpCenter
  end.

(** A call that leaves alone the user the transport has bound. *)
Definition is_report (c : Call) : bool :=
  match c with
  | CTrack _ _ | CPage _ _ => true
  | CIdentify _ _ | CReset => false
  end.

(** The names of the events among some calls. *)
Fixpoint event_names (l : list Call) : list string :=
  match l with
  | [] => []
  | CTrack name _ :: l' => name :: event_names l'
  | _ :: l' => event_names l'
  end.

(** The property maps of the events called [name]. *)
Fixpoint events_named (name : string) (l : list Call) : list obj :=
  match l with
  | [] => []
  | CTrack n p :: l' =>
      if String.eqb n name then p :: events_named name l'
      else events_named name l'
  | _ :: l' => events_named name l'
  end.

(** The clicks of a visit, one after the other, on the closure and the
    browser the listener left. *)
Definition run_clicks (clicks : list bool) (s : Engagement * Browser)
  : Engagement * Browser :=
  fold_left (fun s' meaningful => snd (VeedApp.on_click meaningful s')) clicks s.

(** The number of meaningful clicks among some clicks. *)
Fixpoint meaningful_clicks (clicks : list bool) : Z :=
  match clicks with
  | [] => 0
  | meaningful :: clicks' =>
      (if meaningful then 1 else 0) + meaningful_clicks clicks'
  end.

Definition high_engagement_call : Call :=
  CTrack "High Engagement"
    [("engagementType", VStr "multiple_interactions");
     ("interactionCount", VNum (num_of_Z 5));
     ("page", VStr "VEED Homepage")].

(** How far down the page the window reaches. *)
Definition depth_of (v : Viewport) : jsnum :=
  js_div (Fin (scrollY v + innerHeight v)) (Fin (scrollHeight v)).

(** The scroll milestones in the order the listener tests them. *)
Definition milestone_depths : list string := ["25%"; "50%"; "75%"; "100%"].

(** The number of milestones fired, when they are the first ones of
    [milestone_depths]. *)
Definition milestones_fired (c : ScrollClosure) : option nat :=
  match fired25 c, fired50 c, fired75 c, fired100 c with
  | false, false, false, false => Some 0%nat
  | true, false, false, false => Some 1%nat
  | true, true, false, false => Some 2%nat
  | true, true, true, false => Some 3%nat
  | true, true, true, true => Some 4%nat
  | _, _, _, _ => None
  end.

(** The page is loaded: the facade is constructed, and the transport
    becomes ready and runs the callback it was handed. *)
Definition page_load : M unit :=
  VeedAnalytics.on_DOMContentLoaded;;
  VeedAnalytics.on_ready.

(** A visitor a page load identifies: a user id and user data are both
    stored. *)
Definition known_visitor (b : Browser) : bool :=
  truthy_opt (localStorage b !! "veed_user_id")
  && truthy_opt (localStorage b !! "veed_user_data").

(** The [userId] member of the user the application holds. *)
Definition app_userId (b : Browser) : option string :=
  match currentUser (window_app b) with
  | Some r => rec_str r "userId"
  | None => None
  end.

(** A scroll event that does not take the page deeper than [D]. *)
Definition not_deeper (D : jsnum) (ev : ScrollEvent) : bool :=
  match ev with
  | ScrollTo v => negb (js_gt (depth_of v) D)
  | TimerFires => true
  end.

(** The trait and property maps handed to the transport. *)
Fixpoint maps_sent (l : list Call) : list obj :=
  match l with
  | [] => []
  | (CTrack _ p | CPage _ p | CIdentify _ p) :: l' => p :: maps_sent l'
  | CReset :: l' => maps_sent l'
  end.

(** *** A sample visit *)

Definition sample_env : Env :=
  {| random := fun n => Z.of_nat ((7 * n + 3) mod 36) # 36;
     clock := fun n => 1700000000000 + 1000 * Z.of_nat n;
     toISOString := fun t => "T" ++ pretty t;
     toString36 := fun _ => "k3j9x2m1q";
     location_href := "https://veed.example/";
     location_pathname := "/";
     document_referrer := EmptyString;
     document_title := "VEED";
     navigator_userAgent := "Mozilla/5.0";
     screen_width := 1920;
     screen_height := 1080;
     segment_anonymousId := "anon-1";
     editor_modal := true;
     confirm := fun _ => false |}.

Definition sample_user : record :=
  [("name", Some "Ann"); ("email", Some "ann@example.com");
   ("password", Some "secret1"); ("company", Some EmptyString)].

Definition sample_upgrade : PlanData :=
  {| plan := "pro"; billingCycle := Some "monthly";
     method := Some "upgrade_modal"; fromTrial := Some false;
     reason := None |}.

(** The page once both scripts have loaded and the transport is ready. *)
Definition loaded_page : Browser :=
  after VeedApp.constructor
    (after VeedAnalytics.on_ready
       (after VeedAnalytics.on_DOMContentLoaded
          (new_page sample_env true ∅))).

(** The visitor signs up through the form and the onboarding flow
    starts. *)
Definition signed_up_page : Browser :=
  after VeedApp.startOnboardingFlow
    (after (VeedApp.performSignup sample_user) loaded_page).

(** The store of a user with two completed milestones, five projects and
    two exports today. *)
Definition returning_store : gmap string string :=
  <["veed_user_id" := "3AHOV"]>
  (<["veed_user_data" :=
       JSON_stringify (JObj [("name", Some "Ann");
                             ("email", Some "ann@example.com");
                             ("userId", Some "3AHOV")])]>
  (<["veed_user_email" := "ann@example.com"]>
  (<["user_plan" := "pro"]>
  (<["total_projects" := "5"]>
  (<["exports_today" := "2"]>
  (<["onboarding_milestones" :=
       JSON_stringify (JArr ["account_created"; "first_project_created"])]>
   ∅)))))).

(** The page of that user, loaded. *)
Definition returning_page : Browser :=
  after VeedApp.constructor
    (after VeedAnalytics.on_ready
       (after VeedAnalytics.on_DOMContentLoaded
          (new_page sample_env true returning_store))).

(** The page when the vendor's script failed to load. *)
Definition broken_page : Browser := new_page sample_env false ∅.

(* ===================================================================== *)
(** * Part II.  Properties                                               *)
(* ===================================================================== *)

(** ** Running a method

    [js_run] unfolds the methods and the monad down to the tests and the
    data they depend on: the texts in the store, the outcomes of
    Math.random, the clock.  [generateRandomUserId] is kept as it is, for
    [generateRandomUserId_run]. *)
Ltac js_run :=
  cbv beta iota zeta delta [
    set_calls set_ready set_storage set_draws set_ticks set_viewport
    set_va set_window_veedAnalytics set_scroll set_app ret bind throw
    gets modify try_catch after outcome completes Math_random
    random_below random_token Date_now new_Date_toISOString getItem
    setItem removeItem parse pick analytics emit analytics_page
    analytics_identify analytics_track analytics_reset literal str num
    boolean includes push VeedAnalytics.this VeedAnalytics.set_userId
    VeedAnalytics.set_sessionId VeedAnalytics.set_anonymousId
    VeedAnalytics.set_isInitialized VeedAnalytics.getUserId
    VeedAnalytics.generateSessionId VeedAnalytics.generateUTMParameters
    VeedAnalytics.getUserPlan VeedAnalytics.getLoginCount
    VeedAnalytics.getTotalProjectsCreated VeedAnalytics.isTrialUser
    VeedAnalytics.getDaysSinceSignup VeedAnalytics.getDaysSinceLastLogin
    VeedAnalytics.getLoginStreak
    VeedAnalytics.getMilestoneCompletionTime
    VeedAnalytics.calculateDropOffRisk
    VeedAnalytics.calculateEngagementScore
    VeedAnalytics.getFeatureDiscoveryRate
    VeedAnalytics.estimateCompanySize VeedAnalytics.estimateIndustry
    VeedAnalytics.getCompletedMilestones
    VeedAnalytics.updateOnboardingProgress
    VeedAnalytics.getUserJourneyStage VeedAnalytics.trackPageView
    VeedAnalytics.identifyExistingUser VeedAnalytics.setupEventListeners
    VeedAnalytics.initializeTracking VeedAnalytics.on_ready
    VeedAnalytics.constructor VeedAnalytics.trackSignup
    VeedAnalytics.trackLogin VeedAnalytics.trackSubscriptionUpgrade
    VeedAnalytics.trackOnboardingMilestone VeedAnalytics.trackSessionEnd
    VeedAnalytics.trackSessionResume VeedAnalytics.with_timeout
    VeedAnalytics.with_max VeedAnalytics.set_fired25
    VeedAnalytics.set_fired50 VeedAnalytics.set_fired75
    VeedAnalytics.set_fired100 VeedAnalytics.update_closure
    VeedAnalytics.page_scrolled VeedAnalytics.on_scroll
    VeedAnalytics.scroll_sample VeedAnalytics.on_scroll_timeout
    VeedAnalytics.getPreviousSessionCount VeedAnalytics.initFirstVisit
    VeedAnalytics.on_DOMContentLoaded VeedAnalytics.trackPlanSelection
    VeedApp.this VeedApp.set_currentUser VeedApp.set_currentPlan
    VeedApp.set_projectCount VeedApp.set_sessionStartTime
    VeedApp.currentUser_email VeedApp.veedAnalytics_sessionId
    VeedApp.generateRandomUserId VeedApp.loadUserState VeedApp.init
    VeedApp.constructor VeedApp.performLogin
    VeedApp.showOnboardingTooltip VeedApp.startOnboardingFlow
    VeedApp.performSignup VeedApp.showSignupModal VeedApp.showLoginModal
    VeedApp.showUpgradeModal VeedApp.selectPlan VeedApp.processUpgrade
    VeedApp.openEditor VeedApp.showUpgradePrompt VeedApp.logout
    location_href location_pathname document_referrer document_title
    navigator_userAgent screen_width screen_height segment_anonymousId
    editor_modal confirm scrollY innerHeight scrollHeight userId
    sessionId anonymousId isInitialized maxScrollDepth fired25 fired50
    fired75 fired100 scrollTimeout currentUser currentPlan projectCount
    sessionStartTime env analytics_defined calls ready_pending
    localStorage draws ticks viewport va window_veedAnalytics scroll
    window_app plan billingCycle method fromTrial reason fst snd
  ];
  change (VeedAnalytics.generateRandomUserId_loop 5 EmptyString)
    with VeedAnalytics.generateRandomUserId.

Tactic Notation "js_run" "in" hyp(H) :=
  cbv beta iota zeta delta [
    set_calls set_ready set_storage set_draws set_ticks set_viewport
    set_va set_window_veedAnalytics set_scroll set_app ret bind throw
    gets modify try_catch after outcome completes Math_random
    random_below random_token Date_now new_Date_toISOString getItem
    setItem removeItem parse pick analytics emit analytics_page
    analytics_identify analytics_track analytics_reset literal str num
    boolean includes push VeedAnalytics.this VeedAnalytics.set_userId
    VeedAnalytics.set_sessionId VeedAnalytics.set_anonymousId
    VeedAnalytics.set_isInitialized VeedAnalytics.getUserId
    VeedAnalytics.generateSessionId VeedAnalytics.generateUTMParameters
    VeedAnalytics.getUserPlan VeedAnalytics.getLoginCount
    VeedAnalytics.getTotalProjectsCreated VeedAnalytics.isTrialUser
    VeedAnalytics.getDaysSinceSignup VeedAnalytics.getDaysSinceLastLogin
    VeedAnalytics.getLoginStreak
    VeedAnalytics.getMilestoneCompletionTime
    VeedAnalytics.calculateDropOffRisk
    VeedAnalytics.calculateEngagementScore
    VeedAnalytics.getFeatureDiscoveryRate
    VeedAnalytics.estimateCompanySize VeedAnalytics.estimateIndustry
    VeedAnalytics.getCompletedMilestones
    VeedAnalytics.updateOnboardingProgress
    VeedAnalytics.getUserJourneyStage VeedAnalytics.trackPageView
    VeedAnalytics.identifyExistingUser VeedAnalytics.setupEventListeners
    VeedAnalytics.initializeTracking VeedAnalytics.on_ready
    VeedAnalytics.constructor VeedAnalytics.trackSignup
    VeedAnalytics.trackLogin VeedAnalytics.trackSubscriptionUpgrade
    VeedAnalytics.trackOnboardingMilestone VeedAnalytics.trackSessionEnd
    VeedAnalytics.trackSessionResume VeedAnalytics.with_timeout
    VeedAnalytics.with_max VeedAnalytics.set_fired25
    VeedAnalytics.set_fired50 VeedAnalytics.set_fired75
    VeedAnalytics.set_fired100 VeedAnalytics.update_closure
    VeedAnalytics.page_scrolled VeedAnalytics.on_scroll
    VeedAnalytics.scroll_sample VeedAnalytics.on_scroll_timeout
    VeedAnalytics.getPreviousSessionCount VeedAnalytics.initFirstVisit
    VeedAnalytics.on_DOMContentLoaded VeedAnalytics.trackPlanSelection
    VeedApp.this VeedApp.set_currentUser VeedApp.set_currentPlan
    VeedApp.set_projectCount VeedApp.set_sessionStartTime
    VeedApp.currentUser_email VeedApp.veedAnalytics_sessionId
    VeedApp.generateRandomUserId VeedApp.loadUserState VeedApp.init
    VeedApp.constructor VeedApp.performLogin
    VeedApp.showOnboardingTooltip VeedApp.startOnboardingFlow
    VeedApp.performSignup VeedApp.showSignupModal VeedApp.showLoginModal
    VeedApp.showUpgradeModal VeedApp.selectPlan VeedApp.processUpgrade
    VeedApp.openEditor VeedApp.showUpgradePrompt VeedApp.logout
    location_href location_pathname document_referrer document_title
    navigator_userAgent screen_width screen_height segment_anonymousId
    editor_modal confirm scrollY innerHeight scrollHeight userId
    sessionId anonymousId isInitialized maxScrollDepth fired25 fired50
    fired75 fired100 scrollTimeout currentUser currentPlan projectCount
    sessionStartTime env analytics_defined calls ready_pending
    localStorage draws ticks viewport va window_veedAnalytics scroll
    window_app plan billingCycle method fromTrial reason fst snd
  ] in H;
  change (VeedAnalytics.generateRandomUserId_loop 5 EmptyString)
    with VeedAnalytics.generateRandomUserId in H.

(** ** The JSON round trip *)

Lemma append_cons (c : ascii) (a b : string) :
  String c a ++ b = String c (a ++ b).
Proof. reflexivity. Qed.

Lemma append_nil (b : string) : EmptyString ++ b = b.
Proof. reflexivity. Qed.

Lemma string_app_assoc (a b c : string) : (a ++ b) ++ c = a ++ (b ++ c).
Proof.
  induction a as [|x a IH]; [reflexivity|].
  rewrite !append_cons. f_equal. exact IH.
Qed.

Lemma length_append (a b : string) :
  String.length (a ++ b) = (String.length a + String.length b)%nat.
Proof.
  induction a as [|c a IH]; [reflexivity|].
  rewrite append_cons. cbn [String.length]. now rewrite IH.
Qed.

Lemma read_chars_escape_char (c : ascii) (t : string) :
  read_chars (escape_char c ++ t)
  = match read_chars t with
    | Some (x, rest) => Some (String c x, rest)
    | None => None
    end.
Proof.
  destruct c as [[] [] [] [] [] [] [] []]; reflexivity.
Qed.

Lemma read_chars_escape (s rest : string) :
  read_chars (json_escape s ++ String dquote rest) = Some (s, rest).
Proof.
  induction s as [|c s IH].
  - reflexivity.
  - cbn [json_escape]. rewrite string_app_assoc, read_chars_escape_char.
    now rewrite IH.
Qed.

Lemma read_string_quote (s rest : string) :
  read_string (json_quote s ++ rest) = Some (s, rest).
Proof.
  unfold json_quote. rewrite append_cons. cbn [read_string].
  change (Ascii.eqb dquote dquote) with true. cbn iota.
  now rewrite string_app_assoc, append_cons, append_nil, read_chars_escape.
Qed.

Lemma json_quote_cons (s : string) :
  exists t, json_quote s = String dquote t.
Proof. unfold json_quote. eauto. Qed.

Lemma print_elems_cons (x y : string) (l : list string) :
  print_elems (x :: y :: l) = json_quote x ++ String "," (print_elems (y :: l)).
Proof. reflexivity. Qed.

Lemma read_elems_print (l : list string) (x : string) (rest : string) (fuel : nat) :
  (length l < fuel)%nat ->
  read_elems fuel (print_elems (x :: l) ++ String "]" rest) = Some (x :: l, rest).
Proof.
  revert x fuel. induction l as [|y l IH]; intros x fuel Hf.
  - destruct fuel as [|f]; [simpl in Hf; lia|].
    cbn [print_elems read_elems]. rewrite read_string_quote. reflexivity.
  - destruct fuel as [|f]; [simpl in Hf; lia|].
    rewrite print_elems_cons. cbn [read_elems].
    rewrite string_app_assoc, read_string_quote, append_cons.
    cbn [mbind option_bind]. rewrite IH by (simpl in Hf; lia). reflexivity.
Qed.

Lemma length_print_elems (l : list string) :
  (length l <= String.length (print_elems l))%nat.
Proof.
  induction l as [|x l IH]; [simpl; lia|].
  destruct l as [|y l].
  - destruct (json_quote_cons x) as [t Ht]. cbn [print_elems].
    rewrite Ht. simpl. lia.
  - rewrite print_elems_cons, length_append. cbn [String.length].
    cbn [length] in IH |- *. lia.
Qed.

(** Parsing what [JSON.stringify] printed for a list of strings gives the
    list back. *)
Lemma JSON_parse_stringify_array (l : list string) :
  JSON_parse (JSON_stringify (JArr l)) = Some (JArr l).
Proof.
  destruct l as [|x l]; [reflexivity|].
  assert (Hp : exists u, print_elems (x :: l) = String dquote u).
  { destruct (json_quote_cons x) as [t Ht].
    destruct l; [|rewrite print_elems_cons]; cbn [print_elems];
      rewrite Ht; [|rewrite append_cons]; eauto. }
  destruct Hp as [u Hu].
  pose proof (read_elems_print l x EmptyString
                (String.length (print_elems (x :: l) ++ String "]" EmptyString)))
    as Hr.
  unfold JSON_stringify. rewrite Hu in Hr |- *. rewrite append_cons in Hr |- *.
  unfold JSON_parse. cbv beta iota delta [dquote] in Hr |- *.
  rewrite Hr; [reflexivity|].
  pose proof (length_print_elems (x :: l)) as Hl. rewrite Hu in Hl.
  cbn [String.length length] in Hl |- *. rewrite length_append.
  cbn [String.length]. lia.
Qed.

Lemma read_value_quote (s rest : string) :
  read_value (json_quote s ++ rest) = Some (Some s, rest).
Proof.
  assert (H : forall t, read_value (String dquote t)
                        = match read_string (String dquote t) with
                          | Some (x, r) => Some (Some x, r)
                          | None => None
                          end) by reflexivity.
  destruct (json_quote_cons s) as [t Ht].
  pose proof (read_string_quote s rest) as Hq.
  rewrite Ht, append_cons in Hq |- *. now rewrite H, Hq.
Qed.

Lemma read_value_print (v : option string) (rest : string) :
  read_value (print_value v ++ rest) = Some (v, rest).
Proof.
  destruct v as [s|]; [apply read_value_quote | reflexivity].
Qed.

Lemma print_members_cons (m m' : string * option string)
  (l : list (string * option string)) :
  print_members (m :: m' :: l)
  = print_member m ++ String "," (print_members (m' :: l)).
Proof. reflexivity. Qed.

Lemma read_members_print (l : list (string * option string))
  (m : string * option string) (rest : string) (fuel : nat) :
  (length l < fuel)%nat ->
  read_members fuel (print_members (m :: l) ++ String "}" rest)
  = Some (m :: l, rest).
Proof.
  revert m fuel. induction l as [|m' l IH]; intros [k v] fuel Hf.
  - destruct fuel as [|f]; [simpl in Hf; lia|].
    cbn [print_members read_members]. unfold print_member. cbn [fst snd].
    rewrite string_app_assoc, read_string_quote, append_cons.
    cbn [mbind option_bind]. rewrite read_value_print. reflexivity.
  - destruct fuel as [|f]; [simpl in Hf; lia|].
    rewrite print_members_cons. cbn [read_members].
    unfold print_member at 1. cbn [fst snd].
    rewrite !string_app_assoc, read_string_quote, append_cons.
    cbn [mbind option_bind]. rewrite read_value_print.
    cbn [mbind option_bind]. rewrite append_cons.
    rewrite IH by (simpl in Hf; lia). reflexivity.
Qed.

Lemma length_print_members (l : list (string * option string)) :
  (length l <= String.length (print_members l))%nat.
Proof.
  induction l as [|[k v] l IH]; [simpl; lia|].
  destruct (json_quote_cons k) as [t Ht].
  destruct l as [|m' l].
  - cbn [print_members]. unfold print_member. cbn [fst].
    rewrite Ht, append_cons. simpl. lia.
  - rewrite print_members_cons, length_append. cbn [String.length].
    cbn [length] in IH |- *. lia.
Qed.

(** Parsing what [JSON.stringify] printed for an object gives the object
    back, each key once. *)
Lemma JSON_parse_stringify_object (r : list (string * option string)) :
  JSON_parse (JSON_stringify (JObj r)) = Some (JObj (normalise r)).
Proof.
  destruct r as [|[k v] l]; [reflexivity|].
  assert (Hp : exists u, print_members ((k, v) :: l) = String dquote u).
  { destruct (json_quote_cons k) as [t Ht].
    destruct l; [|rewrite print_members_cons]; cbn [print_members];
      unfold print_member; cbn [fst]; rewrite Ht, append_cons;
      [|rewrite append_cons]; eauto. }
  destruct Hp as [u Hu].
  pose proof (read_members_print l (k, v) EmptyString
                (String.length (print_members ((k, v) :: l) ++ String "}" EmptyString)))
    as Hr.
  unfold JSON_stringify. rewrite Hu in Hr |- *. rewrite append_cons in Hr |- *.
  unfold JSON_parse. cbv beta iota delta [dquote] in Hr |- *.
  rewrite Hr; [reflexivity|].
  pose proof (length_print_members ((k, v) :: l)) as Hl. rewrite Hu in Hl.
  cbn [String.length length] in Hl |- *. rewrite length_append.
  cbn [String.length]. lia.
Qed.

(** A printed document is never the empty text, so [text || fallback] is
    the text. *)
Lemma JSON_stringify_truthy (d : jdoc) (fallback : string) :
  or_default (Some (JSON_stringify d)) fallback = JSON_stringify d.
Proof. destruct d; reflexivity. Qed.

(** ** The onboarding milestones *)

(** What [updateOnboardingProgress] does, by the text the cell holds. *)
Lemma updateOnboardingProgress_run (m : string) (b : Browser) :
  VeedAnalytics.updateOnboardingProgress m b
  = match JSON_parse (or_default (localStorage b !! "onboarding_milestones") "[]") with
    | None => (Throw SyntaxError, b)
    | Some (JObj _) => (Throw (TypeError "includes is not a function"), b)
    | Some (JArr l) =>
        if bool_decide (m ∈ l) then (Normal tt, b)
        else (Normal tt,
              set_storage (fun s => <["onboarding_milestones" :=
                                       JSON_stringify (JArr (l ++ [m])%list)]> s) b)
    end.
Proof.
  unfold VeedAnalytics.updateOnboardingProgress,
    VeedAnalytics.getCompletedMilestones, getItem, gets, bind, parse.
  destruct (JSON_parse _) as [[l|r]|]; try reflexivity.
  cbn. destruct (bool_decide (m ∈ l)); reflexivity.
Qed.

Lemma stored_after_insert (b : Browser) (d : jdoc) :
  or_default
    (localStorage
       (set_storage (fun s => <["onboarding_milestones" := JSON_stringify d]> s) b)
     !! "onboarding_milestones") "[]"
  = JSON_stringify d.
Proof.
  cbn [localStorage set_storage]. rewrite lookup_insert_eq.
  apply JSON_stringify_truthy.
Qed.

Lemma updateOnboardingProgress_twice (b : Browser) (m : string) :
  after (VeedAnalytics.updateOnboardingProgress m)
    (after (VeedAnalytics.updateOnboardingProgress m) b)
  = after (VeedAnalytics.updateOnboardingProgress m) b.
Proof.
  unfold after. rewrite (updateOnboardingProgress_run m b).
  destruct (JSON_parse _) as [[l|r]|] eqn:E.
  - destruct (bool_decide (m ∈ l)) eqn:Hm; cbn [snd].
    + now rewrite updateOnboardingProgress_run, E, Hm.
    + rewrite updateOnboardingProgress_run, stored_after_insert,
        JSON_parse_stringify_array.
      rewrite bool_decide_eq_true_2; [reflexivity|].
      apply elem_of_app. right. apply list_elem_of_singleton. reflexivity.
  - cbn [snd]. now rewrite updateOnboardingProgress_run, E.
  - cbn [snd]. now rewrite updateOnboardingProgress_run, E.
Qed.

Lemma milestones_stored_update (b : Browser) (m : string) (l : list string) :
  milestones_stored b = Some l ->
  milestones_stored (after (VeedAnalytics.updateOnboardingProgress m) b)
  = Some (if bool_decide (m ∈ l) then l else (l ++ [m])%list).
Proof.
  unfold milestones_stored at 1. intros H.
  unfold after. rewrite updateOnboardingProgress_run.
  destruct (JSON_parse _) as [[l0|r]|] eqn:E; try discriminate.
  injection H as ->.
  destruct (bool_decide (m ∈ l)); cbn [snd].
  - unfold milestones_stored. now rewrite E.
  - unfold milestones_stored.
    now rewrite stored_after_insert, JSON_parse_stringify_array.
Qed.

Lemma milestones_stored_run (ms : list string) (b : Browser) (l : list string) :
  milestones_stored b = Some l -> NoDup l ->
  exists l', milestones_stored
               (run_all VeedAnalytics.updateOnboardingProgress ms b) = Some l'
             /\ NoDup l'.
Proof.
  revert b l. induction ms as [|m ms IH]; intros b l Hl Hnd.
  - exists l. split; assumption.
  - cbn [run_all fold_left].
    apply (IH _ _ (milestones_stored_update b m l Hl)).
    destruct (bool_decide (m ∈ l)) eqn:Hm; [assumption|].
    apply bool_decide_eq_false_1 in Hm.
    apply NoDup_app. split; [assumption|]. split.
    + intros x Hx Hx'. apply list_elem_of_singleton in Hx'. subst x. contradiction.
    + apply NoDup_singleton.
Qed.

Lemma getCompletedMilestones_stored (b : Browser) (l : list string) :
  milestones_stored b = Some l ->
  outcome VeedAnalytics.getCompletedMilestones b = Normal (JArr l).
Proof.
  unfold milestones_stored, outcome, VeedAnalytics.getCompletedMilestones,
    getItem, gets, bind, parse.
  destruct (JSON_parse _) as [[l0|r]|]; intros H; try discriminate.
  now injection H as ->.
Qed.

(** C10.  [updateOnboardingProgress] is idempotent on the store: calling
    it a second time with the same milestone leaves the browser, and so
    the stored list of milestones, as the first call left it, whatever the
    store held.  The stored list never holds a milestone twice: a list
    without duplicates, the absent one of a fresh store included, has none
    after any number of calls, and it is the list
    [getCompletedMilestones] returns. *)
Theorem updateOnboardingProgress_idempotent :
  (forall (b : Browser) (m : string),
      after (VeedAnalytics.updateOnboardingProgress m)
        (after (VeedAnalytics.updateOnboardingProgress m) b)
      = after (VeedAnalytics.updateOnboardingProgress m) b)
  /\ (forall (b : Browser) (l : list string) (ms : list string),
        milestones_stored b = Some l -> NoDup l ->
        exists l',
          outcome VeedAnalytics.getCompletedMilestones
            (run_all VeedAnalytics.updateOnboardingProgress ms b)
          = Normal (JArr l')
          /\ NoDup l')
  /\ (forall (b : Browser),
        localStorage b !! "onboarding_milestones" = None ->
        milestones_stored b = Some []).
Proof.
  split; [exact updateOnboardingProgress_twice|]. split.
  - intros b l ms Hl Hnd.
    destruct (milestones_stored_run ms b l Hl Hnd) as (l' & Hl' & Hnd').
    exists l'. split; [|assumption].
    now apply getCompletedMilestones_stored.
  - intros b H. unfold milestones_stored. now rewrite H.
Qed.

(** ** The generated user id *)

Lemma random_below_run (n : Z) (b : Browser) :
  random_below n b
  = (Normal (Qfloor (random (env b) (draws b) * inject_Z n)),
     set_draws (S (draws b)) b).
Proof. reflexivity. Qed.

Lemma Qfloor_scaled_range (u : Q) (n : Z) :
  (0 <= u)%Q -> (u < 1)%Q -> 0 < n ->
  0 <= Qfloor (u * inject_Z n) < n.
Proof.
  intros H0 H1 Hn.
  assert (Hq : (0 < inject_Z n)%Q).
  { change 0%Q with (inject_Z 0). rewrite <- Zlt_Qlt. exact Hn. }
  split.
  - change 0 with (Qfloor 0). apply Qfloor_resp_le.
    apply Qmult_le_0_compat; [exact H0 | apply Qlt_le_weak, Hq].
  - rewrite Zlt_Qlt.
    apply Qle_lt_trans with (u * inject_Z n)%Q; [apply Qfloor_le|].
    apply Qlt_le_trans with (1 * inject_Z n)%Q.
    + apply Qmult_lt_compat_r; assumption.
    + rewrite Qmult_1_l. apply Qle_refl.
Qed.

Lemma charAt_characters (i : Z) :
  0 <= i < 36 ->
  exists c, charAt VeedAnalytics.characters i = String c EmptyString
            /\ alphanumeric c = true.
Proof.
  intros Hi.
  assert (H : forallb
                (fun k => match charAt VeedAnalytics.characters (Z.of_nat k) with
                          | String c EmptyString => alphanumeric c
                          | _ => false
                          end) (seq 0 36) = true) by (vm_compute; reflexivity).
  rewrite forallb_forall in H.
  specialize (H (Z.to_nat i)).
  rewrite Z2Nat.id in H by lia.
  assert (Hin : In (Z.to_nat i) (seq 0 36)) by (apply in_seq; lia).
  specialize (H Hin).
  destruct (charAt VeedAnalytics.characters i) as [|c [|]]; try discriminate.
  eauto.
Qed.

Lemma set_draws_twice (n m : nat) (b : Browser) :
  set_draws n (set_draws m b) = set_draws n b.
Proof. reflexivity. Qed.

(** The loop appends one letter or digit per round and draws once per
    round. *)
Lemma generateRandomUserId_loop_run (n : nat) (result : string) (b : Browser) :
  random_in_range (env b) ->
  exists t,
    VeedAnalytics.generateRandomUserId_loop n result b
    = (Normal (result ++ t), set_draws (n + draws b) b)
    /\ String.length t = n
    /\ forallb alphanumeric (list_ascii_of_string t) = true.
Proof.
  revert result b. induction n as [|n IH]; intros result b Hr.
  - exists EmptyString. split; [|split; reflexivity].
    cbn [VeedAnalytics.generateRandomUserId_loop]. unfold ret.
    assert (Hres : result ++ EmptyString = result).
    { clear. induction result as [|c r IHr]; [reflexivity|].
      rewrite append_cons. now rewrite IHr. }
    rewrite Hres. destruct b; reflexivity.
  - cbn [VeedAnalytics.generateRandomUserId_loop]. unfold bind at 1.
    rewrite random_below_run.
    destruct (charAt_characters
                (Qfloor (random (env b) (draws b)
                         * inject_Z (Z.of_nat (String.length VeedAnalytics.characters)))))
      as (c & Hc & Hal).
    { destruct (Hr (draws b)) as [H0 H1].
      apply Qfloor_scaled_range; [assumption | assumption | reflexivity]. }
    rewrite Hc.
    destruct (IH (result ++ String c EmptyString) (set_draws (S (draws b)) b))
      as (t & Ht & Hlen & Hall); [exact Hr|].
    exists (String c t). split; [|split].
    + rewrite Ht. rewrite set_draws_twice. cbn [draws set_draws].
      rewrite string_app_assoc, append_cons, append_nil.
      replace (n + S (draws b))%nat with (S n + draws b)%nat by lia.
      reflexivity.
    + cbn [String.length]. now rewrite Hlen.
    + cbn [list_ascii_of_string forallb]. now rewrite Hal, Hall.
Qed.

Lemma generateRandomUserId_run (b : Browser) :
  random_in_range (env b) ->
  exists id,
    VeedAnalytics.generateRandomUserId b = (Normal id, set_draws (5 + draws b) b)
    /\ is_user_id id = true.
Proof.
  intros Hr.
  destruct (generateRandomUserId_loop_run 5 EmptyString b Hr)
    as (t & Ht & Hlen & Hall).
  exists t. split.
  - unfold VeedAnalytics.generateRandomUserId. now rewrite Ht, append_nil.
  - unfold is_user_id. now rewrite Hlen, Hall.
Qed.

(** C9.  Whatever Math.random returns, [generateRandomUserId], of the
    facade and of the application alike, returns a string of exactly five
    characters, each a letter A-Z or a digit 0-9. *)
Theorem generateRandomUserId_five_alphanumeric (b : Browser) :
  random_in_range (env b) ->
  exists id : string,
    outcome VeedAnalytics.generateRandomUserId b = Normal id
    /\ outcome VeedApp.generateRandomUserId b = Normal id
    /\ String.length id = 5%nat
    /\ forallb alphanumeric (list_ascii_of_string id) = true.
Proof.
  intros Hr. destruct (generateRandomUserId_run b Hr) as (id & Hrun & Hid).
  exists id. unfold outcome, VeedApp.generateRandomUserId.
  change (VeedAnalytics.generateRandomUserId_loop 5 EmptyString)
    with VeedAnalytics.generateRandomUserId.
  rewrite Hrun. cbn [fst].
  unfold is_user_id in Hid. apply andb_true_iff in Hid as [Hlen Hall].
  apply Nat.eqb_eq in Hlen. auto.
Qed.

Lemma sample_env_in_range : random_in_range sample_env.
Proof.
  intros n. cbn [random sample_env].
  pose proof (Nat.mod_upper_bound (7 * n + 3) 36) as Hm.
  unfold Qle, Qlt. cbn [Qnum Qden]. split; lia.
Qed.

Lemma generateRandomUserId_five_alphanumeric_witness :
  exists id : string,
    outcome VeedAnalytics.generateRandomUserId loaded_page = Normal id
    /\ outcome VeedApp.generateRandomUserId loaded_page = Normal id
    /\ String.length id = 5%nat
    /\ forallb alphanumeric (list_ascii_of_string id) = true.
Proof.
  apply (generateRandomUserId_five_alphanumeric loaded_page).
  exact sample_env_in_range.
Defined.

(** ** The scroll milestones *)

Lemma page_scrolled_run (depth : string) (b : Browser) :
  VeedAnalytics.page_scrolled depth b
  = if analytics_defined b
    then (Normal tt, set_calls (fun l => (l ++ [scrolled_call depth])%list) b)
    else (Throw (ReferenceError "analytics"), b).
Proof.
  unfold VeedAnalytics.page_scrolled, analytics_track, analytics, gets, bind.
  destruct (analytics_defined b); reflexivity.
Qed.

(** The handler emitted nothing and left the flags as they were. *)
Ltac no_event :=
  exists []; cbn [map]; rewrite app_nil_r;
  split; [reflexivity
         | split; [cbn [length]; lia
                  | split; [intros ? [] | intros ? Hf; exact Hf]]].

(** Goals on the flags, once the closures before and after are known. *)
Ltac flag_cases d :=
  destruct (String.eqb d "25%"), (String.eqb d "50%"),
    (String.eqb d "75%"), (String.eqb d "100%");
  cbn; rewrite ?orb_true_r; auto with bool.

(** The handler emitted the events [ds] and only set flags. *)
Ltac step_with Hs ds :=
  exists ds; cbn [snd map];
  split; [cbn; rewrite ?app_nil_r; reflexivity|];
  split; [cbn [length]; lia|];
  split;
  [ intros d Hd; cbn in Hd;
    first [ contradiction
          | destruct Hd as [<-|[]];
            unfold fired; rewrite Hs; cbn; rewrite ?orb_false_r, ?orb_true_r;
            split; (assumption || reflexivity) ]
  | intros d; unfold fired; rewrite Hs; cbn; flag_cases d ].

(** One firing of the debounce timer: at most one milestone event, for a
    milestone whose flag was not set and now is; no flag is cleared. *)
Lemma on_scroll_timeout_step (b : Browser) :
  exists ds : list string,
    calls (after VeedAnalytics.on_scroll_timeout b)
    = (calls b ++ map scrolled_call ds)%list
    /\ (length ds <= 1)%nat
    /\ (forall d, In d ds ->
          fired b d = false
          /\ fired (after VeedAnalytics.on_scroll_timeout b) d = true)
    /\ (forall d, fired b d = true ->
          fired (after VeedAnalytics.on_scroll_timeout b) d = true).
Proof.
  unfold after, VeedAnalytics.on_scroll_timeout, gets, bind.
  destruct (scroll b) as [c|] eqn:Hs; [|no_event].
  destruct (scrollTimeout c) eqn:Ht; [|no_event].
  unfold VeedAnalytics.scroll_sample, VeedAnalytics.update_closure, modify, gets, bind.
  cbn [viewport set_scroll scroll].
  set (D := js_div _ _). clearbody D.
  rewrite Hs. cbn [fmap option_fmap option_map].
  destruct (js_gt D (maxScrollDepth c)).
  2:{ exists []. cbn [map]. rewrite app_nil_r. cbn.
      split; [reflexivity|]. split; [lia|]. split; [intros ? []|].
      intros d. unfold fired. rewrite Hs. cbn. auto. }
  destruct (js_ge D (Fin (25 # 100)) && negb (fired25 c)) eqn:C25;
    [|destruct (js_ge D (Fin (50 # 100)) && negb (fired50 c)) eqn:C50;
      [|destruct (js_ge D (Fin (75 # 100)) && negb (fired75 c)) eqn:C75;
        [|destruct (js_ge D (Fin (95 # 100)) && negb (fired100 c)) eqn:C100]]];
    cbv beta; rewrite ?page_scrolled_run;
    cbn [analytics_defined set_scroll scroll fmap option_fmap option_map];
    destruct (analytics_defined b).
  all: try (apply andb_true_iff in C25 as [_ C25]; apply negb_true_iff in C25).
  all: try (apply andb_true_iff in C50 as [_ C50]; apply negb_true_iff in C50).
  all: try (apply andb_true_iff in C75 as [_ C75]; apply negb_true_iff in C75).
  all: try (apply andb_true_iff in C100 as [_ C100]; apply negb_true_iff in C100).
  all: first [ solve [step_with Hs (@nil string)]
             | solve [step_with Hs ["25%"]]
             | solve [step_with Hs ["50%"]]
             | solve [step_with Hs ["75%"]]
             | solve [step_with Hs ["100%"]] ].
Qed.

(** A scroll event only restarts the timer. *)
Lemma scroll_event_step (v : Viewport) (b : Browser) :
  calls (after (scroll_handler (ScrollTo v)) b) = calls b
  /\ forall d, fired (after (scroll_handler (ScrollTo v)) b) d = fired b d.
Proof.
  split; [reflexivity|]. intros d.
  unfold fired, after, scroll_handler, VeedAnalytics.on_scroll,
    VeedAnalytics.update_closure, modify, bind.
  cbn. destruct (scroll b); reflexivity.
Qed.

Lemma scroll_handler_step (ev : ScrollEvent) (b : Browser) :
  exists ds : list string,
    calls (after (scroll_handler ev) b) = (calls b ++ map scrolled_call ds)%list
    /\ (length ds <= 1)%nat
    /\ (forall d, In d ds ->
          fired b d = false /\ fired (after (scroll_handler ev) b) d = true)
    /\ (forall d, fired b d = true -> fired (after (scroll_handler ev) b) d = true).
Proof.
  destruct ev as [v|]; [|apply on_scroll_timeout_step].
  destruct (scroll_event_step v b) as [Hc Hf].
  exists []. rewrite Hc. cbn [map]. rewrite app_nil_r.
  split; [reflexivity|]. split; [cbn [length]; lia|].
  split; [intros ? []|]. intros d Hd. now rewrite Hf.
Qed.

(** Over any sequence of scroll events and timer firings: the events
    emitted are milestone events for pairwise different milestones, none of
    them for a milestone whose flag was already set. *)
Lemma scroll_run (evs : list ScrollEvent) (b : Browser) :
  exists ds : list string,
    calls (run_all scroll_handler evs b) = (calls b ++ map scrolled_call ds)%list
    /\ NoDup ds
    /\ (forall d, In d ds -> fired b d = false).
Proof.
  revert b. induction evs as [|ev evs IH]; intros b.
  - exists []. cbn. rewrite app_nil_r. split; [reflexivity|].
    split; [constructor | intros ? []].
  - cbn [run_all fold_left].
    destruct (scroll_handler_step ev b) as (ds1 & Hc1 & Hlen & Hnew & Hmono).
    destruct (IH (after (scroll_handler ev) b)) as (ds2 & Hc2 & Hnd & Hfresh).
    exists (ds1 ++ ds2)%list. split; [|split].
    + unfold run_all in Hc2. rewrite Hc2, Hc1, map_app, app_assoc. reflexivity.
    + destruct ds1 as [|d [|]]; [exact Hnd | | cbn [length] in Hlen; lia].
      cbn [Datatypes.app]. apply NoDup_cons. split; [|exact Hnd].
      intros Hin. apply list_elem_of_In in Hin.
      specialize (Hfresh d Hin).
      destruct (Hnew d (or_introl eq_refl)) as [_ Hd]. congruence.
    + intros d Hin. apply in_app_or in Hin as [Hin|Hin].
      * apply (Hnew d Hin).
      * specialize (Hfresh d Hin).
        destruct (fired b d) eqn:Hb; [|reflexivity].
        rewrite (Hmono d Hb) in Hfresh. discriminate.
Qed.

Lemma calls_since_app (b b' : Browser) (l : list Call) :
  calls b' = (calls b ++ l)%list -> calls_since b b' = l.
Proof.
  intros H. unfold calls_since. rewrite H. apply drop_app_length.
Qed.

Lemma scroll_depths_scrolled (ds : list string) :
  scroll_depths (map scrolled_call ds) = map VStr ds.
Proof.
  induction ds as [|d ds IH]; [reflexivity|].
  cbn [map scroll_depths scrolled_call]. cbn. now rewrite <- IH.
Qed.

(** C5.  Over every sequence of scroll events and debounce-timer firings,
    started from any state of the listener, no scroll milestone event is
    emitted twice, and none is emitted for a milestone whose one-shot flag
    is already set. *)
Theorem scroll_milestone_fires_at_most_once
  (b : Browser) (evs : list ScrollEvent) :
  NoDup (scroll_depths (calls_since b (run_all scroll_handler evs b)))
  /\ forall depth : string,
       fired b depth = true ->
       ~ In (VStr depth)
           (scroll_depths (calls_since b (run_all scroll_handler evs b))).
Proof.
  destruct (scroll_run evs b) as (ds & Hc & Hnd & Hfresh).
  rewrite (calls_since_app _ _ _ Hc), scroll_depths_scrolled.
  split.
  - apply NoDup_fmap_2; [|exact Hnd]. intros x y Hxy. now injection Hxy.
  - intros depth Hd Hin. apply in_map_iff in Hin as (d & Heq & Hin).
    injection Heq as ->. rewrite (Hfresh depth Hin) in Hd. discriminate.
Qed.

(** C4, as the code has it.  Driven with the scroll positions 10%, 30%,
    20%, 60%, 90%, each left to settle for the debounce delay, a freshly
    added listener emits exactly three milestone events, for 25%, 50% and
    75% in this order: the fourth milestone needs a depth of at least 95%. *)
Theorem sample_scrolls_fire_three_milestones (b : Browser) :
  analytics_defined b = true ->
  scroll b = Some no_milestone_fired ->
  calls_since b (run_all scroll_handler sample_scrolls b)
  = [scrolled_call "25%"; scrolled_call "50%"; scrolled_call "75%"].
Proof.
  intros Hd Hs. apply calls_since_app.
  destruct b as [e d cs r st dr tk vp a w sc ap].
  cbn [analytics_defined scroll] in Hd, Hs. subst d sc.
  cbv -[Datatypes.app]. rewrite <- !app_assoc. reflexivity.
Qed.

Lemma sample_scrolls_fire_three_milestones_witness :
  calls_since loaded_page (run_all scroll_handler sample_scrolls loaded_page)
  = [scrolled_call "25%"; scrolled_call "50%"; scrolled_call "75%"].
Proof.
  apply (sample_scrolls_fire_three_milestones loaded_page);
    [vm_compute; reflexivity | vm_compute; reflexivity].
Defined.

(** C4, as stated, fails on the loaded page of the sample visit: the five
    samples give the three milestone events of 25%, 50% and 75%, not
    four. *)
Lemma sample_scrolls_do_not_fire_four :
  scroll_depths
    (calls_since loaded_page (run_all scroll_handler sample_scrolls loaded_page))
  = [VStr "25%"; VStr "50%"; VStr "75%"]
  /\ length (scroll_depths
               (calls_since loaded_page
                  (run_all scroll_handler sample_scrolls loaded_page)))
     <> 4%nat.
Proof. split; [vm_compute; reflexivity | vm_compute; discriminate]. Qed.

(** ** Logout *)

Lemma logout_run (b : Browser) :
  analytics_defined b = true ->
  outcome VeedApp.logout b = Normal tt
  /\ localStorage (after VeedApp.logout b)
     = delete "user_plan"
         (delete "veed_user_email"
            (delete "veed_user_id"
               (delete "veed_user_data" (localStorage b)))).
Proof.
  intros Hd.
  destruct b as [e d cs r st dr tk vp a w sc ap].
  cbn [analytics_defined] in Hd. subst d.
  split; reflexivity.
Qed.

(** C8, as the code has it.  A logout that reaches the transport removes
    from the store the user data, the user id, the user's email and the
    plan tier, and leaves every other key as it was. *)
Theorem logout_removes_identity_keys (b : Browser) (k : string) :
  analytics_defined b = true ->
  outcome VeedApp.logout b = Normal tt
  /\ localStorage (after VeedApp.logout b) !! k
     = if bool_decide (k ∈ identity_keys) then None else localStorage b !! k.
Proof.
  intros Hd. destruct (logout_run b Hd) as [Ho Hs].
  split; [exact Ho|]. rewrite Hs. unfold identity_keys.
  destruct (bool_decide _) eqn:Hk.
  - apply bool_decide_eq_true_1 in Hk.
    rewrite !elem_of_cons in Hk.
    destruct Hk as [->|[->|[->|[->|Hk]]]];
      [| | | |now apply elem_of_nil in Hk];
      repeat first [ apply lookup_delete_eq
                   | rewrite lookup_delete_ne by discriminate ].
  - apply bool_decide_eq_false_1 in Hk.
    rewrite !not_elem_of_cons in Hk.
    destruct Hk as (H1 & H2 & H3 & H4 & _).
    rewrite !lookup_delete_ne by congruence. reflexivity.
Qed.

Lemma logout_removes_identity_keys_witness :
  outcome VeedApp.logout returning_page = Normal tt
  /\ localStorage (after VeedApp.logout returning_page) !! "veed_user_id"
     = if bool_decide ("veed_user_id" ∈ identity_keys) then None
       else localStorage returning_page !! "veed_user_id".
Proof.
  apply (logout_removes_identity_keys returning_page "veed_user_id").
  vm_compute. reflexivity.
Defined.

(** C8, as stated, fails for the returning user of the sample store:
    after the logout the project count, the daily export count and the
    completed milestones are still in the store. *)
Lemma logout_keeps_usage_counters :
  outcome VeedApp.logout returning_page = Normal tt
  /\ localStorage (after VeedApp.logout returning_page) !! "total_projects"
     = Some "5"
  /\ localStorage (after VeedApp.logout returning_page) !! "exports_today"
     = Some "2"
  /\ localStorage (after VeedApp.logout returning_page) !! "onboarding_milestones"
     = Some (JSON_stringify (JArr ["account_created"; "first_project_created"])).
Proof. repeat split; vm_compute; reflexivity. Qed.

(** ** Running a method to its end

    [js_exec] runs a method on a browser given by its fields and splits on
    every test the run depends on: whether a stored text parses, whether a
    value is truthy, which plan is stored.  A user id is generated through
    [generateRandomUserId_run]. *)
Ltac js_split :=
  match goal with
  | Hr : random_in_range ?e
    |- context [VeedAnalytics.generateRandomUserId ?b0] =>
      let id := fresh "id" in
      let Hrun := fresh "Hrun" in
      let Hid := fresh "Hid" in
      destruct (generateRandomUserId_run b0 Hr) as (id & Hrun & Hid);
      rewrite Hrun; clear Hrun
  | |- context [(match JSON_parse ?t with _ => _ end) _] =>
      first [ change (JSON_parse t) with (Some (JObj []))
            | change (JSON_parse t) with (Some (JArr []))
            | destruct (JSON_parse t) as [[?|?]|] eqn:? ]
  | |- context [(if ?c then _ else _) _] =>
      first [ change c with true | change c with false | destruct c eqn:? ]
  | |- context [(match ?o with Some _ => _ | None => _ end) _] =>
      destruct o eqn:?
  end.

Ltac js_exec := js_run; repeat (js_split; js_run).

Ltac open_browser b :=
  let e := fresh "e" in
  let d := fresh "d" in
  let cs := fresh "cs" in
  let r := fresh "r" in
  let st := fresh "st" in
  let dr := fresh "dr" in
  let tk := fresh "tk" in
  let vp := fresh "vp" in
  let a := fresh "a" in
  let w := fresh "w" in
  let sc := fresh "sc" in
  let ap := fresh "ap" in
  destruct b as [e d cs r st dr tk vp a w sc ap];
  cbn [env analytics_defined calls ready_pending localStorage draws ticks
       viewport va window_veedAnalytics scroll window_app] in *.

(** ** Without the transport *)

(** Every call of a primitive of the transport raises a ReferenceError
    when the vendor's script did not load, before its arguments are
    evaluated. *)
Lemma transport_calls_throw (b : Browser) (name : string)
  (id : option string) (props : M obj) :
  analytics_defined b = false ->
  analytics_page name props b = (Throw (ReferenceError "analytics"), b)
  /\ analytics_identify id props b = (Throw (ReferenceError "analytics"), b)
  /\ analytics_track name props b = (Throw (ReferenceError "analytics"), b)
  /\ analytics_reset b = (Throw (ReferenceError "analytics"), b).
Proof.
  intros Hd. open_browser b. subst. repeat split; reflexivity.
Qed.

(** The constructor of the facade never returns then: its fallback branch
    runs [initializeTracking], whose page view needs the transport. *)
Lemma constructor_throws_without_transport (b : Browser) :
  analytics_defined b = false ->
  completes (outcome VeedAnalytics.constructor b) = false.
Proof.
  intros Hd. open_browser b. subst. js_exec; reflexivity.
Qed.

(** C6 fails on the code.  On the page where the vendor's script did not
    load, constructing the facade throws a ReferenceError, so
    [window.veedAnalytics] is never assigned and the first visit is not
    recorded; and the logout of the application, which calls the transport
    unguarded, throws before it has cleared anything. *)
Theorem facade_throws_without_transport :
  analytics_defined broken_page = false
  /\ outcome VeedAnalytics.constructor broken_page
     = Throw (ReferenceError "analytics")
  /\ outcome VeedAnalytics.on_DOMContentLoaded broken_page
     = Throw (ReferenceError "analytics")
  /\ window_veedAnalytics (after VeedAnalytics.on_DOMContentLoaded broken_page)
     = false
  /\ outcome VeedAnalytics.trackPageView broken_page
     = Throw (ReferenceError "analytics")
  /\ outcome (VeedAnalytics.trackSignup sample_user) broken_page
     = Throw (ReferenceError "analytics")
  /\ outcome VeedApp.logout
       (set_storage (fun _ => returning_store) broken_page)
     = Throw (ReferenceError "analytics")
  /\ localStorage
       (after VeedApp.logout (set_storage (fun _ => returning_store) broken_page))
     = returning_store.
Proof. repeat split; vm_compute; reflexivity. Qed.

(** ** Identify calls without an identity *)

Lemma identified_app (l l' : list Call) :
  identified (l ++ l')%list = (identified l ++ identified l')%list.
Proof.
  induction l as [|c l IH]; [reflexivity|].
  destruct c; cbn [identified Datatypes.app]; now rewrite IH.
Qed.

(** The calls since [b], once the log is known to be that of [b]
    followed by the new calls. *)
Ltac since :=
  unfold calls_since; cbn [calls];
  rewrite <- ?app_assoc, ?drop_app_length; cbn [Datatypes.app].

Lemma trackSubscriptionUpgrade_anonymous (b : Browser) (planData : PlanData) :
  analytics_defined b = true ->
  userId (va b) = None ->
  outcome (VeedAnalytics.trackSubscriptionUpgrade planData) b = Normal tt
  /\ identified
       (calls_since b (after (VeedAnalytics.trackSubscriptionUpgrade planData) b))
     = [None].
Proof.
  intros Hd Hu. open_browser b. destruct a as [u s an i].
  cbn [userId] in Hu. subst.
  destruct planData as [p bc me [[|]|] re];
    (split; [js_exec; reflexivity | js_exec; since; reflexivity]).
Qed.

Lemma trackLogin_without_identity (b : Browser) (email : string) :
  analytics_defined b = true ->
  random_in_range (env b) ->
  localStorage b !! "veed_user_id" = None ->
  localStorage b !! "veed_user_data" = None ->
  exists id,
    outcome VeedAnalytics.generateRandomUserId b = Normal id
    /\ outcome (VeedAnalytics.trackLogin email None) b = Normal tt
    /\ identified
         (calls_since b (after (VeedAnalytics.trackLogin email None) b))
       = [Some id].
Proof.
  intros Hd Hr Hid Hdata.
  destruct (generateRandomUserId_run b Hr) as (id & Hrun & Hok).
  exists id. split; [unfold outcome; now rewrite Hrun|].
  open_browser b. subst.
  split; js_run; rewrite Hid; cbn [or_else truthy_opt];
    js_run; rewrite Hrun; js_run; rewrite Hdata; cbn [or_default];
    js_exec; try since; reflexivity.
Qed.

(** C7, as the code has it.  The facade validates no identity.  For a
    visitor who is not identified and has nothing in the store,
    [trackSubscriptionUpgrade] returns normally and hands the transport an
    identify call with a null user id, and [trackLogin] called without a
    user id returns normally and hands it an identify call with a user id
    it generates on the spot. *)
Theorem identity_is_not_validated
  (b : Browser) (planData : PlanData) (email : string) :
  analytics_defined b = true ->
  random_in_range (env b) ->
  userId (va b) = None ->
  localStorage b !! "veed_user_id" = None ->
  localStorage b !! "veed_user_data" = None ->
  (outcome (VeedAnalytics.trackSubscriptionUpgrade planData) b = Normal tt
   /\ identified
        (calls_since b (after (VeedAnalytics.trackSubscriptionUpgrade planData) b))
      = [None])
  /\ (exists id,
        outcome VeedAnalytics.generateRandomUserId b = Normal id
        /\ outcome (VeedAnalytics.trackLogin email None) b = Normal tt
        /\ identified
             (calls_since b (after (VeedAnalytics.trackLogin email None) b))
           = [Some id]).
Proof.
  intros Hd Hr Hu Hid Hdata. split.
  - now apply trackSubscriptionUpgrade_anonymous.
  - now apply trackLogin_without_identity.
Qed.

Lemma identity_is_not_validated_witness :
  (outcome (VeedAnalytics.trackSubscriptionUpgrade sample_upgrade) loaded_page
   = Normal tt
   /\ identified
        (calls_since loaded_page
           (after (VeedAnalytics.trackSubscriptionUpgrade sample_upgrade)
              loaded_page))
      = [None])
  /\ (exists id,
        outcome VeedAnalytics.generateRandomUserId loaded_page = Normal id
        /\ outcome (VeedAnalytics.trackLogin "ann@example.com" None) loaded_page
           = Normal tt
        /\ identified
             (calls_since loaded_page
                (after (VeedAnalytics.trackLogin "ann@example.com" None)
                   loaded_page))
           = [Some id]).
Proof.
  apply (identity_is_not_validated loaded_page sample_upgrade "ann@example.com").
  - vm_compute. reflexivity.
  - exact sample_env_in_range.
  - vm_compute. reflexivity.
  - vm_compute. reflexivity.
  - vm_compute. reflexivity.
Defined.

(** C7, as stated, fails for the anonymous visitor of the sample visit:
    neither call is rejected, and the transport receives an identify call
    with a null user id from the first and one with a made-up user id from
    the second. *)
Lemma blank_identity_reaches_the_transport :
  userId (va loaded_page) = None
  /\ localStorage loaded_page !! "veed_user_id" = None
  /\ outcome (VeedAnalytics.trackSubscriptionUpgrade sample_upgrade) loaded_page
     = Normal tt
  /\ identified
       (calls_since loaded_page
          (after (VeedAnalytics.trackSubscriptionUpgrade sample_upgrade)
             loaded_page))
     = [None]
  /\ outcome (VeedAnalytics.trackLogin "ann@example.com" None) loaded_page
     = Normal tt
  /\ identified
       (calls_since loaded_page
          (after (VeedAnalytics.trackLogin "ann@example.com" None) loaded_page))
     = [Some "4BIPW"].
Proof. repeat split; vm_compute; reflexivity. Qed.

(** ** Signup and the logins that follow *)

(** What is known of the store, pushed through the insertions made since. *)
Ltac js_store :=
  first [ rewrite lookup_insert_eq
        | rewrite lookup_insert_ne by discriminate
        | rewrite JSON_stringify_truthy
        | rewrite JSON_parse_stringify_object
        | rewrite JSON_parse_stringify_array
        | progress cbn [or_else truthy_opt default] ].

(** [js_exec] with the facts [known] of the run rewritten as they come
    up. *)
Ltac js_exec_with known :=
  js_run; repeat (first [ known | js_store | js_split ]; js_run).

Lemma or_else_truthy (id : string) (other : option string) :
  truthy_string id = true -> or_else (Some id) other = Some id.
Proof. intros H. unfold or_else. cbn [truthy_opt]. now rewrite H. Qed.

Lemma truthy_opt_Some (id : string) :
  truthy_string id = true -> truthy_opt (Some id) = true.
Proof. intros H. exact H. Qed.

(** The calls a run added to the log. *)
Ltac new_calls :=
  eexists; split; [rewrite <- ?app_assoc; reflexivity | reflexivity].

(** The parts of [signed_in], once the browser is known. *)
Ltac close_signed_in Hr Ht :=
  split; [reflexivity|]; split; [reflexivity|]; split; [exact Hr|];
  split; [exact Ht|]; split; [reflexivity | eexists; reflexivity].

(** What [signed_in] gives to the run of a method. *)
Ltac js_known Ht Hid Hdata :=
  first [ rewrite Hid | rewrite Hdata
        | rewrite (or_else_truthy _ _ Ht)
        | rewrite (truthy_opt_Some _ Ht) ].

Lemma trackLogin_signed_in (id : string) (b : Browser)
  (email : string) (existing : option string) :
  signed_in id b ->
  outcome (VeedAnalytics.trackLogin email existing) b = Normal tt
  /\ (exists l,
        calls (after (VeedAnalytics.trackLogin email existing) b)
        = (calls b ++ l)%list
        /\ identified l = [Some id])
  /\ signed_in id (after (VeedAnalytics.trackLogin email existing) b).
Proof.
  intros (Hd & Hw & Hr & Ht & Hid & r0 & Hdata).
  open_browser b. subst.
  split; [|split].
  - js_exec_with ltac:(js_known Ht Hid Hdata); reflexivity.
  - js_exec_with ltac:(js_known Ht Hid Hdata); new_calls.
  - unfold signed_in.
    js_exec_with ltac:(js_known Ht Hid Hdata); close_signed_in Hr Ht.
Qed.

Lemma performLogin_signed_in (id : string) (b : Browser) (email : string) :
  signed_in id b ->
  outcome (VeedApp.performLogin email) b = Normal tt
  /\ (exists l,
        calls (after (VeedApp.performLogin email) b) = (calls b ++ l)%list
        /\ identified l = [Some id])
  /\ signed_in id (after (VeedApp.performLogin email) b).
Proof.
  intros (Hd & Hw & Hr & Ht & Hid & r0 & Hdata).
  open_browser b. subst.
  split; [|split].
  - js_exec_with ltac:(js_known Ht Hid Hdata); reflexivity.
  - js_exec_with ltac:(js_known Ht Hid Hdata); new_calls.
  - unfold signed_in.
    js_exec_with ltac:(js_known Ht Hid Hdata); close_signed_in Hr Ht.
Qed.

Lemma is_user_id_truthy (id : string) :
  is_user_id id = true -> truthy_string id = true.
Proof.
  unfold is_user_id. intros H. apply andb_true_iff in H as [H _].
  destruct id; [discriminate | reflexivity].
Qed.

Lemma trackSignup_signs_in (b : Browser) (userData : record) :
  analytics_defined b = true ->
  window_veedAnalytics b = true ->
  random_in_range (env b) ->
  exists id,
    outcome VeedAnalytics.generateRandomUserId b = Normal id
    /\ is_user_id id = true
    /\ outcome (VeedAnalytics.trackSignup userData) b = Normal tt
    /\ (exists l,
          calls (after (VeedAnalytics.trackSignup userData) b)
          = (calls b ++ l)%list
          /\ identified l = [Some id])
    /\ signed_in id (after (VeedAnalytics.trackSignup userData) b).
Proof.
  intros Hd Hw Hr.
  destruct (generateRandomUserId_run b Hr) as (id & Hrun & Hok).
  exists id. split; [unfold outcome; now rewrite Hrun|].
  split; [exact Hok|].
  pose proof (is_user_id_truthy id Hok) as Ht.
  open_browser b. subst.
  split; [|split].
  - js_exec_with ltac:(rewrite Hrun); reflexivity.
  - js_exec_with ltac:(rewrite Hrun); new_calls.
  - unfold signed_in.
    js_exec_with ltac:(rewrite Hrun); close_signed_in Hr Ht.
Qed.

Lemma login_handler_signed_in (id : string) (b : Browser) (l : Login) :
  signed_in id b ->
  outcome (login_handler l) b = Normal tt
  /\ (exists new,
        calls (after (login_handler l) b) = (calls b ++ new)%list
        /\ identified new = [Some id])
  /\ signed_in id (after (login_handler l) b).
Proof.
  destruct l as [email existing|email]; cbn [login_handler].
  - apply trackLogin_signed_in.
  - apply performLogin_signed_in.
Qed.

(** Every login of a signed-in user re-identifies that user, once. *)
Lemma logins_signed_in (id : string) (logins : list Login) (b : Browser) :
  signed_in id b ->
  (exists new,
      calls (run_all login_handler logins b) = (calls b ++ new)%list
      /\ identified new = repeat (Some id) (length logins))
  /\ signed_in id (run_all login_handler logins b).
Proof.
  revert b. induction logins as [|l logins IH]; intros b Hs.
  - split; [|exact Hs]. exists []. cbn. now rewrite app_nil_r.
  - destruct (login_handler_signed_in id b l Hs) as (_ & (n1 & Hc1 & Hi1) & Hs1).
    destruct (IH _ Hs1) as ((n2 & Hc2 & Hi2) & Hs2).
    split; [|exact Hs2].
    exists (n1 ++ n2)%list. cbn [run_all fold_left length repeat].
    unfold run_all in Hc2. rewrite Hc2, Hc1, <- app_assoc. split; [reflexivity|].
    now rewrite identified_app, Hi1, Hi2.
Qed.

(** A login that finds a user id, in the store or else in its argument,
    hands the transport that id or, when it fails before, nothing. *)
Lemma trackLogin_uses_known_id (b : Browser) (email : string)
  (existing : option string) (id : string) :
  or_else (localStorage b !! "veed_user_id") existing = Some id ->
  truthy_string id = true ->
  identified (calls_since b (after (VeedAnalytics.trackLogin email existing) b))
  = []
  \/ identified
       (calls_since b (after (VeedAnalytics.trackLogin email existing) b))
     = [Some id].
Proof.
  intros Hid Ht. open_browser b.
  js_exec_with ltac:(first [ rewrite Hid | rewrite (truthy_opt_Some id Ht) ]);
    since; rewrite ?drop_all; auto.
Qed.

(** C2, as the code has it.  A signup generates a user id and identifies
    the visitor with it; every login that follows, through the facade or
    through the login form, whatever user id it is called with, makes one
    identify call with that same id.  And a login that finds a user id, in
    the store or else in its argument, identifies with that id: it
    generates one only when it finds none. *)
Theorem logins_reuse_the_signup_id :
  (forall (b : Browser) (userData : record) (logins : list Login),
      analytics_defined b = true ->
      window_veedAnalytics b = true ->
      random_in_range (env b) ->
      exists id,
        outcome VeedAnalytics.generateRandomUserId b = Normal id
        /\ outcome (VeedAnalytics.trackSignup userData) b = Normal tt
        /\ identified
             (calls_since b (after (VeedAnalytics.trackSignup userData) b))
           = [Some id]
        /\ identified
             (calls_since (after (VeedAnalytics.trackSignup userData) b)
                (run_all login_handler logins
                   (after (VeedAnalytics.trackSignup userData) b)))
           = repeat (Some id) (length logins))
  /\ (forall (b : Browser) (email : string) (existing : option string)
        (id : string),
        or_else (localStorage b !! "veed_user_id") existing = Some id ->
        truthy_string id = true ->
        identified
          (calls_since b (after (VeedAnalytics.trackLogin email existing) b))
        = []
        \/ identified
             (calls_since b (after (VeedAnalytics.trackLogin email existing) b))
           = [Some id]).
Proof.
  split; [|exact trackLogin_uses_known_id].
  intros b userData logins Hd Hw Hr.
  destruct (trackSignup_signs_in b userData Hd Hw Hr)
    as (id & Hgen & _ & Hout & (l & Hc & Hi) & Hs).
  exists id. split; [exact Hgen|]. split; [exact Hout|].
  rewrite (calls_since_app _ _ _ Hc). split; [exact Hi|].
  destruct (logins_signed_in id logins _ Hs) as ((new & Hc' & Hi') & _).
  now rewrite (calls_since_app _ _ _ Hc').
Qed.

Lemma logins_reuse_the_signup_id_witness :
  exists id,
    outcome VeedAnalytics.generateRandomUserId loaded_page = Normal id
    /\ outcome (VeedAnalytics.trackSignup sample_user) loaded_page = Normal tt
    /\ identified
         (calls_since loaded_page
            (after (VeedAnalytics.trackSignup sample_user) loaded_page))
       = [Some id]
    /\ identified
         (calls_since (after (VeedAnalytics.trackSignup sample_user) loaded_page)
            (run_all login_handler
               [FormLogin "ann@example.com";
                FacadeLogin "ann@example.com" (Some "ZZZZZ")]
               (after (VeedAnalytics.trackSignup sample_user) loaded_page)))
       = repeat (Some id) (length [FormLogin "ann@example.com";
                                   FacadeLogin "ann@example.com" (Some "ZZZZZ")]).
Proof.
  apply (proj1 logins_reuse_the_signup_id loaded_page sample_user
           [FormLogin "ann@example.com";
            FacadeLogin "ann@example.com" (Some "ZZZZZ")]).
  - vm_compute. reflexivity.
  - vm_compute. reflexivity.
  - exact sample_env_in_range.
Defined.

(** C2, as stated, fails for the visitor of the sample visit who logs in
    without having signed up: nothing was identified on the page and the
    store holds no user id, and the login, through the facade or through
    the form, generates a user id and identifies the visitor with it. *)
Lemma login_without_signup_generates_an_id :
  identified (calls loaded_page) = []
  /\ localStorage loaded_page !! "veed_user_id" = None
  /\ outcome VeedAnalytics.generateRandomUserId loaded_page = Normal "4BIPW"
  /\ identified
       (calls_since loaded_page
          (after (VeedAnalytics.trackLogin "ann@example.com" None) loaded_page))
     = [Some "4BIPW"]
  /\ identified
       (calls_since loaded_page
          (after (VeedApp.performLogin "ann@example.com") loaded_page))
     = [Some "4BIPW"].
Proof. repeat split; vm_compute; reflexivity. Qed.

(** ** Identity in the property maps *)

(** C1 fails on the code.  After the signup of the sample visit, the
    onboarding flow sends two events that name the user in their property
    map, one with the user id and one with the email, and so does opening
    the editor.  The event of the signup itself does not. *)
Theorem onboarding_events_name_the_user :
  forallb (fun p => negb (carries_identity p))
    (property_maps
       (calls_since loaded_page
          (after (VeedApp.performSignup sample_user) loaded_page)))
  = true
  /\ user_id_properties
    (calls_since (after (VeedApp.performSignup sample_user) loaded_page)
       signed_up_page)
  = [("Onboarding Milestone Completed", VStr "3AHOV");
     ("Onboarding Tooltip Shown", VStr "ann@example.com")]
  /\ forallb carries_identity
       (property_maps
          (calls_since (after (VeedApp.performSignup sample_user) loaded_page)
             signed_up_page))
     = true
  /\ user_id_properties
       (calls_since signed_up_page (after VeedApp.openEditor signed_up_page))
     = [("Editor Opened", VStr "ann@example.com")].
Proof. repeat split; vm_compute; reflexivity. Qed.

(** C3 fails on the code.  On the page of the sample visit the signup has
    bound the user id 3AHOV, and the facade's own milestone event names
    that id; the upgrade prompt shown next names the user by the email
    instead. *)
Theorem upgrade_prompt_names_the_email :
  bound_userId (calls signed_up_page) None = Some "3AHOV"
  /\ user_id_properties
       (calls_since signed_up_page
          (after (VeedApp.showUpgradePrompt "export_limit") signed_up_page))
     = [("Upgrade Prompt Shown", VStr "ann@example.com")]
  /\ bound_userId
       (calls (after (VeedApp.showUpgradePrompt "export_limit") signed_up_page))
       None
     = Some "3AHOV"
  /\ VStr "ann@example.com" <> VStr "3AHOV".
Proof. repeat split; try (vm_compute; reflexivity). discriminate. Qed.

(** ** Running the other methods

    [js_run_more] is [js_run] for every method of the model. *)
Ltac js_run_more :=
  cbv beta iota zeta delta [
    set_calls set_ready set_storage set_draws set_ticks set_viewport
    set_va set_window_veedAnalytics set_scroll set_app ret bind throw
    gets modify try_catch after outcome completes Math_random
    random_below random_token Date_now new_Date_toISOString getItem
    setItem removeItem parse pick analytics emit analytics_page
    analytics_identify analytics_track analytics_reset literal str num
    boolean includes push VeedAnalytics.this VeedAnalytics.set_userId
    VeedAnalytics.set_sessionId VeedAnalytics.set_anonymousId
    VeedAnalytics.set_isInitialized VeedAnalytics.getUserId
    VeedAnalytics.generateSessionId VeedAnalytics.generateUTMParameters
    VeedAnalytics.getUserPlan VeedAnalytics.getLoginCount
    VeedAnalytics.getTotalProjectsCreated VeedAnalytics.isTrialUser
    VeedAnalytics.getDaysSinceSignup VeedAnalytics.getDaysSinceLastLogin
    VeedAnalytics.getLoginStreak
    VeedAnalytics.getMilestoneCompletionTime
    VeedAnalytics.calculateDropOffRisk
    VeedAnalytics.calculateEngagementScore
    VeedAnalytics.getFeatureDiscoveryRate
    VeedAnalytics.estimateCompanySize VeedAnalytics.estimateIndustry
    VeedAnalytics.getCompletedMilestones
    VeedAnalytics.updateOnboardingProgress
    VeedAnalytics.getUserJourneyStage VeedAnalytics.trackPageView
    VeedAnalytics.identifyExistingUser VeedAnalytics.setupEventListeners
    VeedAnalytics.initializeTracking VeedAnalytics.on_ready
    VeedAnalytics.constructor VeedAnalytics.trackSignup
    VeedAnalytics.trackLogin VeedAnalytics.trackSubscriptionUpgrade
    VeedAnalytics.trackOnboardingMilestone VeedAnalytics.trackSessionEnd
    VeedAnalytics.trackSessionResume VeedAnalytics.with_timeout
    VeedAnalytics.with_max VeedAnalytics.set_fired25
    VeedAnalytics.set_fired50 VeedAnalytics.set_fired75
    VeedAnalytics.set_fired100 VeedAnalytics.update_closure
    VeedAnalytics.page_scrolled VeedAnalytics.on_scroll
    VeedAnalytics.scroll_sample VeedAnalytics.on_scroll_timeout
    VeedAnalytics.getPreviousSessionCount VeedAnalytics.initFirstVisit
    VeedAnalytics.on_DOMContentLoaded VeedAnalytics.trackPlanSelection
    VeedApp.this VeedApp.set_currentUser VeedApp.set_currentPlan
    VeedApp.set_projectCount VeedApp.set_sessionStartTime
    VeedApp.currentUser_email VeedApp.veedAnalytics_sessionId
    VeedApp.generateRandomUserId VeedApp.loadUserState VeedApp.init
    VeedApp.constructor VeedApp.performLogin
    VeedApp.showOnboardingTooltip VeedApp.startOnboardingFlow
    VeedApp.performSignup VeedApp.showSignupModal VeedApp.showLoginModal
    VeedApp.showUpgradeModal VeedApp.selectPlan VeedApp.processUpgrade
    VeedApp.openEditor VeedApp.showUpgradePrompt VeedApp.logout
    location_href location_pathname document_referrer document_title
    navigator_userAgent screen_width screen_height segment_anonymousId
    editor_modal confirm scrollY innerHeight scrollHeight userId
    sessionId anonymousId isInitialized maxScrollDepth fired25 fired50
    fired75 fired100 scrollTimeout currentUser currentPlan projectCount
    sessionStartTime env analytics_defined calls ready_pending
    localStorage draws ticks viewport va window_veedAnalytics scroll
    window_app plan billingCycle method fromTrial reason fst snd real
    VeedAnalytics.isReturningVisitor VeedAnalytics.generateProjectId
    VeedAnalytics.generateInviteId VeedAnalytics.getFeatureAvailability
    VeedAnalytics.hasWatermark VeedAnalytics.updateFeatureAdoption
    VeedAnalytics.updateViralMetrics VeedAnalytics.updateUsageLimits
    VeedAnalytics.getProjectsCreatedToday VeedAnalytics.getTeamSize
    VeedAnalytics.getExportCountToday VeedAnalytics.getTotalExports
    VeedAnalytics.getSupportTicketsCount
    VeedAnalytics.getFeatureUsageDecline
    VeedAnalytics.getPlanDowngradeRisk VeedAnalytics.getLastActivityDate
    VeedAnalytics.getEngagementTrend VeedAnalytics.getUsageFrequency
    VeedAnalytics.getSessionDurationTrend
    VeedAnalytics.trackFeatureUsage VeedAnalytics.trackProjectCreated
    VeedAnalytics.trackUserInvited VeedAnalytics.trackVideoExport
    VeedAnalytics.trackChurnRisk VeedAnalytics.trackFeatureClick
    VeedApp.handleLogin VeedApp.handleSignup VeedApp.trackPricingToggle
    VeedApp.trackHighEngagement VeedApp.trackTimeOnPage
    VeedApp.trackSessionMetrics VeedApp.startVideoEditor
    VeedApp.closeEditor VeedApp.saveProject VeedApp.uploadVideo
    VeedApp.processVideoUpload VeedApp.exportVideo
    VeedApp.exportVideo_timeout VeedApp.sendInvite
    VeedApp.inviteCollaborator Page.app_currentPlan Page.addElement
    Page.playVideo Page.selectTemplate Page.viewAllTemplates
    Page.createBrandKit Page.previewBrandKit Page.accessTeamSpace
    Page.trackResourceAccess Page.openSupportChat Page.viewHelpCenter
    report_handler scroll_handler login_handler page_load project_id
    project_name project_type project_template project_method
    invite_email invite_role invite_projectId invite_message
    export_projectId export_duration export_quality export_fileSize
    export_format export_processingTime export_hasSubtitles
    export_effectsCount export_isCollaborative
  ];
  change (VeedAnalytics.generateRandomUserId_loop 5 EmptyString)
    with VeedAnalytics.generateRandomUserId.

Ltac js_exec_more known :=
  js_run_more; repeat (first [ known | js_store | js_split ]; js_run_more).

(** ** Reports and the identity *)

Lemma bound_userId_app (l l' : list Call) (x : option string) :
  bound_userId (l ++ l') x = bound_userId l' (bound_userId l x).
Proof.
  revert x; induction l as [|[] l IH]; intros x; cbn; auto.
Qed.

Lemma bound_userId_reports (l : list Call) (x : option string) :
  forallb is_report l = true -> bound_userId l x = x.
Proof.
  induction l as [|[] l IH]; cbn; intros H; auto; discriminate.
Qed.

Ltac report_calls :=
  eexists;
  (split;
   [ first [ symmetry; apply app_nil_r | rewrite <- ?app_assoc; reflexivity ]
   | reflexivity ]).

Ltac same_cells :=
  unfold identity_keys;
  repeat constructor;
  rewrite ?lookup_insert_ne by discriminate; reflexivity.

Lemma report_step (r : Report) (b : Browser) :
  let b' := after (report_handler r) b in
  (exists l, calls b' = (calls b ++ l)%list /\ forallb is_report l = true)
  /\ userId (va b') = userId (va b)
  /\ currentUser (window_app b') = currentUser (window_app b)
  /\ Forall (fun k => localStorage b' !! k = localStorage b !! k) identity_keys.
Proof.
  open_browser b. destruct a, ap.
  destruct r;
    try match goal with
        | ev : ScrollEvent |- _ => destruct ev; destruct sc as [[]|]
        end;
    js_exec_more fail;
    (split; [report_calls | split; [reflexivity | split; [reflexivity | same_cells]]]).
Qed.

Lemma reports_run (rs : list Report) (b : Browser) :
  let b' := run_all report_handler rs b in
  (exists l, calls b' = (calls b ++ l)%list /\ forallb is_report l = true)
  /\ userId (va b') = userId (va b)
  /\ currentUser (window_app b') = currentUser (window_app b)
  /\ Forall (fun k => localStorage b' !! k = localStorage b !! k) identity_keys.
Proof.
  revert b; induction rs as [|r rs IH]; intros b; cbn.
  - split; [exists []; split; [symmetry; apply app_nil_r | reflexivity] |].
    repeat split; unfold identity_keys; repeat constructor.
  - destruct (report_step r b) as ((l1 & Hl1 & Hr1) & Hu1 & Hc1 & Hs1).
    destruct (IH (after (report_handler r) b)) as ((l2 & Hl2 & Hr2) & Hu2 & Hc2 & Hs2).
    unfold run_all in *.
    split; [|split; [congruence | split; [congruence |]]].
    + exists (l1 ++ l2)%list; split.
      * rewrite Hl2, Hl1, <- app_assoc; reflexivity.
      * rewrite forallb_app, Hr1, Hr2; reflexivity.
    + rewrite Forall_forall in *; intros k Hk.
      rewrite (Hs2 k Hk); apply Hs1, Hk.
Qed.

(** X1.  Only a signup, a login, an upgrade, a page load and a logout
    touch the identity.  Whatever the other operations of the page do,
    in any number and order and on any page -- feature, project, invite,
    export, milestone, session, scroll, plan, editor, template, brand kit,
    team space and support events -- the transport receives no identify
    and no reset call from them, so the user it has bound stays the same,
    and the facade's user id, the application's current user and the four
    identity cells of the store are left as they were. *)
Theorem reports_leave_identity_alone (rs : list Report) (b : Browser) :
  let b' := run_all report_handler rs b in
  forallb is_report (calls_since b b') = true
  /\ (forall x, bound_userId (calls b') x = bound_userId (calls b) x)
  /\ userId (va b') = userId (va b)
  /\ currentUser (window_app b') = currentUser (window_app b)
  /\ Forall (fun k => localStorage b' !! k = localStorage b !! k) identity_keys.
Proof.
  destruct (reports_run rs b) as ((l & Hl & Hr) & Hu & Hc & Hs).
  cbv zeta; unfold calls_since.
  rewrite Hl, drop_app_length.
  repeat split; auto.
  intros x; rewrite bound_userId_app; apply bound_userId_reports, Hr.
Qed.

(** ** Clicks *)

Lemma on_click_step (m : bool) (c : Engagement) (b : Browser) :
  let fire := m && (interactionCount c + 1 =? 5)
              && negb (highEngagementTracked c) && analytics_defined b in
  let s' := snd (VeedApp.on_click m (c, b)) in
  interactionCount (fst s') = interactionCount c + (if m then 1 else 0)
  /\ highEngagementTracked (fst s') = highEngagementTracked c || fire
  /\ analytics_defined (snd s') = analytics_defined b
  /\ calls (snd s')
     = (calls b ++ if fire then [high_engagement_call] else [])%list.
Proof.
  destruct c as [sc k flag]. open_browser b.
  unfold VeedApp.on_click.
  cbn [interactionCount highEngagementTracked engagementScore analytics_defined calls].
  destruct m; cbn [andb];
    [|cbn; rewrite orb_false_r, app_nil_r, Z.add_0_r; auto].
  destruct (k + 1 =? 5); cbn [andb];
    [|cbn; rewrite orb_false_r, app_nil_r; auto].
  destruct flag; cbn [negb andb];
    [cbn; rewrite app_nil_r; auto|].
  destruct d; js_exec_more fail; cbn; rewrite ?app_nil_r; auto.
Qed.

Lemma run_clicks_calls (clicks : list bool) (c : Engagement) (b : Browser) :
  calls (snd (run_clicks clicks (c, b)))
  = (calls b ++
     if (interactionCount c <? 5)
        && (5 <=? interactionCount c + meaningful_clicks clicks)
        && negb (highEngagementTracked c) && analytics_defined b
     then [high_engagement_call] else [])%list.
Proof.
  revert c b; induction clicks as [|m clicks IH]; intros c b.
  - cbn [run_clicks fold_left snd meaningful_clicks].
    replace (5 <=? interactionCount c + 0) with (negb (interactionCount c <? 5))
      by (rewrite Z.add_0_r; destruct (Z.ltb_spec (interactionCount c) 5),
            (Z.leb_spec 5 (interactionCount c)); try reflexivity; lia).
    rewrite andb_negb_r; cbn; rewrite app_nil_r; reflexivity.
  - change (run_clicks (m :: clicks) (c, b))
      with (run_clicks clicks (snd (VeedApp.on_click m (c, b)))).
    destruct (on_click_step m c b) as (Hk & Hf & Hd & Hc).
    destruct (snd (VeedApp.on_click m (c, b))) as [c' b'].
    cbn [fst snd] in Hk, Hf, Hd, Hc.
    rewrite IH, Hk, Hf, Hd, Hc, <- app_assoc. f_equal.
    cbn [meaningful_clicks].
    assert (Hn : 0 <= meaningful_clicks clicks)
      by (clear; induction clicks as [|[] ? ?]; cbn [meaningful_clicks]; lia).
    destruct m, (highEngagementTracked c), (analytics_defined b);
      cbn [andb orb negb]; rewrite ?andb_false_r, ?andb_true_r;
      cbn [Datatypes.app andb orb negb];
      repeat match goal with
        | |- context [?x <? ?y] => destruct (Z.ltb_spec x y)
        | |- context [?x <=? ?y] => destruct (Z.leb_spec x y)
        | |- context [?x =? ?y] => destruct (Z.eqb_spec x y)
        end; cbn [andb orb negb Datatypes.app]; try reflexivity; lia.
Qed.

(** X2.  However the visitor clicks, the click listener of the
    application sends the High Engagement event exactly once when the
    visit has five meaningful clicks or more and the vendor's script is
    loaded, and never otherwise. *)
Theorem high_engagement_fires_once (clicks : list bool) (b : Browser) :
  calls_since b (snd (run_clicks clicks (VeedApp.no_interaction, b)))
  = if analytics_defined b && (5 <=? meaningful_clicks clicks)
    then [high_engagement_call] else [].
Proof.
  apply calls_since_app.
  rewrite run_clicks_calls. f_equal.
  cbn [VeedApp.no_interaction interactionCount highEngagementTracked negb].
  change (0 <? 5) with true. rewrite Z.add_0_l.
  destruct (analytics_defined b), (5 <=? meaningful_clicks clicks); reflexivity.
Qed.

(** ** The order of the scroll milestones *)

Lemma js_ge_Fin (q x : Q) : js_ge (Fin q) (Fin x) = true <-> (x <= q)%Q.
Proof.
  cbn. destruct (q ?= x)%Q eqn:E.
  - apply Qeq_alt in E. split; [|reflexivity].
    intros _. rewrite E. apply Qle_refl.
  - apply Qlt_alt in E. split; [discriminate|].
    intros H. exfalso. exact (Qlt_not_le _ _ E H).
  - apply Qgt_alt in E. split; [|reflexivity].
    intros _. apply Qlt_le_weak. exact E.
Qed.

Lemma js_ge_mono (D : jsnum) (x y : Q) :
  (y <= x)%Q -> js_ge D (Fin x) = true -> js_ge D (Fin y) = true.
Proof.
  intros Hyx. destruct D as [q| | |]; try (cbn; congruence).
  rewrite !js_ge_Fin. intros H. exact (Qle_trans _ _ _ Hyx H).
Qed.

(** The four thresholds are passed in their order. *)
Lemma js_ge_levels (D : jsnum) :
  let g x := js_ge D (Fin x) in
  (g (25 # 100) = false /\ g (50 # 100) = false /\ g (75 # 100) = false /\ g (95 # 100) = false)
  \/ (g (25 # 100) = true /\ g (50 # 100) = false /\ g (75 # 100) = false /\ g (95 # 100) = false)
  \/ (g (25 # 100) = true /\ g (50 # 100) = true /\ g (75 # 100) = false /\ g (95 # 100) = false)
  \/ (g (25 # 100) = true /\ g (50 # 100) = true /\ g (75 # 100) = true /\ g (95 # 100) = false)
  \/ (g (25 # 100) = true /\ g (50 # 100) = true /\ g (75 # 100) = true /\ g (95 # 100) = true).
Proof.
  cbv zeta.
  assert (H1 := js_ge_mono D (95 # 100) (75 # 100) ltac:(unfold Qle; cbn; lia)).
  assert (H2 := js_ge_mono D (75 # 100) (50 # 100) ltac:(unfold Qle; cbn; lia)).
  assert (H3 := js_ge_mono D (50 # 100) (25 # 100) ltac:(unfold Qle; cbn; lia)).
  destruct (js_ge D (Fin (95 # 100))), (js_ge D (Fin (75 # 100))),
    (js_ge D (Fin (50 # 100))), (js_ge D (Fin (25 # 100)));
    try specialize (H1 eq_refl); try specialize (H2 eq_refl);
    try specialize (H3 eq_refl); try discriminate; tauto.
Qed.

Ltac depth_known :=
  match goal with
  | G : js_ge _ _ = _ |- _ => rewrite G
  | |- _ => progress cbn [negb andb]
  end.

(** One firing of the timer keeps the milestones fired a first part of
    [milestone_depths], and sends the next one or nothing. *)
Lemma on_scroll_timeout_next (b : Browser) (c : ScrollClosure) (k : nat) :
  scroll b = Some c ->
  milestones_fired c = Some k ->
  exists (c' : ScrollClosure) (n : nat),
    scroll (after VeedAnalytics.on_scroll_timeout b) = Some c'
    /\ milestones_fired c' = Some (k + n)%nat
    /\ analytics_defined (after VeedAnalytics.on_scroll_timeout b)
       = analytics_defined b
    /\ calls (after VeedAnalytics.on_scroll_timeout b)
       = (calls b ++ if analytics_defined b
                     then map scrolled_call (take n (drop k milestone_depths))
                     else [])%list.
Proof.
  intros Hs Hk.
  destruct c as [m f25 f50 f75 f100 t].
  open_browser b. cbn [scroll] in Hs. subst sc. destruct vp as [sy ih sh].
  destruct (js_ge_levels (js_div (Fin (sy + ih)) (Fin sh)))
    as [(G1 & G2 & G3 & G4)|[(G1 & G2 & G3 & G4)|[(G1 & G2 & G3 & G4)
       |[(G1 & G2 & G3 & G4)|(G1 & G2 & G3 & G4)]]]];
    destruct f25, f50, f75, f100; try discriminate; injection Hk as <-;
    destruct d;
    js_exec_more ltac:(idtac; depth_known);
    eexists;
    first [ exists 0%nat; split; [reflexivity|];
            split; [reflexivity|]; split; [reflexivity|];
            cbn; rewrite ?app_nil_r; reflexivity
          | exists 1%nat; split; [reflexivity|];
            split; [reflexivity|]; split; [reflexivity|];
            cbn; rewrite ?app_nil_r; reflexivity ].
Qed.

Lemma scroll_handler_next (ev : ScrollEvent) (b : Browser)
  (c : ScrollClosure) (k : nat) :
  scroll b = Some c ->
  milestones_fired c = Some k ->
  exists (c' : ScrollClosure) (n : nat),
    scroll (after (scroll_handler ev) b) = Some c'
    /\ milestones_fired c' = Some (k + n)%nat
    /\ analytics_defined (after (scroll_handler ev) b) = analytics_defined b
    /\ calls (after (scroll_handler ev) b)
       = (calls b ++ if analytics_defined b
                     then map scrolled_call (take n (drop k milestone_depths))
                     else [])%list.
Proof.
  intros Hs Hk. destruct ev as [v|]; [|exact (on_scroll_timeout_next b c k Hs Hk)].
  open_browser b. cbn [scroll] in Hs. subst sc.
  exists (VeedAnalytics.with_timeout true c), 0%nat.
  destruct d, c; cbn; rewrite Nat.add_0_r, app_nil_r; repeat split; auto.
Qed.

Lemma scroll_run_next (evs : list ScrollEvent) (b : Browser)
  (c : ScrollClosure) (k : nat) :
  scroll b = Some c ->
  milestones_fired c = Some k ->
  exists n : nat,
    calls (run_all scroll_handler evs b)
    = (calls b ++ if analytics_defined b
                  then map scrolled_call (take n (drop k milestone_depths))
                  else [])%list.
Proof.
  revert b c k; induction evs as [|ev evs IH]; intros b c k Hs Hk.
  - exists 0%nat. cbn. destruct (analytics_defined b); cbn; rewrite app_nil_r; reflexivity.
  - destruct (scroll_handler_next ev b c k Hs Hk) as (c' & n & Hs' & Hk' & Hd & Hc).
    destruct (IH _ c' (k + n)%nat Hs' Hk') as (n' & Hc').
    exists (n + n')%nat.
    change (run_all scroll_handler (ev :: evs) b)
      with (run_all scroll_handler evs (after (scroll_handler ev) b)).
    rewrite Hc', Hc, Hd, <- app_assoc. f_equal.
    destruct (analytics_defined b); [|reflexivity].
    rewrite <- map_app. f_equal.
    rewrite <- drop_drop. apply take_take_drop.
Qed.

(** X3.  However the visitor scrolls, a freshly added scroll listener
    sends its milestone events in the order 25%, 50%, 75%, 100% and
    without leaving one out: the events of a visit are a first part of
    that list.  A jump to the bottom of the page does not send 100%
    before the three others. *)
Theorem scroll_milestones_come_in_order (evs : list ScrollEvent) (b : Browser) :
  scroll b = Some no_milestone_fired ->
  exists n : nat,
    calls_since b (run_all scroll_handler evs b)
    = map scrolled_call (take n milestone_depths).
Proof.
  intros Hs.
  destruct (scroll_run_next evs b no_milestone_fired 0 Hs eq_refl) as (n & Hc).
  destruct (analytics_defined b).
  - exists n. apply calls_since_app. exact Hc.
  - exists 0%nat. apply calls_since_app. exact Hc.
Qed.

Lemma scroll_milestones_come_in_order_witness :
  exists n : nat,
    calls_since loaded_page (run_all scroll_handler sample_scrolls loaded_page)
    = map scrolled_call (take n milestone_depths).
Proof.
  apply (scroll_milestones_come_in_order sample_scrolls loaded_page).
  vm_compute; reflexivity.
Defined.

(** ** The deepest position and the debounce timer *)

Lemma js_ge_quarter_positive (D : jsnum) :
  js_ge D (Fin (25 # 100)) = true -> js_gt D (Fin 0) = true.
Proof.
  destruct D as [q| | |]; try (cbn; congruence).
  rewrite js_ge_Fin. intros H. cbn.
  assert (Hq : (0 < q)%Q) by (eapply Qlt_le_trans; [|exact H]; reflexivity).
  apply Qgt_alt in Hq. rewrite Hq. reflexivity.
Qed.

Lemma scroll_handler_not_deeper (ev : ScrollEvent) (b : Browser)
  (c : ScrollClosure) :
  scroll b = Some c ->
  js_gt (depth_of (viewport b)) (maxScrollDepth c) = false ->
  not_deeper (maxScrollDepth c) ev = true ->
  let b' := after (scroll_handler ev) b in
  calls b' = calls b
  /\ js_gt (depth_of (viewport b')) (maxScrollDepth c) = false
  /\ exists c', scroll b' = Some c' /\ maxScrollDepth c' = maxScrollDepth c.
Proof.
  intros Hs Hv Hev.
  destruct c as [m f25 f50 f75 f100 t].
  open_browser b. cbn [scroll] in Hs. subst sc. destruct vp as [sy ih sh].
  destruct ev as [[sy' ih' sh']|];
    cbn [not_deeper viewport maxScrollDepth] in *;
    try apply negb_true_iff in Hev; unfold depth_of in *;
    cbn [scrollY innerHeight scrollHeight] in *;
    js_exec_more ltac:(idtac; rewrite Hv);
    (split; [reflexivity
            | split; [first [assumption | reflexivity]
                     | eexists; split; reflexivity]]).
Qed.

Lemma scroll_run_not_deeper (evs : list ScrollEvent) (b : Browser)
  (c : ScrollClosure) :
  scroll b = Some c ->
  js_gt (depth_of (viewport b)) (maxScrollDepth c) = false ->
  forallb (not_deeper (maxScrollDepth c)) evs = true ->
  calls (run_all scroll_handler evs b) = calls b.
Proof.
  revert b c; induction evs as [|ev evs IH]; intros b c Hs Hv Hevs;
    [reflexivity|].
  cbn [forallb] in Hevs. apply andb_true_iff in Hevs as [Hev Hevs].
  destruct (scroll_handler_not_deeper ev b c Hs Hv Hev) as (Hc & Hv' & c' & Hs' & Hm).
  change (run_all scroll_handler (ev :: evs) b)
    with (run_all scroll_handler evs (after (scroll_handler ev) b)).
  rewrite <- Hm in Hv', Hevs.
  rewrite (IH _ c' Hs' Hv' Hevs). exact Hc.
Qed.

(** X4.  A visitor who jumps down the page to a depth of a quarter or
    more gets the one event of 25%, whatever depth was reached, and
    nothing more for as long as the page is not scrolled deeper than
    that: the other milestones passed in the jump are sent only by later
    samples that are deeper than every one before. *)
Theorem scroll_jump_fires_the_first_milestone
  (v : Viewport) (evs : list ScrollEvent) (b : Browser) :
  analytics_defined b = true ->
  scroll b = Some no_milestone_fired ->
  js_ge (depth_of v) (Fin (25 # 100)) = true ->
  forallb (not_deeper (depth_of v)) evs = true ->
  calls_since b (run_all scroll_handler (ScrollTo v :: TimerFires :: evs) b)
  = [scrolled_call "25%"].
Proof.
  intros Hd Hs Hv Hevs. apply calls_since_app.
  change (run_all scroll_handler (ScrollTo v :: TimerFires :: evs) b)
    with (run_all scroll_handler evs
            (after (scroll_handler TimerFires)
               (after (scroll_handler (ScrollTo v)) b))).
  assert (H0 := js_ge_quarter_positive _ Hv).
  open_browser b. cbn [analytics_defined scroll] in Hd, Hs. subst d sc.
  destruct v as [sy ih sh]. unfold depth_of in *.
  cbn [scrollY innerHeight scrollHeight] in *.
  match goal with
  | |- calls (run_all _ _ ?b2) = _ =>
      assert (Hb2 : exists c, scroll b2 = Some c
                /\ maxScrollDepth c = js_div (Fin (sy + ih)) (Fin sh)
                /\ viewport b2 = {| scrollY := sy; innerHeight := ih; scrollHeight := sh |}
                /\ calls b2 = (cs ++ [scrolled_call "25%"])%list)
  end.
  { unfold no_milestone_fired.
    js_exec_more ltac:(idtac; first [ rewrite H0 | rewrite Hv
                                    | progress cbn [fmap option_fmap option_map negb andb] ]).
    eexists; repeat split; reflexivity. }
  destruct Hb2 as (c & Hs2 & Hm & Hvp & Hc).
  rewrite (scroll_run_not_deeper evs _ c Hs2).
  - exact Hc.
  - rewrite Hvp, Hm. unfold depth_of; cbn [scrollY innerHeight scrollHeight].
    destruct (js_div (Fin (sy + ih)) (Fin sh)) as [q| | |]; cbn; try reflexivity.
    rewrite (proj1 (Qeq_alt q q) (Qeq_refl q)). reflexivity.
  - rewrite Hm. exact Hevs.
Qed.

Lemma scroll_jump_fires_the_first_milestone_witness :
  calls_since loaded_page
    (run_all scroll_handler
       [ScrollTo (scrolled_to 100); TimerFires;
        ScrollTo (scrolled_to 40); TimerFires;
        ScrollTo (scrolled_to 100); TimerFires] loaded_page)
  = [scrolled_call "25%"].
Proof.
  apply (scroll_jump_fires_the_first_milestone (scrolled_to 100)
           [ScrollTo (scrolled_to 40); TimerFires;
            ScrollTo (scrolled_to 100); TimerFires] loaded_page).
  - vm_compute; reflexivity.
  - vm_compute; reflexivity.
  - vm_compute; reflexivity.
  - vm_compute; reflexivity.
Defined.

Lemma scroll_event_twice (v v' : Viewport) (b : Browser) :
  after (scroll_handler (ScrollTo v)) (after (scroll_handler (ScrollTo v')) b)
  = after (scroll_handler (ScrollTo v)) b.
Proof.
  open_browser b. destruct sc as [[]|]; reflexivity.
Qed.

(** X5.  The scroll listener is debounced: of a burst of scroll events
    with no pause of 150ms between them, only the last position is
    sampled.  The page after the burst and the firing of the timer is the
    page after the last scroll event and the firing, whatever positions
    the burst passed through. *)
Theorem scroll_burst_samples_the_last_position
  (vs : list Viewport) (v : Viewport) (b : Browser) :
  run_all scroll_handler (map ScrollTo vs ++ [ScrollTo v; TimerFires]) b
  = run_all scroll_handler [ScrollTo v; TimerFires] b.
Proof.
  revert b; induction vs as [|v' vs IH]; intros b; [reflexivity|].
  cbn [map Datatypes.app].
  change (run_all scroll_handler (ScrollTo v' :: ?l) b)
    with (run_all scroll_handler l (after (scroll_handler (ScrollTo v')) b)).
  rewrite IH.
  change (run_all scroll_handler [ScrollTo v; TimerFires] ?b0)
    with (after (scroll_handler TimerFires) (after (scroll_handler (ScrollTo v)) b0)).
  rewrite scroll_event_twice. reflexivity.
Qed.

(** ** Page load *)

Lemma bind_run {A B : Type} (m : M A) (k : A -> M B) (b b1 : Browser) (a : A) :
  m b = (Normal a, b1) -> bind m k b = k a b1.
Proof. intros H. unfold bind. rewrite H. reflexivity. Qed.

(** The listener of [DOMContentLoaded], with the vendor's script loaded:
    the facade is installed with the user id of a known visitor, and
    nothing is sent yet. *)
Lemma on_DOMContentLoaded_run (b : Browser) :
  analytics_defined b = true ->
  exists b1,
    VeedAnalytics.on_DOMContentLoaded b = (Normal tt, b1)
    /\ analytics_defined b1 = true
    /\ calls b1 = calls b
    /\ userId (va b1)
       = (if known_visitor b then localStorage b !! "veed_user_id" else None)
    /\ forall k, k <> "veed_first_visit" -> k <> "veed_session_count" ->
         localStorage b1 !! k = localStorage b !! k.
Proof.
  intros Hd. unfold known_visitor.
  open_browser b. destruct a. cbn [analytics_defined] in Hd. subst d.
  js_exec_more fail; eexists; (split; [reflexivity|]); cbn [andb];
    repeat split; intros;
    rewrite ?lookup_insert_ne by congruence; reflexivity.
Qed.

(** X6.  A page load identifies nobody unless a user id and user data
    are both stored: with one of them missing or empty the transport
    receives no identify call while the page loads, and the facade holds
    no user id, even if the other one is there. *)
Theorem page_load_identifies_no_stranger (b : Browser) :
  analytics_defined b = true ->
  known_visitor b = false ->
  identified (calls_since b (after page_load b)) = []
  /\ userId (va (after page_load b)) = None.
Proof.
  intros Hd Hk.
  destruct (on_DOMContentLoaded_run b Hd) as (b1 & Hrun & Hd1 & Hc1 & Hu1 & Hs1).
  unfold after, page_load, calls_since. rewrite (bind_run _ _ _ _ _ Hrun), <- Hc1.
  rewrite Hk in Hu1. unfold known_visitor in Hk.
  rewrite <- (Hs1 "veed_user_id"), <- (Hs1 "veed_user_data") in Hk by discriminate.
  open_browser b1. destruct a as [uid sid aid ini].
  cbn [analytics_defined localStorage va userId] in Hd1, Hk, Hu1. subst d uid.
  js_exec_more ltac:(idtac; rewrite Hk);
    cbn [calls]; rewrite <- ?app_assoc, ?drop_app_length, ?drop_all; auto.
Qed.

Lemma page_load_identifies_no_stranger_witness :
  identified
    (calls_since (new_page sample_env true (<["veed_user_id" := "3AHOV"]> ∅))
       (after page_load (new_page sample_env true (<["veed_user_id" := "3AHOV"]> ∅))))
  = []
  /\ userId (va (after page_load
                   (new_page sample_env true (<["veed_user_id" := "3AHOV"]> ∅))))
     = None.
Proof.
  apply (page_load_identifies_no_stranger
           (new_page sample_env true (<["veed_user_id" := "3AHOV"]> ∅)));
    vm_compute; reflexivity.
Defined.

(** X7.  A page load brings a stored user back.  When the store holds a
    user id, user data that [JSON.stringify] wrote and a readable list of
    milestones, the page load completes, the transport receives the page
    view and then one identify call with the stored id, the facade holds
    that id from then on, and the scroll listener is added with no
    milestone fired. *)
Theorem page_load_identifies_the_stored_user
  (id : string) (r : record) (l : list string) (b : Browser) :
  analytics_defined b = true ->
  truthy_string id = true ->
  localStorage b !! "veed_user_id" = Some id ->
  localStorage b !! "veed_user_data" = Some (JSON_stringify (JObj r)) ->
  milestones_stored b = Some l ->
  let b' := after page_load b in
  (exists p t,
     calls_since b b' = [CPage "VEED Homepage" p; CIdentify (Some id) t]
     /\ obj_get p "isAuthenticated" = Some (VBool true))
  /\ outcome page_load b = Normal tt
  /\ userId (va b') = Some id
  /\ scroll b' = Some no_milestone_fired.
Proof.
  intros Hd Ht Hid Hdata Hm. unfold milestones_stored in Hm.
  destruct (on_DOMContentLoaded_run b Hd) as (b1 & Hrun & Hd1 & Hc1 & _ & Hs1).
  cbv zeta. unfold after, outcome, page_load, calls_since.
  rewrite (bind_run _ _ _ _ _ Hrun), <- Hc1.
  rewrite <- (Hs1 "veed_user_id") in Hid by discriminate.
  rewrite <- (Hs1 "veed_user_data") in Hdata by discriminate.
  rewrite <- (Hs1 "onboarding_milestones") in Hm by discriminate.
  open_browser b1. destruct a.
  cbn [analytics_defined localStorage] in Hd1, Hid, Hdata, Hm. subst d.
  destruct (JSON_parse (or_default (st !! "onboarding_milestones") "[]"))
    as [[l'|]|] eqn:Hl; try discriminate.
  js_exec_more ltac:(idtac; first [ rewrite Hid | rewrite Hdata | rewrite Hl
                                  | rewrite Ht
                                  | progress cbn [truthy_opt andb] ]);
    (split; [do 2 eexists; split;
               [cbn [calls]; rewrite <- ?app_assoc, ?drop_app_length; reflexivity
               | reflexivity]
            | repeat split; reflexivity]).
Qed.

Lemma page_load_identifies_the_stored_user_witness :
  let b := new_page sample_env true returning_store in
  let b' := after page_load b in
  (exists p t,
     calls_since b b' = [CPage "VEED Homepage" p; CIdentify (Some "3AHOV") t]
     /\ obj_get p "isAuthenticated" = Some (VBool true))
  /\ outcome page_load b = Normal tt
  /\ userId (va b') = Some "3AHOV"
  /\ scroll b' = Some no_milestone_fired.
Proof.
  apply (page_load_identifies_the_stored_user "3AHOV"
           [("name", Some "Ann"); ("email", Some "ann@example.com");
            ("userId", Some "3AHOV")]
           ["account_created"; "first_project_created"]
           (new_page sample_env true returning_store));
    vm_compute; reflexivity.
Defined.

(** ** The first project *)

Lemma includes_pushed (l : list string) (x : string) :
  bool_decide (x ∈ (l ++ [x])%list) = true.
Proof. apply bool_decide_eq_true_2. set_solver. Qed.

(** X8.  The first project a signed-in user saves sends the onboarding
    milestone [first_project_created] twice: once from
    [trackProjectCreated], which finds the count of one that [saveProject]
    has just stored, and once from [saveProject] itself.  The list of
    completed milestones in the store holds it once. *)
Theorem first_project_milestone_is_sent_twice
  (projectName : string) (u : record) (l : list string) (b : Browser) :
  analytics_defined b = true ->
  window_veedAnalytics b = true ->
  currentUser (window_app b) = Some u ->
  projectCount (window_app b) = Some 0 ->
  milestones_stored b = Some l ->
  let b' := after (VeedApp.saveProject projectName) b in
  outcome (VeedApp.saveProject projectName) b = Normal tt
  /\ event_names (calls_since b b')
     = ["Project Created"; "Onboarding Milestone Completed";
        "Onboarding Milestone Completed"]
  /\ map (fun p => obj_get p "milestone")
       (events_named "Onboarding Milestone Completed" (calls_since b b'))
     = [Some (VStr "first_project_created"); Some (VStr "first_project_created")]
  /\ milestones_stored b'
     = Some (if bool_decide ("first_project_created" ∈ l) then l
             else (l ++ ["first_project_created"])%list).
Proof.
  intros Hd Hw Hu Hn Hm. unfold milestones_stored in *.
  open_browser b. destruct a, ap as [cu cp pc t0].
  cbn [analytics_defined window_veedAnalytics window_app currentUser
       projectCount localStorage] in *.
  subst d w cu pc.
  destruct (JSON_parse (or_default (st !! "onboarding_milestones") "[]"))
    as [[l'|]|] eqn:Hl; try discriminate.
  injection Hm as ->.
  change (count_toString (Z.succ <$> Some 0)) with "1".
  js_exec_more ltac:(idtac; first
    [ rewrite Hl
    | rewrite includes_pushed
    | match goal with H : negb (bool_decide _) = _ |- _ => rewrite H end
    | progress change (count_toString (Z.succ <$> Some 0)) with "1"
    | progress change (parseInt (or_default (Some "1") "0")) with (Some 1)
    | progress cbn [negb] ]);
    unfold calls_since; cbn [calls localStorage];
    rewrite <- ?app_assoc, ?drop_app_length;
    rewrite ?lookup_insert_eq, ?lookup_insert_ne by discriminate;
    rewrite ?JSON_stringify_truthy, ?JSON_parse_stringify_array, ?Hl;
    match goal with
    | H : negb (bool_decide _) = true |- _ => apply negb_true_iff in H; rewrite H
    | H : negb (bool_decide _) = false |- _ => apply negb_false_iff in H; rewrite H
    end;
    repeat split; reflexivity.
Qed.

Lemma first_project_milestone_is_sent_twice_witness :
  let b := signed_up_page in
  let b' := after (VeedApp.saveProject "Demo") b in
  outcome (VeedApp.saveProject "Demo") b = Normal tt
  /\ event_names (calls_since b b')
     = ["Project Created"; "Onboarding Milestone Completed";
        "Onboarding Milestone Completed"]
  /\ map (fun p => obj_get p "milestone")
       (events_named "Onboarding Milestone Completed" (calls_since b b'))
     = [Some (VStr "first_project_created"); Some (VStr "first_project_created")]
  /\ milestones_stored b'
     = Some (if bool_decide ("first_project_created" ∈ ["account_created"])
             then ["account_created"]
             else (["account_created"] ++ ["first_project_created"])%list).
Proof.
  refine (first_project_milestone_is_sent_twice "Demo" _ ["account_created"]
            signed_up_page _ _ _ _ _);
    vm_compute; reflexivity.
Defined.

(** ** The counters of the store *)








(** ** The export limit of the free plan *)




(** ** The login count *)





(** ** The email pattern *)

Lemma all_plain_app (s t : string) :
  all_plain (s ++ t) = all_plain s && all_plain t.
Proof.
  induction s as [|c s IH]; [reflexivity|].
  rewrite append_cons. cbn [all_plain]. rewrite IH. apply andb_assoc.
Qed.

Lemma dot_then_more_spec (s : string) :
  dot_then_more s = true
  <-> exists u v, s = u ++ String "." v /\ truthy_string v = true.
Proof.
  induction s as [|c s IH]; cbn [dot_then_more].
  - split; [discriminate|]. intros (u & v & H & _). destruct u; discriminate.
  - rewrite orb_true_iff, andb_true_iff, IH. split.
    + intros [[Hc Hv]|(u & v & -> & Hv)].
      * apply Ascii.eqb_eq in Hc as ->. exists EmptyString, s. auto.
      * exists (String c u), v. rewrite append_cons. auto.
    + intros (u & v & H & Hv). destruct u as [|c' u].
      * rewrite append_nil in H. injection H as -> ->. left. auto.
      * rewrite append_cons in H. injection H as -> ->. right. eauto.
Qed.

Lemma email_matches_spec (s : string) (seen : bool) :
  email_matches s seen = true
  <-> exists l d,
        s = l ++ String "@" d
        /\ all_plain l = true
        /\ (seen = true \/ truthy_string l = true)
        /\ domain_matches d = true.
Proof.
  revert seen. induction s as [|c s IH]; intros seen; cbn [email_matches].
  - split; [discriminate|]. intros (l & d & H & _). destruct l; discriminate.
  - destruct (Ascii.eqb c "@") eqn:Hc.
    + apply Ascii.eqb_eq in Hc as ->. rewrite andb_true_iff. split.
      * intros [-> Hd]. exists EmptyString, s. auto.
      * intros (l & d & H & Hl & Hs & Hd). destruct l as [|c' l].
        -- rewrite append_nil in H. injection H as ->.
           destruct Hs as [Hs|Hs]; [auto | discriminate].
        -- rewrite append_cons in H. injection H as <- ->.
           cbn in Hl. discriminate.
    + destruct (is_space c) eqn:Hsp.
      * split; [discriminate|]. intros (l & d & H & Hl & _).
        destruct l as [|c' l].
        -- rewrite append_nil in H. injection H as -> _.
           rewrite Ascii.eqb_refl in Hc. discriminate.
        -- rewrite append_cons in H. injection H as <- _.
           cbn [all_plain] in Hl. unfold is_plain in Hl.
           rewrite Hsp in Hl. discriminate.
      * rewrite IH. split.
        -- intros (l & d & -> & Hl & _ & Hd). exists (String c l), d.
           rewrite append_cons. cbn [all_plain truthy_string]. unfold is_plain.
           rewrite Hsp, Hc, Hl. auto.
        -- intros (l & d & H & Hl & _ & Hd). destruct l as [|c' l].
           ++ rewrite append_nil in H. injection H as -> _.
              rewrite Ascii.eqb_refl in Hc. discriminate.
           ++ rewrite append_cons in H. injection H as <- ->.
              cbn [all_plain] in Hl. apply andb_true_iff in Hl as [_ Hl].
              exists l, d. auto.
Qed.

Lemma before_at_plain (l d : string) :
  all_plain l = true -> before_at (l ++ String "@" d) = l.
Proof.
  induction l as [|c l IH]; intros H.
  - reflexivity.
  - rewrite append_cons. cbn [all_plain] in H. unfold is_plain in H.
    apply andb_true_iff in H as [Hc Hl]. apply andb_true_iff in Hc as [_ Hc].
    cbn [before_at]. apply negb_true_iff in Hc. rewrite Hc, (IH Hl). reflexivity.
Qed.

(** X11.  [isValidEmail] accepts exactly the texts made of a local part,
    one [@] and a domain, where the local part is not empty, neither part
    has white space or a further [@], and the domain has a dot with at
    least one character on each side.  For an accepted email the part
    before the [@], which a login uses as the display name when none is
    stored, is that local part, and is not empty. *)
Theorem isValidEmail_spec (email : string) :
  VeedApp.isValidEmail email = true
  <-> exists l d1 d2,
        email = l ++ String "@" (d1 ++ String "." d2)
        /\ truthy_string l = true /\ truthy_string d1 = true
        /\ truthy_string d2 = true
        /\ all_plain l = true /\ all_plain d1 = true /\ all_plain d2 = true
        /\ before_at email = l.
Proof.
  unfold VeedApp.isValidEmail. rewrite email_matches_spec. split.
  - intros (l & d & -> & Hl & [Hs|Hs] & Hd); [discriminate|].
    unfold domain_matches in Hd. apply andb_true_iff in Hd as [Hp Hd].
    destruct d as [|c d]; [discriminate|].
    apply dot_then_more_spec in Hd as (u & v & -> & Hv).
    exists l, (String c u), v.
    change (String c (u ++ String "." v)) with (String c u ++ String "." v) in *.
    rewrite all_plain_app in Hp. apply andb_true_iff in Hp as [Hu Hv'].
    cbn [all_plain] in Hv'. apply andb_true_iff in Hv' as [_ Hv'].
    repeat split; auto. apply before_at_plain, Hl.
  - intros (l & d1 & d2 & -> & Hl & H1 & H2 & Pl & P1 & P2 & _).
    exists l, (d1 ++ String "." d2). repeat split; auto.
    unfold domain_matches. rewrite all_plain_app, P1. cbn [all_plain].
    rewrite P2. change (is_plain ".") with true. cbn [andb].
    destruct d1 as [|c d1]; [discriminate|].
    rewrite append_cons. apply dot_then_more_spec. eauto.
Qed.

(** ** The caller's properties *)

Lemma obj_get_set (o : obj) (k k' : string) (v : jsval) :
  obj_get (obj_set o k v) k'
  = if String.eqb k k' then Some v else obj_get o k'.
Proof.
  induction o as [|[k0 w] o IH]; cbn [obj_set obj_get].
  - destruct (String.eqb k k'); reflexivity.
  - destruct (String.eqb k0 k) eqn:E0; cbn [obj_get].
    + apply String.eqb_eq in E0 as ->.
      destruct (String.eqb k k'); reflexivity.
    + rewrite IH. destruct (String.eqb k0 k') eqn:E1; [|reflexivity].
      apply String.eqb_eq in E1 as ->. rewrite String.eqb_sym, E0. reflexivity.
Qed.

(** In [{...target, ...source}] the last assignment of a key wins. *)
Lemma obj_get_spread (target source : obj) (k : string) :
  obj_get (spread target source) k
  = match obj_get (rev source) k with
    | Some v => Some v
    | None => obj_get target k
    end.
Proof.
  unfold spread. revert target.
  induction source as [|[k0 v0] source IH]; intros target; [reflexivity|].
  cbn [fold_left fst snd rev]. rewrite IH, obj_get_set.
  assert (Happ : forall (a b : obj),
             obj_get (a ++ b)%list k
             = match obj_get a k with Some v => Some v | None => obj_get b k end).
  { clear. induction a as [|[k1 v1] a IHa]; intros b; [reflexivity|].
    cbn [Datatypes.app obj_get]. destruct (String.eqb k1 k); [reflexivity | apply IHa]. }
  rewrite Happ. destruct (obj_get (rev source) k); [reflexivity|].
  cbn [obj_get]. destruct (String.eqb k0 k); reflexivity.
Qed.

(** X12.  The properties a caller hands to [trackFeatureUsage] override
    the facade's own: in the one Feature Used event sent, every property
    of the caller has the caller's value, also [plan], [isAnonymous] or
    [featureName], and the facade's values are kept only for the names
    the caller left out. *)
Theorem trackFeatureUsage_caller_overrides
  (featureName : string) (properties : obj) (b : Browser) :
  analytics_defined b = true ->
  NoDup (map fst properties) ->
  exists p,
    calls_since b (after (VeedAnalytics.trackFeatureUsage featureName properties) b)
    = [CTrack "Feature Used" p]
    /\ (forall k v, obj_get properties k = Some v -> obj_get p k = Some v)
    /\ (obj_get properties "featureName" = None ->
        obj_get p "featureName" = Some (VStr featureName))
    /\ (obj_get properties "isAnonymous" = None ->
        obj_get p "isAnonymous"
        = Some (VBool (negb (truthy_opt (userId (va b)))))).
Proof.
  intros Hd Hnd.
  assert (Hrev : forall k, obj_get (rev properties) k = obj_get properties k).
  { clear - Hnd. intros k.
    induction properties as [|[k0 v0] ps IH]; [reflexivity|].
    cbn [map fst] in Hnd. apply NoDup_cons in Hnd as [Hk0 Hnd].
    cbn [rev obj_get].
    assert (Happ : forall (a c : obj),
               obj_get (a ++ c)%list k
               = match obj_get a k with Some v => Some v | None => obj_get c k end).
    { clear. induction a as [|[k1 v1] a IHa]; intros c; [reflexivity|].
      cbn [Datatypes.app obj_get]. destruct (String.eqb k1 k); [reflexivity | apply IHa]. }
    rewrite Happ, (IH Hnd). cbn [obj_get].
    destruct (String.eqb k0 k) eqn:E.
    - apply String.eqb_eq in E as ->.
      destruct (obj_get ps k) eqn:Hg; [|reflexivity].
      exfalso. apply Hk0. clear - Hg.
      induction ps as [|[k1 v1] ps IHps]; [discriminate|].
      cbn [obj_get] in Hg. cbn [map fst]. destruct (String.eqb k1 k) eqn:E1.
      + apply String.eqb_eq in E1 as ->. left.
      + right. apply IHps, Hg.
    - destruct (obj_get ps k); reflexivity. }
  open_browser b. destruct a as [uid sid aid ini].
  cbn [analytics_defined va userId] in *. subst d.
  destruct uid as [[|c uid]|];
  js_exec_more fail;
    (eexists; split;
     [ unfold calls_since; cbn [calls]; rewrite drop_app_length; reflexivity
     | split; [|split] ]);
    try (intros k v Hk; rewrite obj_get_spread, Hrev, Hk; reflexivity);
    intros Hk; rewrite obj_get_spread, Hrev, Hk; reflexivity.
Qed.

Lemma trackFeatureUsage_caller_overrides_witness :
  exists p,
    calls_since signed_up_page
      (after (VeedAnalytics.trackFeatureUsage "subtitles"
                [("plan", VStr "enterprise"); ("context", VStr "toolbar")])
         signed_up_page)
    = [CTrack "Feature Used" p]
    /\ (forall k v,
          obj_get [("plan", VStr "enterprise"); ("context", VStr "toolbar")] k
          = Some v -> obj_get p k = Some v)
    /\ (obj_get [("plan", VStr "enterprise"); ("context", VStr "toolbar")]
          "featureName" = None ->
        obj_get p "featureName" = Some (VStr "subtitles"))
    /\ (obj_get [("plan", VStr "enterprise"); ("context", VStr "toolbar")]
          "isAnonymous" = None ->
        obj_get p "isAnonymous"
        = Some (VBool (negb (truthy_opt (userId (va signed_up_page)))))).
Proof.
  apply (trackFeatureUsage_caller_overrides "subtitles"
           [("plan", VStr "enterprise"); ("context", VStr "toolbar")]
           signed_up_page).
  - vm_compute; reflexivity.
  - apply (bool_decide_unpack _). vm_compute; reflexivity.
Defined.

(** ** Visits *)





(** ** Signup through the form *)

(** The id generator returns whatever Math.random gives. *)
Lemma generateRandomUserId_completes (b : Browser) :
  exists id,
    VeedAnalytics.generateRandomUserId b = (Normal id, set_draws (5 + draws b) b).
Proof. open_browser b. eexists. reflexivity. Qed.

(** The id depends on the outcomes of Math.random only. *)
Lemma generateRandomUserId_draws (b b0 : Browser) :
  env b = env b0 -> draws b = draws b0 ->
  outcome VeedAnalytics.generateRandomUserId b
  = outcome VeedAnalytics.generateRandomUserId b0.
Proof.
  intros He Hd. open_browser b. open_browser b0. subst. reflexivity.
Qed.

Ltac js_generate :=
  match goal with
  | |- context [VeedAnalytics.generateRandomUserId ?b0] =>
      let id := fresh "id" in
      let Hrun := fresh "Hrun" in
      destruct (generateRandomUserId_completes b0) as (id & Hrun);
      rewrite Hrun; clear Hrun
  end.

(** X14.  Without the facade the application still signs a visitor up:
    when [window.veedAnalytics] was never assigned, as on a page where the
    vendor's script failed to load, the constructor of the application and
    a signup through the form complete, the user data is stored and the
    user is the current user, and the transport is not called.  No user id
    is stored, so the next page load finds no known visitor. *)
Theorem signup_works_without_the_facade
  (name email password company : string) (b : Browser) :
  window_veedAnalytics b = false ->
  VeedApp.validateSignupForm
    [("name", Some name); ("email", Some email);
     ("password", Some password); ("company", Some company)] = true ->
  outcome VeedApp.constructor b = Normal tt
  /\ calls (after VeedApp.constructor b) = calls b
  /\ let b' := after (VeedApp.handleSignup name email password company) b in
     outcome (VeedApp.handleSignup name email password company) b = Normal tt
     /\ calls b' = calls b
     /\ (exists u, currentUser (window_app b') = Some u
                   /\ rec_str u "email" = Some email
                   /\ localStorage b' !! "veed_user_data"
                      = Some (JSON_stringify (JObj u)))
     /\ localStorage b' !! "veed_user_id" = localStorage b !! "veed_user_id".
Proof.
  intros Hw Hv. open_browser b. subst w.
  split; [|split].
  - js_exec_more fail; reflexivity.
  - js_exec_more fail; reflexivity.
  - cbv zeta. unfold VeedApp.handleSignup. rewrite Hv.
    js_exec_more ltac:(idtac; js_generate).
    repeat split; try reflexivity.
    eexists; repeat split; reflexivity.
Qed.

Lemma signup_works_without_the_facade_witness :
  outcome VeedApp.constructor broken_page = Normal tt
  /\ calls (after VeedApp.constructor broken_page) = calls broken_page
  /\ let b' := after (VeedApp.handleSignup "Ann" "ann@example.com" "secret1"
                        EmptyString) broken_page in
     outcome (VeedApp.handleSignup "Ann" "ann@example.com" "secret1" EmptyString)
       broken_page = Normal tt
     /\ calls b' = calls broken_page
     /\ (exists u, currentUser (window_app b') = Some u
                   /\ rec_str u "email" = Some "ann@example.com"
                   /\ localStorage b' !! "veed_user_data"
                      = Some (JSON_stringify (JObj u)))
     /\ localStorage b' !! "veed_user_id" = localStorage broken_page !! "veed_user_id".
Proof.
  apply (signup_works_without_the_facade "Ann" "ann@example.com" "secret1"
           EmptyString broken_page); vm_compute; reflexivity.
Defined.

(** X15.  A signup through the form makes two user ids.  With the facade
    installed, [performSignup] generates one for the user the application
    holds, and [trackSignup] generates another from the next five
    outcomes of Math.random: this second one is the id the transport is
    given, the facade keeps and the store holds, also inside the stored
    user data.  The id of the application's current user is never sent. *)
Theorem form_signup_generates_two_ids
  (name email password company : string) (b : Browser) :
  analytics_defined b = true ->
  window_veedAnalytics b = true ->
  VeedApp.validateSignupForm
    [("name", Some name); ("email", Some email);
     ("password", Some password); ("company", Some company)] = true ->
  let b' := after (VeedApp.handleSignup name email password company) b in
  exists id1 id2,
    outcome VeedAnalytics.generateRandomUserId b = Normal id1
    /\ outcome VeedAnalytics.generateRandomUserId
         (after VeedAnalytics.generateRandomUserId b) = Normal id2
    /\ outcome (VeedApp.handleSignup name email password company) b = Normal tt
    /\ app_userId b' = Some id1
    /\ identified (calls_since b b') = [Some id2]
    /\ userId (va b') = Some id2
    /\ localStorage b' !! "veed_user_id" = Some id2
    /\ exists u, localStorage b' !! "veed_user_data" = Some (JSON_stringify (JObj u))
                 /\ rec_str u "userId" = Some id2.
Proof.
  intros Hd Hw Hv. cbv zeta.
  destruct (generateRandomUserId_completes b) as (id1 & Hrun1).
  destruct (generateRandomUserId_completes (after VeedAnalytics.generateRandomUserId b))
    as (id2 & Hrun2).
  exists id1, id2.
  split; [unfold outcome; rewrite Hrun1; reflexivity|].
  split; [unfold outcome; rewrite Hrun2; reflexivity|].
  unfold after in Hrun2. rewrite Hrun1 in Hrun2. cbn [snd] in Hrun2.
  unfold VeedApp.handleSignup. rewrite Hv.
  open_browser b. subst d w. cbn [set_draws draws] in Hrun1, Hrun2.
  js_run_more. rewrite Hrun1. js_run_more.
  match goal with
  | |- context [VeedAnalytics.generateRandomUserId ?b0] =>
      assert (Hrun3 : VeedAnalytics.generateRandomUserId b0
                      = (Normal id2, set_draws (5 + draws b0) b0))
  end.
  { match goal with
    | |- ?g ?b0 = _ =>
        destruct (generateRandomUserId_completes b0) as (id3 & Hrun3);
        rewrite Hrun3; f_equal; f_equal;
        assert (Ho : outcome g b0 = Normal id3)
          by (unfold outcome; rewrite Hrun3; reflexivity)
    end.
    erewrite generateRandomUserId_draws in Ho;
      [ unfold outcome in Ho; rewrite Hrun2 in Ho; cbn in Ho; congruence
      | reflexivity | reflexivity ]. }
  rewrite Hrun3. clear Hrun1 Hrun2 Hrun3.
  js_exec_more fail;
    unfold app_userId, calls_since; cbn [calls window_app currentUser];
    rewrite <- ?app_assoc, ?drop_app_length;
    repeat split; try reflexivity;
    eexists; split; reflexivity.
Qed.

Lemma form_signup_generates_two_ids_witness :
  let b' := after (VeedApp.handleSignup "Ann" "ann@example.com" "secret1"
                     EmptyString) loaded_page in
  exists id1 id2,
    outcome VeedAnalytics.generateRandomUserId loaded_page = Normal id1
    /\ outcome VeedAnalytics.generateRandomUserId
         (after VeedAnalytics.generateRandomUserId loaded_page) = Normal id2
    /\ outcome (VeedApp.handleSignup "Ann" "ann@example.com" "secret1" EmptyString)
         loaded_page = Normal tt
    /\ app_userId b' = Some id1
    /\ identified (calls_since loaded_page b') = [Some id2]
    /\ userId (va b') = Some id2
    /\ localStorage b' !! "veed_user_id" = Some id2
    /\ exists u, localStorage b' !! "veed_user_data" = Some (JSON_stringify (JObj u))
                 /\ rec_str u "userId" = Some id2.
Proof.
  apply (form_signup_generates_two_ids "Ann" "ann@example.com" "secret1"
           EmptyString loaded_page); vm_compute; reflexivity.
Defined.

(** X16.  A signup through the form hands the transport no password: no
    trait or property map of the calls it makes has a [password] member.
    The store does: the user data it holds afterwards has the password as
    it was typed. *)
Theorem signup_keeps_the_password_from_the_transport
  (name email password company : string) (b : Browser) :
  analytics_defined b = true ->
  window_veedAnalytics b = true ->
  VeedApp.validateSignupForm
    [("name", Some name); ("email", Some email);
     ("password", Some password); ("company", Some company)] = true ->
  let b' := after (VeedApp.handleSignup name email password company) b in
  forallb (fun p => negb (obj_has p "password")) (maps_sent (calls_since b b'))
  = true
  /\ exists u, localStorage b' !! "veed_user_data" = Some (JSON_stringify (JObj u))
               /\ rec_str u "password" = Some password.
Proof.
  intros Hd Hw Hv. cbv zeta.
  unfold VeedApp.handleSignup. rewrite Hv.
  open_browser b. subst d w.
  js_exec_more ltac:(idtac; js_generate);
    unfold calls_since; cbn [calls];
    rewrite <- ?app_assoc, ?drop_app_length;
    (split; [reflexivity | eexists; split; reflexivity]).
Qed.

Lemma signup_keeps_the_password_from_the_transport_witness :
  let b' := after (VeedApp.handleSignup "Ann" "ann@example.com" "secret1"
                     EmptyString) loaded_page in
  forallb (fun p => negb (obj_has p "password"))
    (maps_sent (calls_since loaded_page b')) = true
  /\ exists u, localStorage b' !! "veed_user_data" = Some (JSON_stringify (JObj u))
               /\ rec_str u "password" = Some "secret1".
Proof.
  apply (signup_keeps_the_password_from_the_transport "Ann" "ann@example.com"
           "secret1" EmptyString loaded_page); vm_compute; reflexivity.
Defined.

(** ** After the logout *)

(** X17.  A logout that reaches the transport sends Logged Out and then
    resets the transport, which has no user bound from then on, and the
    application holds no user.  The facade is not told: it keeps its user
    id, and an upgrade tracked after the logout is identified with the id
    of the user who left. *)
Theorem logout_leaves_the_facade_signed_in
  (planData : PlanData) (b : Browser) :
  analytics_defined b = true ->
  let b1 := after VeedApp.logout b in
  (exists p, calls_since b b1 = [CTrack "Logged Out" p; CReset])
  /\ (forall x, bound_userId (calls b1) x = None)
  /\ currentUser (window_app b1) = None
  /\ known_visitor b1 = false
  /\ userId (va b1) = userId (va b)
  /\ identified
       (calls_since b1 (after (VeedAnalytics.trackSubscriptionUpgrade planData) b1))
     = [userId (va b)].
Proof.
  intros Hd. open_browser b. destruct a as [uid sid aid ini]. subst d.
  cbv zeta.
  split; [js_run_more; eexists; unfold calls_since; cbn [calls];
          rewrite <- app_assoc, drop_app_length; reflexivity|].
  split; [js_run_more; intros x; rewrite !bound_userId_app; reflexivity|].
  split; [reflexivity|].
  split; [unfold known_visitor; js_run_more;
          rewrite lookup_delete_ne, lookup_delete_ne, lookup_delete_eq by discriminate;
          reflexivity|].
  split; [reflexivity|].
  destruct planData as [p bc me [[|]|] re];
    js_exec_more fail;
    erewrite calls_since_app
      by (cbn [calls]; rewrite <- ?app_assoc; reflexivity);
    reflexivity.
Qed.

Lemma logout_leaves_the_facade_signed_in_witness :
  let b1 := after VeedApp.logout returning_page in
  (exists p, calls_since returning_page b1 = [CTrack "Logged Out" p; CReset])
  /\ (forall x, bound_userId (calls b1) x = None)
  /\ currentUser (window_app b1) = None
  /\ known_visitor b1 = false
  /\ userId (va b1) = userId (va returning_page)
  /\ identified
       (calls_since b1
          (after (VeedAnalytics.trackSubscriptionUpgrade sample_upgrade) b1))
     = [userId (va returning_page)].
Proof.
  apply (logout_leaves_the_facade_signed_in sample_upgrade returning_page).
  vm_compute; reflexivity.
Defined.

(** ** The journey stage *)

(** X18.  The journey stage that page views report follows the user.
    After a signup through the form that passed validation the stage is
    [onboarding], or [freemium] when the store already holds the
    milestone of a first project: never [anonymous], and never
    [paid_user], since the signup stores the free plan.  After a logout
    that reaches the transport it is [anonymous]. *)
Theorem journey_stage_follows_the_user :
  (forall (name email password company : string) (l : list string)
          (b : Browser),
      VeedApp.validateSignupForm
        [("name", Some name); ("email", Some email);
         ("password", Some password); ("company", Some company)] = true ->
      milestones_stored b = Some l ->
      outcome VeedAnalytics.getUserJourneyStage
        (after (VeedApp.handleSignup name email password company) b)
      = Normal (if bool_decide ("first_project_created" ∈ l)
                then "freemium" else "onboarding"))
  /\ (forall b : Browser,
        analytics_defined b = true ->
        outcome VeedAnalytics.getUserJourneyStage (after VeedApp.logout b)
        = Normal "anonymous").
Proof.
  split.
  - intros name email password company l b Hv Hm.
    unfold VeedApp.handleSignup. rewrite Hv.
    assert (He : exists c s, email = String c s).
    { unfold VeedApp.validateSignupForm in Hv. cbn in Hv.
      destruct email as [|c s]; [|eauto].
      rewrite orb_true_r in Hv. discriminate. }
    destruct He as (c & s & ->). clear Hv.
    unfold milestones_stored in Hm.
    open_browser b. cbn [localStorage] in Hm.
    destruct (JSON_parse (or_default (st !! "onboarding_milestones") "[]"))
      as [[l'|]|] eqn:Hl; try discriminate.
    injection Hm as ->.
    match goal with
    | |- context [after ?m ?b0] =>
        assert (Hst : let b1 := after m b0 in
                  exists u, localStorage b1 !! "veed_user_data"
                            = Some (JSON_stringify (JObj u))
                            /\ rec_get (normalise u) "email" = Some (Some (String c s))
                            /\ localStorage b1 !! "onboarding_milestones"
                               = st !! "onboarding_milestones"
                            /\ localStorage b1 !! "user_plan" = Some "free")
    end.
    { cbv zeta.
      js_exec_more ltac:(idtac; js_generate);
        eexists; (split; [reflexivity|]); (split; [reflexivity|]);
        split; reflexivity. }
    cbv zeta in Hst. destruct Hst as (u & Hdata & Hemail & Hmil & Hplan).
    match goal with
    | |- context [after ?m ?b0] => generalize dependent (after m b0)
    end.
    intros b1 Hdata Hmil Hplan. open_browser b1.
    js_exec_more ltac:(idtac; first [ rewrite Hdata | rewrite Hmil | rewrite Hl
                                    | rewrite Hplan ]);
      unfold member, members_of in *;
      repeat match goal with
        | H : negb _ = true |- _ => apply negb_true_iff in H
        | H : negb _ = false |- _ => apply negb_false_iff in H
        end;
      first [ rewrite Hemail in *; discriminate
            | match goal with
              | H : bool_decide _ = _ |- _ => rewrite H; reflexivity
              end ].
  - intros b Hd. open_browser b. subst d.
    js_exec_more ltac:(idtac; first [ rewrite lookup_delete_eq
                                    | rewrite lookup_delete_ne by discriminate ]);
      reflexivity.
Qed.

Lemma journey_stage_follows_the_user_witness :
  outcome VeedAnalytics.getUserJourneyStage
    (after (VeedApp.handleSignup "Ann" "ann@example.com" "secret1" EmptyString)
       loaded_page)
  = Normal (if bool_decide ("first_project_created" ∈ @nil string)
            then "freemium" else "onboarding")
  /\ outcome VeedAnalytics.getUserJourneyStage (after VeedApp.logout returning_page)
     = Normal "anonymous".
Proof.
  split.
  - apply (proj1 journey_stage_follows_the_user "Ann" "ann@example.com"
             "secret1" EmptyString [] loaded_page); vm_compute; reflexivity.
  - apply (proj2 journey_stage_follows_the_user returning_page).
    vm_compute; reflexivity.
Defined.

(** ** The upgrade *)

(** X19.  An upgrade through the modal reports the new plan as the
    previous one.  [processUpgrade] stores the new plan before it calls
    [trackSubscriptionUpgrade], which reads the previous plan from the
    store: in the Subscription Upgraded event [previousPlan] and
    [newPlan] are both the plan upgraded to. *)
Theorem upgrade_reports_the_new_plan_as_previous
  (planType billingCycle : string) (b : Browser) :
  analytics_defined b = true ->
  window_veedAnalytics b = true ->
  truthy_string planType = true ->
  let b' := after (VeedApp.processUpgrade planType billingCycle) b in
  outcome (VeedApp.processUpgrade planType billingCycle) b = Normal tt
  /\ event_names (calls_since b b')
     = ["Subscription Upgraded"; "Conversion Completed"]
  /\ identified (calls_since b b') = [userId (va b)]
  /\ exists p,
       events_named "Subscription Upgraded" (calls_since b b') = [p]
       /\ obj_get p "previousPlan" = Some (VStr planType)
       /\ obj_get p "newPlan" = Some (VStr planType).
Proof.
  intros Hd Hw Ht. open_browser b. destruct a as [uid sid aid ini]. subst d w.
  destruct planType as [|c s]; [discriminate|].
  js_exec_more fail;
    unfold calls_since; cbn [calls]; rewrite <- ?app_assoc, ?drop_app_length;
    repeat split; try reflexivity; eexists; repeat split; reflexivity.
Qed.

Lemma upgrade_reports_the_new_plan_as_previous_witness :
  let b' := after (VeedApp.processUpgrade "pro" "monthly") signed_up_page in
  outcome (VeedApp.processUpgrade "pro" "monthly") signed_up_page = Normal tt
  /\ event_names (calls_since signed_up_page b')
     = ["Subscription Upgraded"; "Conversion Completed"]
  /\ identified (calls_since signed_up_page b') = [userId (va signed_up_page)]
  /\ exists p,
       events_named "Subscription Upgraded" (calls_since signed_up_page b') = [p]
       /\ obj_get p "previousPlan" = Some (VStr "pro")
       /\ obj_get p "newPlan" = Some (VStr "pro").
Proof.
  apply (upgrade_reports_the_new_plan_as_previous "pro" "monthly" signed_up_page);
    vm_compute; reflexivity.
Defined.

(** ** Exports started together *)





(** ** Login through the form *)

(** X21.  A login through the form rewrites the stored user data before
    the facade reads it.  The data stored afterwards has the members
    email, name, loginDate, userId and company and no other, so a
    password or a signup date stored before is gone; and the identify
    call of the login, which takes [createdAt] from the stored data, has
    it undefined whatever was stored before. *)
Theorem form_login_rewrites_the_user_data
  (email : string) (r : record) (b : Browser) :
  analytics_defined b = true ->
  window_veedAnalytics b = true ->
  localStorage b !! "veed_user_data" = Some (JSON_stringify (JObj r)) ->
  let b' := after (VeedApp.performLogin email) b in
  outcome (VeedApp.performLogin email) b = Normal tt
  /\ (exists u,
        localStorage b' !! "veed_user_data" = Some (JSON_stringify (JObj u))
        /\ map fst u = ["email"; "name"; "loginDate"; "userId"; "company"])
  /\ exists id t,
       hd_error (calls_since b b') = Some (CIdentify id t)
       /\ obj_get t "createdAt" = Some VUndef.
Proof.
  intros Hd Hw Hdata. open_browser b. subst d w.
  split; [|split].
  - js_exec_more ltac:(idtac; first [rewrite Hdata | js_generate]); reflexivity.
  - js_exec_more ltac:(idtac; first [rewrite Hdata | js_generate]);
      eexists; split; reflexivity.
  - js_exec_more ltac:(idtac; first [rewrite Hdata | js_generate]);
      unfold calls_since; cbn [calls]; rewrite <- ?app_assoc, ?drop_app_length;
      do 2 eexists; split; reflexivity.
Qed.

Lemma form_login_rewrites_the_user_data_witness :
  let b' := after (VeedApp.performLogin "ann@example.com") signed_up_page in
  outcome (VeedApp.performLogin "ann@example.com") signed_up_page = Normal tt
  /\ (exists u,
        localStorage b' !! "veed_user_data" = Some (JSON_stringify (JObj u))
        /\ map fst u = ["email"; "name"; "loginDate"; "userId"; "company"])
  /\ exists id t,
       hd_error (calls_since signed_up_page b') = Some (CIdentify id t)
       /\ obj_get t "createdAt" = Some VUndef.
Proof.
  apply (form_login_rewrites_the_user_data "ann@example.com"
           [("name", Some "Ann"); ("email", Some "ann@example.com");
            ("password", Some "secret1"); ("company", Some EmptyString);
            ("signupDate", Some "T1700000003000"); ("plan", Some "free");
            ("userId", Some "3AHOV"); ("createdAt", Some "T1700000004000")]
           signed_up_page); vm_compute; reflexivity.
Defined.

(** ** Unreadable user data *)



(** ** What a plan gives access to *)

(** X23.  An invitation is sent only from a paid plan and only to a valid
    email: [inviteCollaborator] sends the Invite Sent event exactly when
    the current plan is not the free one and the visitor typed an email
    that [isValidEmail] accepts.  On the free plan the prompt for the
    email is not even shown. *)
Theorem invites_need_a_paid_plan_and_a_valid_email
  (answer : option string) (b : Browser) :
  analytics_defined b = true ->
  window_veedAnalytics b = true ->
  existsb (String.eqb "Invite Sent")
    (event_names (calls_since b (after (VeedApp.inviteCollaborator answer) b)))
  = negb (String.eqb (currentPlan (window_app b)) "free")
    && match answer with
       | Some email => truthy_string email && VeedApp.isValidEmail email
       | None => false
       end.
Proof.
  intros Hd Hw. open_browser b. destruct a as [uid sid aid ini], ap as [cu cp pc t0].
  cbn [analytics_defined window_veedAnalytics window_app currentPlan] in *.
  subst d w.
  destruct answer as [email|];
    js_exec_more fail;
    erewrite calls_since_app
      by (cbn [calls]; first [ symmetry; apply app_nil_r
                             | rewrite <- ?app_assoc; reflexivity ]);
    reflexivity.
Qed.

Lemma invites_need_a_paid_plan_and_a_valid_email_witness :
  existsb (String.eqb "Invite Sent")
    (event_names
       (calls_since returning_page
          (after (VeedApp.inviteCollaborator (Some "bob@example.com"))
             returning_page)))
  = negb (String.eqb (currentPlan (window_app returning_page)) "free")
    && (truthy_string "bob@example.com" && VeedApp.isValidEmail "bob@example.com").
Proof.
  apply (invites_need_a_paid_plan_and_a_valid_email (Some "bob@example.com")
           returning_page); vm_compute; reflexivity.
Defined.

(** X24.  The team space is for signed-in users of the business plan:
    [accessTeamSpace] sends Team Space Accessed exactly when the
    application holds a user and the current plan is [business], and
    Team Space Feature Blocked exactly when it holds a user on another
    plan.  A visitor who is not signed in gets neither. *)
Theorem team_space_is_for_the_business_plan (b : Browser) :
  analytics_defined b = true ->
  let names := event_names (calls_since b (after Page.accessTeamSpace b)) in
  let signed := bool_decide (currentUser (window_app b) <> None) in
  let business := String.eqb (currentPlan (window_app b)) "business" in
  existsb (String.eqb "Team Space Accessed") names = signed && business
  /\ existsb (String.eqb "Team Space Feature Blocked") names
     = signed && negb business.
Proof.
  intros Hd. open_browser b. destruct a as [uid sid aid ini], ap as [cu cp pc t0].
  cbn [analytics_defined window_app currentPlan currentUser] in *. subst d.
  cbv zeta.
  destruct cu as [u|];
    js_exec_more fail;
    erewrite !calls_since_app
      by (cbn [calls]; first [ symmetry; apply app_nil_r
                             | rewrite <- ?app_assoc; reflexivity ]);
    repeat match goal with
      | H : negb _ = true |- _ => apply negb_true_iff in H
      | H : negb _ = false |- _ => apply negb_false_iff in H
      end;
    repeat match goal with
      | H : String.eqb _ _ = _ |- _ => rewrite H; clear H
      end;
    split; reflexivity.
Qed.

Lemma team_space_is_for_the_business_plan_witness :
  let names := event_names (calls_since returning_page
                              (after Page.accessTeamSpace returning_page)) in
  let signed := bool_decide (currentUser (window_app returning_page) <> None) in
  let business := String.eqb (currentPlan (window_app returning_page)) "business" in
  existsb (String.eqb "Team Space Accessed") names = signed && business
  /\ existsb (String.eqb "Team Space Feature Blocked") names
     = signed && negb business.
Proof.
  apply (team_space_is_for_the_business_plan returning_page).
  vm_compute; reflexivity.
Defined.

(** ** Reloading the page *)




